(** * jamftf_runner: the record normalizer and the import compiler

    A shallow embedding of the core of [jamftf_runner.py]: the name
    sanitizer, the shape prober [obj_to_dict_deep], the identifier and name
    extractors, the tag classifier, the item accessor and
    [compose_import_hcl], followed by the properties proved about them.

    Conventions of the model.
    - Text is [string]; one [ascii] stands for one code point below 256, and
      the Unicode-aware primitives ([str.strip], [str.lower],
      [str.isdigit], [repr]) are written out for that range.
    - A Python exception that leaves a function is the result [Raise]; a
      [try ... except Exception: pass] turns [Raise] into "nothing found".
      Exceptions come from reading an attribute, from calling a callable,
      from indexing, from [json.loads], [json.dumps] and [open]; [str],
      [repr] and the truth test of a value always return.
    - Field names are strings, numbers are integers; an object is true. *)

From Stdlib Require Import List String Ascii ZArith Bool Arith Lia.
From Stdlib Require Import DecimalString.
Import ListNotations.
Local Open Scope string_scope.
Local Open Scope list_scope.
Local Open Scope nat_scope.

(** ** Results: a value, or an exception that propagates *)

Inductive res (A : Type) : Type :=
| Ok (a : A)
| Raise.
Arguments Ok {A} a.
Arguments Raise {A}.

Definition bind {A B : Type} (r : res A) (k : A -> res B) : res B :=
  match r with
  | Ok a => k a
  | Raise => Raise
  end.

Definition fmap {A B : Type} (f : A -> B) (r : res A) : res B :=
  bind r (fun a => Ok (f a)).

Notation "x <- r ;; k" := (bind r (fun x => k))
  (at level 61, r at next level, right associativity).

(** ** Characters and text *)

Definition code (c : ascii) : nat := nat_of_ascii c.

Definition between (lo hi : nat) (c : ascii) : bool :=
  (lo <=? code c) && (code c <=? hi).

Definition is_lower (c : ascii) : bool := between 97 122 c.
Definition is_dec (c : ascii) : bool := between 48 57 c.
Definition is_underscore (c : ascii) : bool := code c =? 95.

(** The character class [[a-z0-9_]]. *)
Definition word (c : ascii) : bool := is_lower c || is_dec c || is_underscore c.

(** [str.isspace] on one character. *)
Definition py_isspace (c : ascii) : bool :=
  between 9 13 c || between 28 32 c || (code c =? 133) || (code c =? 160).

(** [str.isdigit] on one character: the decimal digits and the superscripts
    two, three and one. *)
Definition py_isdigit (c : ascii) : bool :=
  is_dec c || (code c =? 178) || (code c =? 179) || (code c =? 185).

(** [str.lower] on one character: A-Z, and the upper-case letters of the
    Latin-1 supplement (all of 192..222 but the multiplication sign). *)
Definition py_lower (c : ascii) : ascii :=
  if between 65 90 c || between 192 214 c || between 216 222 c
  then ascii_of_nat (code c + 32)
  else c.

Definition chars (s : string) : list ascii := list_ascii_of_string s.
Definition text (l : list ascii) : string := string_of_list_ascii l.

Fixpoint lstrip (p : ascii -> bool) (l : list ascii) : list ascii :=
  match l with
  | c :: t => if p c then lstrip p t else l
  | [] => []
  end.

Definition rstrip (p : ascii -> bool) (l : list ascii) : list ascii :=
  rev (lstrip p (rev l)).

(** [s.strip()] with [p := py_isspace], [s.strip("_")] with
    [p := is_underscore]. *)
Definition strip (p : ascii -> bool) (l : list ascii) : list ascii :=
  rstrip p (lstrip p l).

(** [re.sub(r"[^a-z0-9_]+", "_", s)]: every maximal run of characters outside
    the class becomes one underscore.  [in_run] tells that the run the
    current character would belong to has been replaced already. *)
Fixpoint sub_runs (in_run : bool) (l : list ascii) : list ascii :=
  match l with
  | [] => []
  | c :: t =>
      if word c then c :: sub_runs false t
      else if in_run then sub_runs true t
      else "_"%char :: sub_runs true t
  end.

Definition re_sub_nonword (l : list ascii) : list ascii := sub_runs false l.

(** The steps of [sanitize_name] after [str(s)]. *)
Definition sanitize_chars (l : list ascii) : list ascii :=
  let s := map py_lower (strip py_isspace l) in
  let s := re_sub_nonword s in
  let s := strip is_underscore s in
  match s with
  | [] => chars "r"
  | c :: _ => if py_isdigit c then chars "r_" ++ s else s
  end.

(** The pattern [^[a-z_][a-z0-9_]*$], as a full match. *)
Definition is_identifier (s : string) : bool :=
  match chars s with
  | [] => false
  | c :: t => (is_lower c || is_underscore c) && forallb word t
  end.

(** String concatenation is written [+++]; [++] stays the one of lists. *)
Infix "+++" := String.append (right associativity, at level 60).

Definition nl : string := String "010" "".
Definition dq : string := String "034" "".
Definition bs : string := String "092" "".

(** [sep.join(parts)]. *)
Definition join (sep : string) (parts : list string) : string :=
  String.concat sep parts.

Definition is_prefix (p s : string) : bool := String.prefix p s.

(** [sub in s] for two strings. *)
Fixpoint contains (sub s : string) : bool :=
  is_prefix sub s ||
  match s with
  | String _ t => contains sub t
  | EmptyString => false
  end.

(** [re.search("(a1|a2|...)", s)] for literal alternatives: the leftmost
    position where one of them matches, the first of them in the order
    written; the result is the text matched. *)
Fixpoint search_first (alts : list string) (s : string) : option string :=
  match find (fun a => is_prefix a s) alts with
  | Some a => Some a
  | None =>
      match s with
      | String _ t => search_first alts t
      | EmptyString => None
      end
  end.

Definition str_of_Z (z : Z) : string := NilZero.string_of_int (Z.to_int z).

Definition hex_digit (n : nat) : ascii :=
  if n <? 10 then ascii_of_nat (48 + n) else ascii_of_nat (87 + n).

(** Two lower-case hexadecimal digits. *)
Definition hex2 (n : nat) : string :=
  String (hex_digit (n / 16)) (String (hex_digit (n mod 16)) "").

Definition has_char (c : ascii) (s : string) : bool :=
  existsb (Ascii.eqb c) (chars s).

(** The quote [repr] picks: double quotes only when the text holds a single
    quote and no double quote. *)
Definition repr_quote (s : string) : ascii :=
  if has_char "'" s && negb (has_char "034" s) then "034"%char else "'"%char.

(** [str.isprintable] for code points 128..255. *)
Definition printable_high (c : ascii) : bool :=
  between 161 172 c || between 174 255 c.

Definition repr_char (bytes : bool) (q c : ascii) : string :=
  if Ascii.eqb c q || (code c =? 92) then bs +++ String c ""
  else if code c =? 9 then bs +++ "t"
  else if code c =? 10 then bs +++ "n"
  else if code c =? 13 then bs +++ "r"
  else if (code c <? 32) || (code c =? 127) then bs +++ "x" +++ hex2 (code c)
  else if code c <? 127 then String c ""
  else if negb bytes && printable_high c then String c ""
  else bs +++ "x" +++ hex2 (code c).

(** [repr] of a [str] ([bytes := false]) and of a [bytes] value without its
    leading [b]. *)
Definition repr_text (bytes : bool) (s : string) : string :=
  let q := repr_quote s in
  String q "" +++ String.concat "" (map (repr_char bytes q) (chars s)) +++ String q "".

(** [json.dumps] of a string with [ensure_ascii=False]. *)
Definition json_char (c : ascii) : string :=
  if code c =? 34 then bs +++ dq
  else if code c =? 92 then bs +++ bs
  else if code c =? 10 then bs +++ "n"
  else if code c =? 13 then bs +++ "r"
  else if code c =? 9 then bs +++ "t"
  else if code c =? 8 then bs +++ "b"
  else if code c =? 12 then bs +++ "f"
  else if code c <? 32 then bs +++ "u00" +++ hex2 (code c)
  else String c "".

Definition json_text (s : string) : string :=
  dq +++ String.concat "" (map json_char (chars s)) +++ dq.

(** ** Python values

    [VFun0] and [VFun1] are callables (bound methods, functions) taking no
    argument and one string argument; called with another number of arguments
    they raise [TypeError].  Their first field is what [str] and [repr] give.
    An object carries the identity [id(o)], its [str] and [repr], and its
    attributes: [Stored] ones live in the instance dictionary (so [vars] shows
    them), [Shared] ones are found through the class, and reading a
    [Raising] one raises an exception other than [AttributeError]. *)

#[warnings="-register-all"]
Inductive pyval : Type :=
| VNone
| VBool (b : bool)
| VInt (z : Z)
| VStr (s : string)
| VBytes (s : string)
| VList (l : list pyval)
| VTuple (l : list pyval)
| VDict (kv : list (string * pyval))
| VFun0 (rep : string) (r : res pyval)
| VFun1 (rep : string) (f : string -> res pyval)
| VObj (oid : nat) (o_str o_repr : string) (attrs : list (string * attr))
with attr : Type :=
| Stored (v : pyval)
| Shared (v : pyval)
| Raising.

(** A FieldMap: the entries of a [dict], in insertion order. *)
Definition fieldmap : Type := list (string * pyval).

Fixpoint lookup {A : Type} (k : string) (kv : list (string * A)) : option A :=
  match kv with
  | [] => None
  | (k', v) :: t => if String.eqb k k' then Some v else lookup k t
  end.

(** [d.get(k)]. *)
Definition dict_get (kv : fieldmap) (k : string) : pyval :=
  match lookup k kv with Some v => v | None => VNone end.

(** [d[k] = v]: an existing key keeps its place. *)
Fixpoint dict_set (kv : fieldmap) (k : string) (v : pyval) : fieldmap :=
  match kv with
  | [] => [(k, v)]
  | (k', v') :: t =>
      if String.eqb k k' then (k', v) :: t else (k', v') :: dict_set t k v
  end.

(** Truth value, as [if v:] and [not v] test it, of the built-in types and
    of an object whose class keeps the truth test of [object].  The truth
    test of a class that overrides it, which can raise, is [Conv.bool_of]
    below. *)
Definition truthy (v : pyval) : bool :=
  match v with
  | VNone => false
  | VBool b => b
  | VInt z => negb (Z.eqb z 0)
  | VStr s | VBytes s => negb (String.eqb s "")
  | VList l | VTuple l => negb (Nat.eqb (List.length l) 0)
  | VDict kv => negb (Nat.eqb (List.length kv) 0)
  | VFun0 _ _ | VFun1 _ _ | VObj _ _ _ _ => true
  end.

(** [v != ""], under the same proviso; [Conv.differs_from_empty] is the
    comparison that can raise. *)
Definition ne_empty_str (v : pyval) : bool :=
  match v with
  | VStr s => negb (String.eqb s "")
  | _ => true
  end.

Definition is_none (v : pyval) : bool :=
  match v with VNone => true | _ => false end.

Definition callable (v : pyval) : bool :=
  match v with VFun0 _ _ | VFun1 _ _ => true | _ => false end.

(** [fn()] and [fn(k)]. *)
Definition py_call0 (fn : pyval) : res pyval :=
  match fn with VFun0 _ r => r | _ => Raise end.

Definition py_call1 (fn : pyval) (k : string) : res pyval :=
  match fn with VFun1 _ f => f k | _ => Raise end.

Definition repr_seq (opening closing : string) (parts : list string) : string :=
  opening +++ join ", " parts +++ closing.

(** [repr(v)], for objects whose [__repr__] returns the text carried;
    [Conv.repr_of] is the [repr] that can raise. *)
Fixpoint py_repr (v : pyval) : string :=
  match v with
  | VNone => "None"
  | VBool true => "True"
  | VBool false => "False"
  | VInt z => str_of_Z z
  | VStr s => repr_text false s
  | VBytes s => "b" +++ repr_text true s
  | VList l => repr_seq "[" "]" (map py_repr l)
  | VTuple [x] => "(" +++ py_repr x +++ ",)"
  | VTuple l => repr_seq "(" ")" (map py_repr l)
  | VDict kv =>
      repr_seq "{" "}"
        (map (fun e => repr_text false (fst e) +++ ": " +++ py_repr (snd e)) kv)
  | VFun0 rep _ | VFun1 rep _ => rep
  | VObj _ _ o_repr _ => o_repr
  end.

(** [str(v)], for objects whose [__str__] returns the text carried;
    [Conv.str_of] is the [str] that can raise. *)
Definition py_str (v : pyval) : string :=
  match v with
  | VStr s => s
  | VObj _ o_str _ _ => o_str
  | _ => py_repr v
  end.

Definition all_some {A : Type} (l : list (option A)) : option (list A) :=
  fold_right
    (fun x acc =>
       match x, acc with
       | Some a, Some t => Some (a :: t)
       | _, _ => None
       end)
    (Some []) l.

(** [json.dumps(v, ensure_ascii=False)]; [None] is the [TypeError] raised for
    a value that is not serializable. *)
Fixpoint json_dumps (v : pyval) : option string :=
  match v with
  | VNone => Some "null"
  | VBool true => Some "true"
  | VBool false => Some "false"
  | VInt z => Some (str_of_Z z)
  | VStr s => Some (json_text s)
  | VList l | VTuple l =>
      option_map (repr_seq "[" "]") (all_some (map json_dumps l))
  | VDict kv =>
      option_map (repr_seq "{" "}")
        (all_some
           (map (fun e =>
                   option_map (fun t => json_text (fst e) +++ ": " +++ t)
                              (json_dumps (snd e)))
                kv))
  | VBytes _ | VFun0 _ _ | VFun1 _ _ | VObj _ _ _ _ => None
  end.

(** The attributes of the built-in types that the program asks for: [get],
    [keys] and [items] of a [dict]. *)
Definition dict_attr (kv : fieldmap) (name : string) : pyval :=
  if String.eqb name "get" then
    VFun1 "<built-in method get of dict object>" (fun k => Ok (dict_get kv k))
  else if String.eqb name "keys" then
    VFun0 "<built-in method keys of dict object>"
      (Ok (VList (map (fun e => VStr (fst e)) kv)))
  else if String.eqb name "items" then
    VFun0 "<built-in method items of dict object>"
      (Ok (VList (map (fun e => VTuple [VStr (fst e); snd e]) kv)))
  else VNone.

(** [getattr(o, name, None)]. *)
Definition py_getattr (o : pyval) (name : string) : res pyval :=
  match o with
  | VObj _ _ _ attrs =>
      match lookup name attrs with
      | Some (Stored v) | Some (Shared v) => Ok v
      | Some Raising => Raise
      | None => Ok VNone
      end
  | VDict kv => Ok (dict_attr kv name)
  | _ => Ok VNone
  end.

(** [hasattr(o, name)] for the names the program asks for: [keys], [get] and
    [__iter__]. *)
Definition py_hasattr (o : pyval) (name : string) : res bool :=
  match o with
  | VObj _ _ _ attrs =>
      match lookup name attrs with
      | Some Raising => Raise
      | Some _ => Ok true
      | None => Ok false
      end
  | VDict _ =>
      Ok (String.eqb name "keys" || String.eqb name "get" || String.eqb name "__iter__")
  | VList _ | VTuple _ | VStr _ | VBytes _ => Ok (String.eqb name "__iter__")
  | _ => Ok false
  end.

(** [isinstance(v, Iterable)]: decided on the type, no attribute is read. *)
Definition is_iterable (v : pyval) : bool :=
  match v with
  | VList _ | VTuple _ | VStr _ | VBytes _ | VDict _ => true
  | VObj _ _ _ attrs => match lookup "__iter__" attrs with Some _ => true | None => false end
  | _ => false
  end.

(** [list(v)].  The [__iter__] of an object is a callable whose result lists
    the elements the iteration yields. *)
Definition py_list (v : pyval) : res (list pyval) :=
  match v with
  | VList l | VTuple l => Ok l
  | VStr s => Ok (map (fun c => VStr (String c "")) (chars s))
  | VBytes s => Ok (map (fun c => VInt (Z.of_nat (code c))) (chars s))
  | VDict kv => Ok (map (fun e => VStr (fst e)) kv)
  | VObj _ _ _ _ =>
      it <- py_getattr v "__iter__" ;;
      r <- py_call0 it ;;
      match r with VList l => Ok l | _ => Raise end
  | _ => Raise
  end.

(** [v[k]] for a string [k].  Indexing an object runs the [__getitem__] of
    its class: an instance field of that name is not used, and without such a
    method indexing raises [TypeError]. *)
Definition py_getitem (v : pyval) (k : string) : res pyval :=
  match v with
  | VDict kv => match lookup k kv with Some x => Ok x | None => Raise end
  | VObj _ _ _ attrs =>
      match lookup "__getitem__" attrs with
      | Some (Shared f) => py_call1 f k
      | _ => Raise
      end
  | _ => Raise
  end.

(** [try: r  except Exception: pass], for a strategy whose failure means
    "nothing found". *)
Definition swallow {A : Type} (r : res (option A)) : res (option A) :=
  match r with
  | Raise => Ok None
  | _ => r
  end.

(** ** sanitize_name *)

Definition sanitize_name (s : pyval) : string :=
  text (sanitize_chars (chars (py_str s))).

(** ** The environment

    [json.loads] belongs to the standard library and the file system to the
    operating system: the development is parametric in both.  [json_loads s]
    is [Raise] when [s] is not a JSON document; [can_open p] tells whether
    [open(p, "w")] succeeds. *)

Section Runner.

Variable json_loads : pyval -> res pyval.
Variable can_open : string -> bool.

Definition _json_try_parse (s : pyval) : pyval :=
  match s with
  | VStr _ | VBytes _ =>
      match json_loads s with
      | Ok v => v
      | Raise => VNone
      end
  | _ => VNone
  end.

(** ** obj_to_dict_deep

    The walk threads the set [seen] of visited identities; what it has added
    stays added when an exception is caught.  A step of the walk yields the
    value returned ([Some d] for a dict, [None] for [None]) or [Raise],
    together with the set.

    Identities are tracked for objects only: a [dict] that is visited is
    returned at once and ends the probe, and visiting any other value that is
    not an object (text, numbers, sequences, callables) finds nothing whether
    it was visited before or not, since such a value has none of the
    attributes probed and no instance dictionary to show. *)

Definition seen_set : Type := list nat.
Definition walk_result : Type := (res (option fieldmap) * seen_set)%type.
Definition walker : Type := pyval -> seen_set -> walk_result.

Definition seen_mem (oid : nat) (seen : seen_set) : bool :=
  existsb (Nat.eqb oid) seen.

Definition container_attrs : list string :=
  ["data"; "_data"; "payload"; "_payload"; "raw"; "_raw"; "value"; "_value";
   "item"; "obj"; "object"; "response"; "record"; "entity"; "document"; "body"].

Definition conversion_methods : list string := ["to_dict"; "dict"; "model_dump"].

(** The names [o.keys()] yields, as field names.  The development covers
    mapping-like objects whose keys are strings: a FieldMap has string keys,
    so for a key of another type, which the source keeps in the dict it
    builds, the strategy is taken to fail.  Where a statement below says what
    the prober finds for a mapping-like object, its keys are strings. *)
Fixpoint field_names (l : list pyval) : res (list string) :=
  match l with
  | [] => Ok []
  | VStr k :: t => ks <- field_names t ;; Ok (k :: ks)
  | _ :: _ => Raise
  end.

Fixpoint comprehend (get : pyval) (ks : list string) (acc : fieldmap) : res fieldmap :=
  match ks with
  | [] => Ok acc
  | k :: t => v <- py_call1 get k ;; comprehend get t (dict_set acc k v)
  end.

(** [{k: o.get(k) for k in o.keys()}]. *)
Definition materialize (o : pyval) : res (option fieldmap) :=
  keys <- py_getattr o "keys" ;;
  ks <- py_call0 keys ;;
  elems <- py_list ks ;;
  names <- field_names elems ;;
  get <- py_getattr o "get" ;;
  d <- comprehend get names [] ;;
  Ok (Some d).

(** Mapping-like: [hasattr(o, "keys") and hasattr(o, "get")], then the
    comprehension under [try]. *)
Definition try_mapping (o : pyval) (seen : seen_set) : walk_result :=
  match py_hasattr o "keys" with
  | Raise => (Raise, seen)
  | Ok false => (Ok None, seen)
  | Ok true =>
      match py_hasattr o "get" with
      | Raise => (Raise, seen)
      | Ok false => (Ok None, seen)
      | Ok true => (swallow (materialize o), seen)
      end
  end.

(** The loop over the container attributes; nothing is caught here. *)
Fixpoint probe_attrs (rec : walker) (o : pyval) (names : list string)
         (seen : seen_set) : walk_result :=
  match names with
  | [] => (Ok None, seen)
  | a :: rest =>
      match py_getattr o a with
      | Raise => (Raise, seen)
      | Ok (VDict kv) => (Ok (Some kv), seen)
      | Ok VNone => probe_attrs rec o rest seen
      | Ok v =>
          match rec v seen with
          | (Ok None, seen') => probe_attrs rec o rest seen'
          | r => r
          end
      end
  end.

(** The loop over the conversion methods: [getattr] is outside the [try],
    the call and the recursive walk are inside. *)
Fixpoint probe_methods (rec : walker) (o : pyval) (names : list string)
         (seen : seen_set) : walk_result :=
  match names with
  | [] => (Ok None, seen)
  | m :: rest =>
      match py_getattr o m with
      | Raise => (Raise, seen)
      | Ok fn =>
          if callable fn then
            match py_call0 fn with
            | Raise => probe_methods rec o rest seen
            | Ok (VDict kv) => (Ok (Some kv), seen)
            | Ok v =>
                match rec v seen with
                | (Ok (Some d), seen') => (Ok (Some d), seen')
                | (_, seen') => probe_methods rec o rest seen'
                end
            end
          else probe_methods rec o rest seen
      end
  end.

(** [json()]: its result is parsed, and kept when it is a dict. *)
Definition probe_json (o : pyval) (seen : seen_set) : walk_result :=
  match py_getattr o "json" with
  | Raise => (Raise, seen)
  | Ok fn =>
      if callable fn then
        match py_call0 fn with
        | Raise => (Ok None, seen)
        | Ok s =>
            match _json_try_parse s with
            | VDict kv => (Ok (Some kv), seen)
            | _ => (Ok None, seen)
            end
        end
      else (Ok None, seen)
  end.

(** [vars(o)]: the instance dictionary. *)
Fixpoint instance_dict (attrs : list (string * attr)) : fieldmap :=
  match attrs with
  | [] => []
  | (k, Stored v) :: t => (k, v) :: instance_dict t
  | _ :: t => instance_dict t
  end.

(** The last strategy, all of it under [try]: a single field is walked
    first; an exception in that walk ends the strategy with nothing. *)
Definition probe_vars (rec : walker) (attrs : list (string * attr))
           (seen : seen_set) : walk_result :=
  match instance_dict attrs with
  | [] => (Ok None, seen)
  | [(k, x)] =>
      match rec x seen with
      | (Ok (Some d), seen') => (Ok (Some d), seen')
      | (Ok None, seen') => (Ok (Some [(k, x)]), seen')
      | (Raise, seen') => (Ok None, seen')
      end
  | v => (Ok (Some v), seen)
  end.

(** Sequencing of strategies: the first that returns a dict or raises ends
    the walk. *)
Definition or_else (r : walk_result) (next : seen_set -> walk_result) : walk_result :=
  match r with
  | (Ok None, seen) => next seen
  | _ => r
  end.

(** The body of [_walk] at a depth that is not negative; [rec] is [_walk] one
    level deeper. *)
Definition walk_body (rec : walker) (o : pyval) (seen : seen_set) : walk_result :=
  match o with
  | VDict kv => (Ok (Some kv), seen)
  | VObj oid _ _ attrs =>
      if seen_mem oid seen then (Ok None, seen)
      else
        let seen := oid :: seen in
        or_else (try_mapping o seen) (fun seen =>
        or_else (probe_attrs rec o container_attrs seen) (fun seen =>
        or_else (probe_methods rec o conversion_methods seen) (fun seen =>
        or_else (probe_json o seen) (fun seen =>
        probe_vars rec attrs seen))))
  | _ => (Ok None, seen)
  end.

(** [_walk levels o] is [_walk(o, levels - 1)]: no level left means
    [depth < 0]. *)
Fixpoint _walk (levels : nat) : walker :=
  match levels with
  | O => fun _ seen => (Ok None, seen)
  | S n => walk_body (_walk n)
  end.

Definition obj_to_dict_deep (obj : pyval) (max_depth : Z) : res (option fieldmap) :=
  fst (_walk (Z.to_nat (max_depth + 1)) obj []).

(** ** extract_id_any *)

Definition id_keys : list string :=
  ["jpro_id"; "id"; "Id"; "ID"; "profileId"; "profileID"; "uuid"; "uid"].

Definition nested_sections : list string :=
  ["general"; "profile"; "configurationProfile"; "payloadContent"; "data"].

Definition nested_id_keys : list string := ["jpro_id"; "id"; "uuid"; "profileId"].

(** [for k in keys: if k in d and d[k] is not None and d[k] != "": return str(d[k])]. *)
Fixpoint scan_top_id (d : fieldmap) (keys : list string) : option string :=
  match keys with
  | [] => None
  | k :: rest =>
      match lookup k d with
      | Some v =>
          if negb (is_none v) && ne_empty_str v then Some (py_str v)
          else scan_top_id d rest
      | None => scan_top_id d rest
      end
  end.

(** [for ik in keys: if sub.get(ik): return str(sub[ik])]. *)
Fixpoint scan_truthy (sub : fieldmap) (keys : list string) : option pyval :=
  match keys with
  | [] => None
  | k :: rest =>
      if truthy (dict_get sub k) then Some (dict_get sub k)
      else scan_truthy sub rest
  end.

Fixpoint scan_nested_id (d : fieldmap) (sections : list string) : option string :=
  match sections with
  | [] => None
  | k :: rest =>
      match dict_get d k with
      | VDict sub =>
          match scan_truthy sub nested_id_keys with
          | Some v => Some (py_str v)
          | None => scan_nested_id d rest
          end
      | _ => scan_nested_id d rest
      end
  end.

(** [for k in keys: v = getattr(item, k, None); if v: return v]. *)
Fixpoint scan_attrs (item : pyval) (keys : list string) : res (option pyval) :=
  match keys with
  | [] => Ok None
  | k :: rest =>
      v <- py_getattr item k ;;
      if truthy v then Ok (Some v) else scan_attrs item rest
  end.

(** [for k in keys: try: v = get(k); if v: return v  except: pass]. *)
Fixpoint scan_get (get : pyval) (keys : list string) : option pyval :=
  match keys with
  | [] => None
  | k :: rest =>
      match py_call1 get k with
      | Ok v => if truthy v then Some v else scan_get get rest
      | Raise => scan_get get rest
      end
  end.

(** [try: v = item[k]; if v: return v  except: pass]. *)
Definition index_truthy (item : pyval) (k : string) : option pyval :=
  match py_getitem item k with
  | Ok v => if truthy v then Some v else None
  | Raise => None
  end.

(** The part of [extract_id_any] after the probe. *)
Definition id_fallbacks (item : pyval) : res (option string) :=
  a <- scan_attrs item id_keys ;;
  match a with
  | Some v => Ok (Some (py_str v))
  | None =>
      get <- py_getattr item "get" ;;
      match (if callable get then scan_get get nested_id_keys else None) with
      | Some v => Ok (Some (py_str v))
      | None =>
          match index_truthy item "jpro_id" with
          | Some v => Ok (Some (py_str v))
          | None =>
              match index_truthy item "id" with
              | Some v => Ok (Some (py_str v))
              | None => Ok None
              end
          end
      end
  end.

Definition id_from_fieldmap (d : fieldmap) : option string :=
  match scan_top_id d id_keys with
  | Some s => Some s
  | None => scan_nested_id d nested_sections
  end.

Definition extract_id_any (item : pyval) : res (option string) :=
  d <- obj_to_dict_deep item 3 ;;
  match (match d with Some kv => id_from_fieldmap kv | None => None end) with
  | Some s => Ok (Some s)
  | None => id_fallbacks item
  end.

(** ** extract_name_any *)

Definition name_keys : list string :=
  ["name"; "displayName"; "profileName"; "computer_group_name"; "generalName"].

Definition name_attrs : list string := ["name"; "displayName"; "profileName"].

Fixpoint scan_nested_name (d : fieldmap) (sections : list string) : option pyval :=
  match sections with
  | [] => None
  | k :: rest =>
      match dict_get d k with
      | VDict sub =>
          if truthy (dict_get sub "name") then Some (dict_get sub "name")
          else scan_nested_name d rest
      | _ => scan_nested_name d rest
      end
  end.

Definition name_from_fieldmap (d : fieldmap) : option pyval :=
  match scan_truthy d name_keys with
  | Some v => Some v
  | None => scan_nested_name d nested_sections
  end.

Definition extract_name_any (item : pyval) (fallback_id : string) : res string :=
  d <- obj_to_dict_deep item 3 ;;
  match (match d with Some kv => name_from_fieldmap kv | None => None end) with
  | Some v => Ok (sanitize_name v)
  | None =>
      a <- scan_attrs item name_attrs ;;
      match a with
      | Some v => Ok (sanitize_name v)
      | None => Ok (sanitize_name (VStr ("id_" +++ fallback_id)))
      end
  end.

(** ** The tag classifier and the item accessor *)

Definition TERRAFORM_TYPE_MAP : list (string * string) :=
  [("MACOS_CONFIG_PROFILE", "jamfpro_macos_configuration_profile_plist");
   ("SCRIPT", "jamfpro_script");
   ("CATEGORY", "jamfpro_category");
   ("POLICY", "jamfpro_policy");
   ("STATIC_COMPUTER_GROUP", "jamfpro_static_computer_group");
   ("SMART_COMPUTER_GROUP", "jamfpro_smart_computer_group");
   ("ADVANCED_COMPUTER_SEARCH", "jamfpro_advanced_computer_search");
   ("COMPUTER_EXTENSION_ATTRIBUTE", "jamfpro_computer_extension_attribute")].

(** The alternatives of the pattern in [detect_tag], in the order written. *)
Definition tag_alternatives : list string :=
  ["MACOS_CONFIG_PROFILE"; "SCRIPT"; "CATEGORY"; "POLICY";
   "STATIC_COMPUTER_GROUP"; "SMART_COMPUTER_GROUP";
   "ADVANCED_COMPUTER_SEARCH"; "COMPUTER_EXTENSION_ATTRIBUTE"].

Definition detect_tag (r : pyval) : res string :=
  tag <- py_getattr r "resource_type" ;;
  tag <- (if is_none tag then py_getattr r "provider_tag" else Ok tag) ;;
  let tag_str := py_str tag in
  match search_first tag_alternatives tag_str with
  | Some m => Ok m
  | None => Ok tag_str
  end.

(** The loop [for key, val in TERRAFORM_TYPE_MAP.items(): if key in tag: ...]. *)
Definition classify (tag : string) : option string :=
  match find (fun e => contains (fst e) tag) TERRAFORM_TYPE_MAP with
  | Some e => Some (snd e)
  | None => None
  end.

Definition cand_attrs : list string := ["data"; "_data"; "dataset"; "items"; "all"].
Definition getter_methods : list string := ["get_all"; "to_list"; "list"; "all"].

Definition is_str_bytes_dict (v : pyval) : bool :=
  match v with VStr _ | VBytes _ | VDict _ => true | _ => false end.

(** [try: val = fn(); if isinstance(val, list): return val;
    if isinstance(val, Iterable): return list(val)  except: pass]. *)
Definition call_for_items (fn : pyval) : option (list pyval) :=
  match py_call0 fn with
  | Ok val =>
      if is_iterable val then
        match py_list val with Ok l => Some l | Raise => None end
      else None
  | Raise => None
  end.

(** [if isinstance(obj, list): return obj], then
    [if obj is not None and hasattr(obj, "__iter__") and not isinstance(obj,
    (str, bytes, dict)): try: return list(obj)  except: pass]. *)
Definition direct_items (obj : pyval) : res (option (list pyval)) :=
  match obj with
  | VList l => Ok (Some l)
  | _ =>
      it <- (if is_none obj then Ok false else py_hasattr obj "__iter__") ;;
      if it && negb (is_str_bytes_dict obj) then
        match py_list obj with
        | Ok l => Ok (Some l)
        | Raise => Ok None
        end
      else Ok None
  end.

Fixpoint items_from_attrs (r : pyval) (names : list string) : res (option (list pyval)) :=
  match names with
  | [] => Ok None
  | a :: rest =>
      obj <- py_getattr r a ;;
      match (if callable obj then call_for_items obj else None) with
      | Some l => Ok (Some l)
      | None =>
          d <- direct_items obj ;;
          match d with
          | Some l => Ok (Some l)
          | None => items_from_attrs r rest
          end
      end
  end.

Fixpoint items_from_getters (r : pyval) (names : list string) : res (option (list pyval)) :=
  match names with
  | [] => Ok None
  | m :: rest =>
      fn <- py_getattr r m ;;
      match (if callable fn then call_for_items fn else None) with
      | Some l => Ok (Some l)
      | None => items_from_getters r rest
      end
  end.

Definition iter_items_from_resource (r : pyval) : res (list pyval) :=
  a <- items_from_attrs r cand_attrs ;;
  match a with
  | Some l => Ok l
  | None =>
      g <- items_from_getters r getter_methods ;;
      match g with
      | Some l => Ok l
      | None => Ok []
      end
  end.

(** ** compose_import_hcl

    The state of the loops: the list [blocks], the counter [dumped], and the
    lines written to the sample file so far. *)

Record state : Type := mk_state {
  blocks : list string;
  dumped : nat;
  written : list string
}.

Definition dump_cap : nat := 20.

Definition push_block (st : state) (b : string) : state :=
  mk_state (blocks st ++ [b]) (dumped st) (written st).

(** The line of the sample file for one item: the dict found by the prober,
    or [{"repr": repr(item)}]; [None] when the prober or [json.dumps]
    raises. *)
Definition sample_line (item : pyval) : option string :=
  match obj_to_dict_deep item 3 with
  | Raise => None
  | Ok d =>
      let v := match d with
               | Some kv => VDict kv
               | None => VDict [("repr", VStr (py_repr item))]
               end in
      option_map (fun t => t +++ nl) (json_dumps v)
  end.

(** [if dumper and dumped < dump_cap: try: ... dumper.write(...); dumped += 1
    except Exception: pass]. *)
Definition dump_item (dumper : bool) (st : state) (item : pyval) : state :=
  if dumper && (dumped st <? dump_cap) then
    match sample_line item with
    | Some line => mk_state (blocks st) (S (dumped st)) (written st ++ [line])
    | None => st
    end
  else st.

Definition import_block (rid tf_type local : string) : string :=
  "import {" +++ nl +++
  "  id = " +++ dq +++ rid +++ dq +++ nl +++
  "  to = " +++ tf_type +++ "." +++ local +++ nl +++
  "}".

(** What one item appends to [blocks]: its import block, or the diagnostic
    for an identifier that is [None] or empty. *)
Definition item_entry (tag tf_type : string) (item : pyval) : res string :=
  rid <- extract_id_any item ;;
  match rid with
  | Some r =>
      if String.eqb r "" then
        Ok ("# Could not extract id for item in " +++ tag +++ ": " +++ py_repr item)
      else
        local <- extract_name_any item r ;;
        Ok (import_block r tf_type local)
  | None =>
      Ok ("# Could not extract id for item in " +++ tag +++ ": " +++ py_repr item)
  end.

Definition compile_item (dumper : bool) (tag tf_type : string)
           (st : state) (item : pyval) : res state :=
  let st := dump_item dumper st item in
  e <- item_entry tag tf_type item ;;
  Ok (push_block st e).

Fixpoint compile_items (dumper : bool) (tag tf_type : string)
         (items : list pyval) (st : state) : res state :=
  match items with
  | [] => Ok st
  | item :: rest =>
      st <- compile_item dumper tag tf_type st item ;;
      compile_items dumper tag tf_type rest st
  end.

(** One turn of [for res in resources]. *)
Definition compile_group (dumper : bool) (st : state) (r : pyval) : res state :=
  tag <- detect_tag r ;;
  match classify tag with
  | None => Ok (push_block st ("# Skipping unsupported resource tag: " +++ tag))
  | Some tf_type =>
      items <- iter_items_from_resource r ;;
      match items with
      | [] => Ok (push_block st ("# No items found for " +++ tag))
      | _ => compile_items dumper tag tf_type items st
      end
  end.

Fixpoint compile_groups (dumper : bool) (resources : list pyval) (st : state) : res state :=
  match resources with
  | [] => Ok st
  | r :: rest =>
      st <- compile_group dumper st r ;;
      compile_groups dumper rest st
  end.

(** [if dump_path: dumper = open(dump_path, "w", ...)]: no file for [None]
    and for the empty path. *)
Definition open_dumper (dump_path : option string) : res bool :=
  match dump_path with
  | None => Ok false
  | Some p =>
      if String.eqb p "" then Ok false
      else if can_open p then Ok true else Raise
  end.

(** ["\n\n".join(blocks) + ("\n" if blocks else "")]. *)
Definition assemble (entries : list string) : string :=
  join (nl +++ nl) entries +++
  match entries with
  | [] => ""
  | _ => nl
  end.

(** The result is the text returned and the lines written to the sample
    file. *)
Definition compose_import_hcl (resources : list pyval) (dump_path : option string)
  : res (string * list string) :=
  dumper <- open_dumper dump_path ;;
  st <- compile_groups dumper resources (mk_state [] 0 []) ;;
  Ok (assemble (blocks st), written st).

(** ** Reference definitions, in the words of the specification

    The entries of the output, group by group: one diagnostic for a tag that
    is not classified, one for a group without items, and otherwise one entry
    per item in the order of the items. *)

Fixpoint map_res {A B : Type} (f : A -> res B) (l : list A) : res (list B) :=
  match l with
  | [] => Ok []
  | x :: t => y <- f x ;; ys <- map_res f t ;; Ok (y :: ys)
  end.

Definition group_entries (r : pyval) : res (list string) :=
  tag <- detect_tag r ;;
  match classify tag with
  | None => Ok ["# Skipping unsupported resource tag: " +++ tag]
  | Some tf_type =>
      items <- iter_items_from_resource r ;;
      match items with
      | [] => Ok ["# No items found for " +++ tag]
      | _ => map_res (item_entry tag tf_type) items
      end
  end.

Fixpoint run_entries (resources : list pyval) : res (list string) :=
  match resources with
  | [] => Ok []
  | r :: rest =>
      es <- group_entries r ;;
      more <- run_entries rest ;;
      Ok (es ++ more)
  end.

(** The items of the groups whose tag is classified, in the order of the
    run: the items a sample may be written for. *)
Definition group_items (r : pyval) : res (list pyval) :=
  tag <- detect_tag r ;;
  match classify tag with
  | None => Ok []
  | Some _ => iter_items_from_resource r
  end.

Fixpoint run_items (resources : list pyval) : res (list pyval) :=
  match resources with
  | [] => Ok []
  | r :: rest =>
      items <- group_items r ;;
      more <- run_items rest ;;
      Ok (items ++ more)
  end.

(** The sample lines of the items whose sample can be serialized. *)
Definition samples (items : list pyval) : list string :=
  flat_map (fun item => match sample_line item with
                        | Some line => [line]
                        | None => []
                        end) items.

End Runner.

(** No attribute whose read raises occurs in the value: in the attributes
    of an object, in the elements of a sequence, in the values of a dict, or
    in what a callable without argument returns. *)
Fixpoint raise_free (v : pyval) : bool :=
  match v with
  | VList l | VTuple l => forallb raise_free l
  | VDict kv => forallb (fun e => raise_free (snd e)) kv
  | VFun0 _ (Ok r) => raise_free r
  | VObj _ _ _ attrs =>
      forallb (fun e => match snd e with
                        | Stored x | Shared x => raise_free x
                        | Raising => false
                        end) attrs
  | _ => true
  end.


(** ** Example data

    A resource group [{tag, items}] as the accessor reads it: the tag in
    [resource_type], the items in the field [data]. *)
Definition resource_group (oid : nat) (tag : string) (items : list pyval) : pyval :=
  VObj oid "<Resource>" "<Resource>"
       [("resource_type", Stored (VStr tag)); ("data", Stored (VList items))].

(** An environment for running examples: no text is taken for a JSON
    document, every file can be opened.  None of the examples below reaches
    the JSON strategy. *)
Definition no_json (_ : pyval) : res pyval := Raise.
Definition always_open (_ : string) : bool := true.

Definition script_item : pyval :=
  VDict [("id", VStr "1"); ("name", VStr "My Script!")].

Definition example_groups : list pyval :=
  [resource_group 1 "SCRIPT" [script_item]; resource_group 2 "CATEGORY" []].

Definition example_output_claimed : string :=
  "import {" +++ nl +++
  "  id = " +++ dq +++ "1" +++ dq +++ nl +++
  "  to = jamfpro_script.my_script_" +++ nl +++
  "}" +++ nl +++ nl +++
  "# No items found for CATEGORY" +++ nl.

Definition example_output : string :=
  "import {" +++ nl +++
  "  id = " +++ dq +++ "1" +++ dq +++ nl +++
  "  to = jamfpro_script.my_script" +++ nl +++
  "}" +++ nl +++ nl +++
  "# No items found for CATEGORY" +++ nl.

(** A record whose [data] property raises when it is read. *)
Definition broken_record : pyval :=
  VObj 7 "<Record>" "<Record>" [("id", Stored (VInt 3)); ("data", Raising)].

(** A record whose first conversion method raises and whose second one
    returns the fields. *)
Definition flaky_record : pyval :=
  VObj 8 "<Record>" "<Record>"
       [("to_dict", Shared (VFun0 "<bound method to_dict>" Raise));
        ("dict", Shared (VFun0 "<bound method dict>"
                           (Ok (VDict [("id", VInt 5); ("name", VStr "Five")]))))].

(** A record with a field that [json.dumps] does not serialize. *)
Definition dated_item : pyval :=
  VDict [("id", VInt 7);
         ("modified", VObj 9 "2024-01-01 00:00:00"
                           "datetime.datetime(2024, 1, 1, 0, 0)" [])].

Definition plain_item (n : nat) : pyval :=
  VDict [("id", VInt (Z.of_nat n)); ("name", VStr "item")].

(** Fifty items whose samples serialize, thirty in one classified group and
    twenty in another. *)
Definition fifty_items : list pyval :=
  [resource_group 1 "SCRIPT" (map plain_item (seq 1 30));
   resource_group 2 "POLICY" (map plain_item (seq 31 20))].

(** ** The extractors and the compile pass with conversions that can raise

    The truth test [if v:], the comparison [v != ""], [str(v)] and
    [repr(v)] of an object run methods of its class ([__bool__] or
    [__len__], [__ne__], [__str__], [__repr__]), and those can raise.  In the
    definitions above every object has the conversions it inherits from
    [object], which always return.  For the statements about exceptions the
    functions that convert values are written here once more, from the same
    source lines, with the four conversions of objects as parameters; on the
    built-in types they are the ones above.  A conversion that raises outside
    a [try] raises past the function, one that raises inside a [try] is
    caught there.  The prober and the item accessor convert nothing and are
    taken as they are. *)

Definition all_ok {A : Type} (l : list (res A)) : res (list A) :=
  fold_right
    (fun x acc =>
       match x, acc with
       | Ok a, Ok t => Ok (a :: t)
       | _, _ => Raise
       end)
    (Ok []) l.

Module Conv.
Section Conversions.

Variable json_loads : pyval -> res pyval.
Variable can_open : string -> bool.
Variable obj_bool : pyval -> res bool.
Variable obj_differs : pyval -> res bool.
Variable obj_str : pyval -> res string.
Variable obj_repr : pyval -> res string.

(** [bool(v)], as [if v:] evaluates it. *)
Definition bool_of (v : pyval) : res bool :=
  match v with
  | VObj _ _ _ _ => obj_bool v
  | _ => Ok (truthy v)
  end.

(** The truth of [v != ""]. *)
Definition differs_from_empty (v : pyval) : res bool :=
  match v with
  | VObj _ _ _ _ => obj_differs v
  | _ => Ok (ne_empty_str v)
  end.

(** [repr(v)]: that of a list, a tuple or a dict takes the [repr] of its
    elements. *)
Fixpoint repr_of (v : pyval) : res string :=
  match v with
  | VList l => fmap (repr_seq "[" "]") (all_ok (map repr_of l))
  | VTuple [x] => fmap (fun t => "(" +++ t +++ ",)") (repr_of x)
  | VTuple l => fmap (repr_seq "(" ")") (all_ok (map repr_of l))
  | VDict kv =>
      fmap (repr_seq "{" "}")
        (all_ok
           (map (fun e =>
                   fmap (fun t => repr_text false (fst e) +++ ": " +++ t)
                        (repr_of (snd e)))
                kv))
  | VObj _ _ _ _ => obj_repr v
  | _ => Ok (py_repr v)
  end.

(** [str(v)]. *)
Definition str_of (v : pyval) : res string :=
  match v with
  | VStr s => Ok s
  | VObj _ _ _ _ => obj_str v
  | _ => repr_of v
  end.

(** [sanitize_name(s)]: [str(s)], then the steps on text. *)
Definition sanitize_name (s : pyval) : res string :=
  t <- str_of s ;; Ok (text (sanitize_chars (chars t))).

(** [for k in keys: if k in d and d[k] is not None and d[k] != "": return
    str(d[k])], none of it under [try]. *)
Fixpoint scan_top_id (d : fieldmap) (keys : list string) : res (option string) :=
  match keys with
  | [] => Ok None
  | k :: rest =>
      match lookup k d with
      | Some v =>
          if is_none v then scan_top_id d rest
          else
            ne <- differs_from_empty v ;;
            if ne then s <- str_of v ;; Ok (Some s) else scan_top_id d rest
      | None => scan_top_id d rest
      end
  end.

(** [for ik in keys: if sub.get(ik): return str(sub[ik])], none of it under
    [try].  A value that is true is not [None], so the key is in [sub] and
    [sub[ik]] is [sub.get(ik)]. *)
Fixpoint scan_truthy_id (sub : fieldmap) (keys : list string) : res (option string) :=
  match keys with
  | [] => Ok None
  | k :: rest =>
      b <- bool_of (dict_get sub k) ;;
      if b then s <- str_of (dict_get sub k) ;; Ok (Some s)
      else scan_truthy_id sub rest
  end.

Fixpoint scan_nested_id (d : fieldmap) (sections : list string) : res (option string) :=
  match sections with
  | [] => Ok None
  | k :: rest =>
      match dict_get d k with
      | VDict sub =>
          r <- scan_truthy_id sub nested_id_keys ;;
          match r with
          | Some s => Ok (Some s)
          | None => scan_nested_id d rest
          end
      | _ => scan_nested_id d rest
      end
  end.

(** [for k in keys: v = getattr(item, k, None); if v: return str(v)], none
    of it under [try]. *)
Fixpoint scan_attrs_id (item : pyval) (keys : list string) : res (option string) :=
  match keys with
  | [] => Ok None
  | k :: rest =>
      v <- py_getattr item k ;;
      b <- bool_of v ;;
      if b then s <- str_of v ;; Ok (Some s) else scan_attrs_id item rest
  end.

(** [try: v; if v: return str(v)  except Exception: pass] for a value [v]
    that was obtained, or not, under the same [try]. *)
Definition truthy_str (r : res pyval) : option string :=
  match r with
  | Ok v =>
      match bool_of v with
      | Ok true => match str_of v with Ok s => Some s | Raise => None end
      | _ => None
      end
  | Raise => None
  end.

(** [for k in keys: try: v = get(k); if v: return str(v)  except Exception:
    pass]. *)
Fixpoint scan_get (get : pyval) (keys : list string) : option string :=
  match keys with
  | [] => None
  | k :: rest =>
      match truthy_str (py_call1 get k) with
      | Some s => Some s
      | None => scan_get get rest
      end
  end.

Definition id_fallbacks (item : pyval) : res (option string) :=
  a <- scan_attrs_id item id_keys ;;
  match a with
  | Some s => Ok (Some s)
  | None =>
      get <- py_getattr item "get" ;;
      match (if callable get then scan_get get nested_id_keys else None) with
      | Some s => Ok (Some s)
      | None =>
          match truthy_str (py_getitem item "jpro_id") with
          | Some s => Ok (Some s)
          | None => Ok (truthy_str (py_getitem item "id"))
          end
      end
  end.

Definition id_from_fieldmap (d : fieldmap) : res (option string) :=
  r <- scan_top_id d id_keys ;;
  match r with
  | Some s => Ok (Some s)
  | None => scan_nested_id d nested_sections
  end.

Definition extract_id_any (item : pyval) : res (option string) :=
  d <- obj_to_dict_deep json_loads item 3 ;;
  r <- match d with
       | Some kv => id_from_fieldmap kv
       | None => Ok None
       end ;;
  match r with
  | Some s => Ok (Some s)
  | None => id_fallbacks item
  end.

(** [for k in keys: if d.get(k): return sanitize_name(d[k])]. *)
Fixpoint scan_truthy_name (d : fieldmap) (keys : list string) : res (option string) :=
  match keys with
  | [] => Ok None
  | k :: rest =>
      b <- bool_of (dict_get d k) ;;
      if b then n <- sanitize_name (dict_get d k) ;; Ok (Some n)
      else scan_truthy_name d rest
  end.

(** [sub = d.get(k); if isinstance(sub, dict) and sub.get("name"): return
    sanitize_name(sub["name"])]. *)
Fixpoint scan_nested_name (d : fieldmap) (sections : list string) : res (option string) :=
  match sections with
  | [] => Ok None
  | k :: rest =>
      match dict_get d k with
      | VDict sub =>
          b <- bool_of (dict_get sub "name") ;;
          if b then n <- sanitize_name (dict_get sub "name") ;; Ok (Some n)
          else scan_nested_name d rest
      | _ => scan_nested_name d rest
      end
  end.

(** [for k in keys: v = getattr(item, k, None); if v: return
    sanitize_name(v)]. *)
Fixpoint scan_attrs_name (item : pyval) (keys : list string) : res (option string) :=
  match keys with
  | [] => Ok None
  | k :: rest =>
      v <- py_getattr item k ;;
      b <- bool_of v ;;
      if b then n <- sanitize_name v ;; Ok (Some n) else scan_attrs_name item rest
  end.

Definition name_from_fieldmap (d : fieldmap) : res (option string) :=
  r <- scan_truthy_name d name_keys ;;
  match r with
  | Some n => Ok (Some n)
  | None => scan_nested_name d nested_sections
  end.

(** The fallback name is made from a text, whose [str] is itself. *)
Definition extract_name_any (item : pyval) (fallback_id : string) : res string :=
  d <- obj_to_dict_deep json_loads item 3 ;;
  r <- match d with
       | Some kv => name_from_fieldmap kv
       | None => Ok None
       end ;;
  match r with
  | Some n => Ok n
  | None =>
      a <- scan_attrs_name item name_attrs ;;
      match a with
      | Some n => Ok n
      | None => Ok (text (sanitize_chars (chars ("id_" +++ fallback_id))))
      end
  end.

Definition detect_tag (r : pyval) : res string :=
  tag <- py_getattr r "resource_type" ;;
  tag <- (if is_none tag then py_getattr r "provider_tag" else Ok tag) ;;
  tag_str <- str_of tag ;;
  match search_first tag_alternatives tag_str with
  | Some m => Ok m
  | None => Ok tag_str
  end.

(** The sample line of an item, all of it under [try]: [repr(item)] is
    evaluated only when the prober found nothing. *)
Definition sample_line (item : pyval) : option string :=
  match obj_to_dict_deep json_loads item 3 with
  | Raise => None
  | Ok (Some kv) => option_map (fun t => t +++ nl) (json_dumps (VDict kv))
  | Ok None =>
      match repr_of item with
      | Ok r => option_map (fun t => t +++ nl) (json_dumps (VDict [("repr", VStr r)]))
      | Raise => None
      end
  end.

Definition dump_item (dumper : bool) (st : state) (item : pyval) : state :=
  if dumper && (dumped st <? dump_cap) then
    match sample_line item with
    | Some line => mk_state (blocks st) (S (dumped st)) (written st ++ [line])
    | None => st
    end
  else st.

(** [repr(item)] in the diagnostic is not under [try]. *)
Definition item_entry (tag tf_type : string) (item : pyval) : res string :=
  rid <- extract_id_any item ;;
  match rid with
  | Some r =>
      if String.eqb r "" then
        rp <- repr_of item ;;
        Ok ("# Could not extract id for item in " +++ tag +++ ": " +++ rp)
      else
        local <- extract_name_any item r ;;
        Ok (import_block r tf_type local)
  | None =>
      rp <- repr_of item ;;
      Ok ("# Could not extract id for item in " +++ tag +++ ": " +++ rp)
  end.

Definition compile_item (dumper : bool) (tag tf_type : string)
           (st : state) (item : pyval) : res state :=
  let st := dump_item dumper st item in
  e <- item_entry tag tf_type item ;;
  Ok (push_block st e).

Fixpoint compile_items (dumper : bool) (tag tf_type : string)
         (items : list pyval) (st : state) : res state :=
  match items with
  | [] => Ok st
  | item :: rest =>
      st <- compile_item dumper tag tf_type st item ;;
      compile_items dumper tag tf_type rest st
  end.

Definition compile_group (dumper : bool) (st : state) (r : pyval) : res state :=
  tag <- detect_tag r ;;
  match classify tag with
  | None => Ok (push_block st ("# Skipping unsupported resource tag: " +++ tag))
  | Some tf_type =>
      items <- iter_items_from_resource r ;;
      match items with
      | [] => Ok (push_block st ("# No items found for " +++ tag))
      | _ => compile_items dumper tag tf_type items st
      end
  end.

Fixpoint compile_groups (dumper : bool) (resources : list pyval) (st : state) : res state :=
  match resources with
  | [] => Ok st
  | r :: rest =>
      st <- compile_group dumper st r ;;
      compile_groups dumper rest st
  end.

Definition compose_import_hcl (resources : list pyval) (dump_path : option string)
  : res (string * list string) :=
  dumper <- open_dumper can_open dump_path ;;
  st <- compile_groups dumper resources (mk_state [] 0 []) ;;
  Ok (assemble (blocks st), written st).

End Conversions.
End Conv.

(** The conversions an object inherits from [object]: it is true, it
    differs from every text, and [str] and [repr] give its two texts. *)
Definition default_bool (v : pyval) : res bool := Ok (truthy v).
Definition default_differs (v : pyval) : res bool := Ok (ne_empty_str v).
Definition default_str (v : pyval) : res string := Ok (py_str v).
Definition default_repr (v : pyval) : res string := Ok (py_repr v).

(** A conversion of objects that raises for no object. *)
Definition total {A : Type} (conv : pyval -> res A) : Prop :=
  forall v, exists a, conv v = Ok a.

(** A value whose truth test raises, as that of an array of two numbers
    does, and an item that holds it in a nested section: no attribute read of
    the item raises. *)
Definition ambiguous_value : pyval := VObj 21 "[1 2]" "array([1, 2])" [].

Definition ambiguous_item : pyval :=
  VDict [("general", VDict [("id", ambiguous_value)])].

Definition ambiguous_bool (v : pyval) : res bool :=
  match v with
  | VObj 21 _ _ _ => Raise
  | _ => Ok true
  end.

(** An item without identifier whose [repr] raises: its sample is skipped,
    its diagnostic is not. *)
Definition unprintable_item : pyval := VObj 22 "<Item>" "<Item>" [].

Definition unprintable_repr (v : pyval) : res string :=
  match v with
  | VObj 22 _ _ _ => Raise
  | _ => Ok (py_repr v)
  end.

(** An item whose [get] method returns [ambiguous_value] for every key. *)
Definition getter_item : pyval :=
  VObj 23 "<Item>" "<Item>"
       [("get", Shared (VFun1 "<bound method get>" (fun _ => Ok ambiguous_value)))].



(** [flaky_record] without the conversion method that raises. *)
Definition steady_record : pyval :=
  VObj 8 "<Record>" "<Record>"
       [("dict", Shared (VFun0 "<bound method dict>"
                           (Ok (VDict [("id", VInt 5); ("name", VStr "Five")]))))].

(** ** The process boundary: env_values and build_client

    A function of the boundary returns, ends the process with
    [sys.exit(msg)], or lets an exception out. *)

Inductive outcome (A : Type) : Type :=
| Return (a : A)
| Exit (msg : string)
| Raised.
Arguments Return {A} a.
Arguments Exit {A} msg.
Arguments Raised {A}.

(** [s.replace(old, "")]: the occurrences of [old] are removed from left to
    right, [skip] counting the characters of the occurrence being removed
    that are still to drop. *)
Fixpoint remove_from (old : string) (skip : nat) (s : string) : string :=
  match s with
  | EmptyString => EmptyString
  | String c t =>
      match skip with
      | S k => remove_from old k t
      | O =>
          if is_prefix old s then remove_from old (String.length old - 1) t
          else String c (remove_from old 0 t)
      end
  end.

Definition remove_all (old s : string) : string := remove_from old 0 s.

Definition is_slash (c : ascii) : bool := code c =? 47.

Definition env_exit_message : string :=
  "Set JAMF_URL, JAMF_CLIENT_ID, JAMF_CLIENT_SECRET environment variables.".

Definition auth_methods : list string :=
  ["authenticate"; "get_token"; "login"; "generate_token"].

(** The loop over the authentication methods of a tenant: a call that
    succeeds ends it, a call that raises is passed over, and reading a
    method raises past the loop.  The lines printed are not modelled. *)
Fixpoint try_auth (t : pyval) (names : list string) : res unit :=
  match names with
  | [] => Ok tt
  | m :: rest =>
      fn <- py_getattr t m ;;
      if callable fn then
        match py_call0 fn with
        | Ok _ => Ok tt
        | Raise => try_auth t rest
        end
      else try_auth t rest
  end.

Section Boundary.

(** The environment of the process, [urlparse(url).netloc], the constructors
    [jt.HTTPConfig()] and [jt.Tenant(fqdn=..., client_id=...,
    client_secret=..., ...)] of the client library, [str(e)] of the exception
    that made the attempt with a candidate fail, and
    [getattr(jt, "VALID_AUTH_METHODS", None)]. *)
Variable getenv : string -> option string.
Variable netloc : string -> res string.
Variable new_http_config : res unit.
Variable new_tenant : string -> string -> string -> res pyval.
Variable error_text : string -> string.
Variable valid_auth_methods : pyval.

Definition nonempty (s : string) : bool := negb (String.eqb s "").

Definition env_values : outcome ((string * string) * string * string) :=
  match getenv "JAMF_URL", getenv "JAMF_CLIENT_ID", getenv "JAMF_CLIENT_SECRET" with
  | Some url, Some cid, Some csec =>
      if nonempty url && nonempty cid && nonempty csec then
        match netloc url with
        | Raise => Raised
        | Ok n =>
            let raw := if nonempty n then n
                       else remove_all "http://" (remove_all "https://" url) in
            let host := text (strip is_slash (chars raw)) in
            Return ((host, "https://" +++ host), cid, csec)
        end
      else Exit env_exit_message
  | _, _, _ => Exit env_exit_message
  end.

Definition tried_line (e : string * string) : string :=
  "  - fqdn='" +++ fst e +++ "': " +++ snd e +++ nl.

Definition client_exit_message (tried : list (string * string)) : string :=
  "Could not instantiate Tenant with any fqdn form. Tried:" +++ nl +++
  String.concat "" (map tried_line tried) +++
  "VALID_AUTH_METHODS: " +++ py_str valid_auth_methods +++ nl.

(** [for fq in fqdn_candidates: try: t = jt.Tenant(...); ...; return t
    except Exception as e: tried.append((fq, str(e)))], then [sys.exit]. *)
Fixpoint try_candidates (cands : list string) (cid csec : string)
         (tried : list (string * string)) : outcome pyval :=
  match cands with
  | [] => Exit (client_exit_message tried)
  | fq :: rest =>
      match (t <- new_tenant fq cid csec ;; _ <- try_auth t auth_methods ;; Ok t) with
      | Ok t => Return t
      | Raise => try_candidates rest cid csec (tried ++ [(fq, error_text fq)])
      end
  end.

Definition build_client : outcome pyval :=
  match env_values with
  | Return ((host, url), cid, csec) =>
      match new_http_config with
      | Raise => Raised
      | Ok _ => try_candidates [host; url] cid csec []
      end
  | Exit msg => Exit msg
  | Raised => Raised
  end.

End Boundary.

(** ** Auxiliary definitions of the statements and proofs *)

(** A dict under [k] objects, each holding the next in its field [data]. *)
Fixpoint data_wrappers (k : nat) (d : fieldmap) : pyval :=
  match k with
  | O => VDict d
  | S j => VObj k "<Wrapper>" "<Wrapper>" [("data", Stored (data_wrappers j d))]
  end.

(** The container attributes after [data]. *)
Definition later_container_attrs : list string := tl container_attrs.

(** The attribute names the prober asks an object for. *)
Definition probed_names : list string :=
  "keys" :: container_attrs ++ conversion_methods ++ ["json"].

(** What a top-level scan or a truth test makes of a value that is [None] or
    the empty string. *)
Definition blank (v : pyval) : Prop := v = VNone \/ v = VStr "".

(** An environment for the examples of the boundary. *)
Definition example_env (name : string) : option string :=
  if String.eqb name "JAMF_URL" then Some "https://tenant.jamfcloud.com/"
  else if String.eqb name "JAMF_CLIENT_ID" then Some "client"
  else if String.eqb name "JAMF_CLIENT_SECRET" then Some "secret"
  else None.

(** [urlparse] of the example URL. *)
Definition example_netloc (url : string) : res string := Ok "tenant.jamfcloud.com".

(** The JSON document [{"id": 4}], and a decoder that knows this document
    only. *)
Definition example_json_text : string := "{" +++ dq +++ "id" +++ dq +++ ": 4}".

Definition example_json_loads (v : pyval) : res pyval :=
  match v with
  | VStr s => if String.eqb s example_json_text then Ok (VDict [("id", VInt 4)])
              else Raise
  | _ => Raise
  end.

(** A tenant whose only authentication method raises. *)
Definition unauthenticated_tenant : pyval :=
  VObj 11 "<Tenant>" "<Tenant>"
       [("authenticate", Shared (VFun0 "<bound method authenticate>" Raise))].

(** The sample lines a run writes for [items] when [d] lines were written
    before: those that fit under the cap, when a file is open. *)
Definition new_lines (json_loads : pyval -> res pyval) (dumper : bool) (d : nat)
           (items : list pyval) : list string :=
  if dumper then firstn (dump_cap - d) (samples json_loads items) else [].

(** The state with its entries taken away: what the following groups
    depend on. *)
Definition drop_blocks (st : state) : state :=
  mk_state [] (dumped st) (written st).

Definition all_word (l : list ascii) : Prop := Forall (fun c => word c = true) l.

(** The sanitization in the words of the specification: lowercase;
    collapse every run of characters outside [[a-z0-9_]] into one underscore;
    strip leading and trailing underscores; [r] for an empty result, the
    prefix [r_] before a leading digit. *)
Definition spec_sanitize (s : string) : string :=
  let l := map py_lower (chars s) in
  let l := re_sub_nonword l in
  let l := strip is_underscore l in
  text (match l with
        | [] => chars "r"
        | c :: _ => if py_isdigit c then chars "r_" ++ l else l
        end).

(** No character of the list is in the class [[a-z0-9_]]. *)
Definition all_nonword (l : list ascii) : Prop := Forall (fun c => word c = false) l.

(** Whether [sub_runs] is inside a replaced run after reading [l]. *)
Fixpoint run_state (in_run : bool) (l : list ascii) : bool :=
  match l with
  | [] => in_run
  | c :: t => run_state (negb (word c)) t
  end.

(** A walker that does not raise on a value free of raising reads. *)
Definition safe_walker (rec : walker) : Prop :=
  forall v seen, raise_free v = true ->
                 exists d seen', rec v seen = (Ok d, seen').

(** Case analysis on the membership of a name in a list written out. *)
Ltac split_in :=
  repeat match goal with
         | H : In _ (_ :: _) |- _ => destruct H as [H | H]; [subst|]
         | H : In _ [] |- _ => destruct H
         end.

(** * Properties *)

(** ** Running the model *)

Example strip_ex : text (strip py_isspace (chars "  a b ")) = "a b".
Proof. reflexivity. Qed.

Example sub_runs_ex : text (re_sub_nonword (chars "my script!")) = "my_script_".
Proof. reflexivity. Qed.

Example sanitize_name_ex : sanitize_name (VStr "My Script!") = "my_script".
Proof. reflexivity. Qed.

Example sanitize_name_digit : sanitize_name (VStr "42 Things") = "r_42_things".
Proof. reflexivity. Qed.

Example sanitize_name_empty : sanitize_name (VStr " !!! ") = "r".
Proof. reflexivity. Qed.

Example sanitize_name_int : sanitize_name (VInt 5) = "r_5".
Proof. reflexivity. Qed.

Example detect_tag_enum :
  detect_tag (VObj 1 "" "" [("resource_type",
                             Stored (VObj 2 "ProviderResourceTag.SCRIPT" "<SCRIPT: 2>" []))])
  = Ok "SCRIPT".
Proof. reflexivity. Qed.

(** ** The sanitizer *)

Lemma sub_runs_word (l : list ascii) (b : bool) : all_word (sub_runs b l).
Proof.
  revert b; induction l as [|c t IH]; intro b; simpl.
  - constructor.
  - destruct (word c) eqn:Hc.
    + constructor; [exact Hc | apply IH].
    + destruct b; [apply IH | constructor; [reflexivity | apply IH]].
Qed.

Lemma lstrip_word (p : ascii -> bool) (l : list ascii) :
  all_word l -> all_word (lstrip p l).
Proof.
  induction l as [|c t IH]; simpl; intro H; [exact H|].
  destruct (p c); [apply IH; inversion H; assumption | exact H].
Qed.

Lemma rstrip_word (p : ascii -> bool) (l : list ascii) :
  all_word l -> all_word (rstrip p l).
Proof.
  intro H. unfold rstrip, all_word.
  apply Forall_rev, lstrip_word, Forall_rev, H.
Qed.

Lemma strip_word (p : ascii -> bool) (l : list ascii) :
  all_word l -> all_word (strip p l).
Proof. intro H. apply rstrip_word, lstrip_word, H. Qed.

Lemma lstrip_head (p : ascii -> bool) (l : list ascii) (c : ascii) (t : list ascii) :
  lstrip p l = c :: t -> p c = false.
Proof.
  induction l as [|a u IH]; simpl; [discriminate|].
  destruct (p a) eqn:Ha; [exact IH|].
  intro E; inversion E; subst; exact Ha.
Qed.

Lemma lstrip_keeps_last (p : ascii -> bool) (u : list ascii) (c : ascii) :
  p c = false -> exists k, lstrip p (u ++ [c]) = k ++ [c].
Proof.
  intro Hc. induction u as [|a u IH]; simpl.
  - rewrite Hc. exists []; reflexivity.
  - destruct (p a); [exact IH|].
    exists (a :: u); reflexivity.
Qed.

Lemma rstrip_head (p : ascii -> bool) (c : ascii) (t : list ascii) :
  p c = false -> exists t', rstrip p (c :: t) = c :: t'.
Proof.
  intro Hc. unfold rstrip. simpl rev.
  destruct (lstrip_keeps_last p (rev t) c Hc) as [k Hk].
  rewrite Hk, rev_app_distr. simpl. exists (rev k); reflexivity.
Qed.

Lemma strip_head (p : ascii -> bool) (l : list ascii) (c : ascii) (t : list ascii) :
  strip p l = c :: t -> p c = false.
Proof.
  unfold strip. destruct (lstrip p l) as [|a u] eqn:E.
  - discriminate.
  - pose proof (lstrip_head p l a u E) as Ha.
    destruct (rstrip_head p a u Ha) as [t' Ht']. rewrite Ht'.
    intro H; inversion H; subst; exact Ha.
Qed.

Lemma chars_text (l : list ascii) : chars (text l) = l.
Proof. apply list_ascii_of_string_of_list_ascii. Qed.

Lemma word_not_underscore_not_digit (c : ascii) :
  word c = true -> is_underscore c = false -> py_isdigit c = false -> is_lower c = true.
Proof.
  unfold word, py_isdigit. intros Hw Hu Hd.
  rewrite Hu in Hw.
  destruct (is_lower c); [reflexivity|].
  destruct (is_dec c); simpl in *; discriminate.
Qed.

Lemma sanitize_chars_shape (l : list ascii) :
  exists c t, sanitize_chars l = c :: t /\
              is_lower c = true /\ all_word t.
Proof.
  unfold sanitize_chars.
  set (s2 := re_sub_nonword (map py_lower (strip py_isspace l))).
  assert (Hw : all_word (strip is_underscore s2))
    by (apply strip_word, sub_runs_word).
  destruct (strip is_underscore s2) as [|c t] eqn:E.
  - exists "r"%char, []. repeat split. constructor.
  - pose proof (strip_head is_underscore s2 c t E) as Hu.
    inversion Hw as [|? ? Hc Ht]; subst.
    destruct (py_isdigit c) eqn:Hd.
    + exists "r"%char, ("_"%char :: c :: t). repeat split.
      constructor; [reflexivity | constructor; assumption].
    + exists c, t. repeat split; [|assumption].
      apply word_not_underscore_not_digit; assumption.
Qed.

(** White space is outside the class, also after [str.lower]. *)
Lemma space_is_nonword (c : ascii) :
  py_isspace c = true -> word (py_lower c) = false.
Proof.
  destruct c as [[] [] [] [] [] [] [] []]; intro H;
    solve [reflexivity | discriminate H].
Qed.

Lemma lstrip_split (p : ascii -> bool) (l : list ascii) :
  exists a, l = a ++ lstrip p l /\ Forall (fun c => p c = true) a.
Proof.
  induction l as [|c t IH]; cbn [lstrip].
  - exists []. split; [reflexivity | constructor].
  - destruct (p c) eqn:Hc.
    + destruct IH as (a & E & Ha). exists (c :: a). split.
      * cbn [app]. f_equal. exact E.
      * constructor; assumption.
    + exists []. split; [reflexivity | constructor].
Qed.

Lemma rstrip_split (p : ascii -> bool) (l : list ascii) :
  exists b, l = rstrip p l ++ b /\ Forall (fun c => p c = true) b.
Proof.
  unfold rstrip. destruct (lstrip_split p (rev l)) as (a & E & Ha).
  exists (rev a). split.
  - rewrite <- rev_app_distr, <- E, rev_involutive. reflexivity.
  - apply Forall_rev, Ha.
Qed.

Lemma lstrip_snoc (p : ascii -> bool) (y : list ascii) (c : ascii) :
  p c = true ->
  lstrip p (y ++ [c]) = match lstrip p y with
                        | [] => []
                        | w => w ++ [c]
                        end.
Proof.
  intro Hc. induction y as [|a t IH]; cbn [app lstrip].
  - rewrite Hc. reflexivity.
  - destruct (p a); [exact IH | reflexivity].
Qed.

Lemma rstrip_snoc (p : ascii -> bool) (w : list ascii) (c : ascii) :
  p c = true -> rstrip p (w ++ [c]) = rstrip p w.
Proof.
  intro Hc. unfold rstrip. rewrite rev_app_distr. cbn [rev app lstrip].
  rewrite Hc. reflexivity.
Qed.

Lemma strip_snoc (p : ascii -> bool) (y : list ascii) (c : ascii) :
  p c = true -> strip p (y ++ [c]) = strip p y.
Proof.
  intro Hc. unfold strip. rewrite (lstrip_snoc p y c Hc).
  destruct (lstrip p y) as [|a w]; [reflexivity|].
  apply (rstrip_snoc p (a :: w) c Hc).
Qed.

Lemma lstrip_sub_runs_state (x : list ascii) :
  lstrip is_underscore (sub_runs false x) = lstrip is_underscore (sub_runs true x).
Proof.
  destruct x as [|c t]; [reflexivity|]. cbn [sub_runs].
  destruct (word c); reflexivity.
Qed.

Lemma lstrip_sub_runs_skip (a x : list ascii) (b : bool) :
  all_nonword a ->
  lstrip is_underscore (sub_runs b (a ++ x)) = lstrip is_underscore (sub_runs true x).
Proof.
  intro Ha. revert b. induction Ha as [|c a Hc Ha IH]; intro b; cbn [app].
  - destruct b; [reflexivity | apply lstrip_sub_runs_state].
  - cbn [sub_runs]. rewrite Hc. destruct b; [apply IH|].
    cbn [lstrip]. change (is_underscore "_") with true. cbv iota. apply IH.
Qed.

Lemma sub_runs_app (x y : list ascii) (b : bool) :
  sub_runs b (x ++ y) = sub_runs b x ++ sub_runs (run_state b x) y.
Proof.
  revert b. induction x as [|c t IH]; intro b; cbn [app sub_runs run_state].
  - reflexivity.
  - destruct (word c); cbn [negb].
    + rewrite IH. reflexivity.
    + destruct b; rewrite IH; reflexivity.
Qed.

Lemma sub_runs_nonword (y : list ascii) (b : bool) :
  all_nonword y -> sub_runs b y = [] \/ sub_runs b y = ["_"%char].
Proof.
  intro Hy. revert b. induction Hy as [|c y Hc Hy IH]; intro b; cbn [sub_runs].
  - left; reflexivity.
  - rewrite Hc. assert (E : sub_runs true y = []).
    { clear IH. induction Hy as [|d y Hd Hy IH]; cbn [sub_runs]; [reflexivity|].
      rewrite Hd. exact IH. }
    destruct b; rewrite E; [left | right]; reflexivity.
Qed.

Lemma map_lower_nonword (a : list ascii) :
  Forall (fun c => py_isspace c = true) a -> all_nonword (map py_lower a).
Proof.
  intro H. induction H as [|c a Hc Ha IH]; cbn [map]; constructor;
    [apply space_is_nonword, Hc | exact IH].
Qed.

(** Stripping white space first does not change what is left after the
    underscores are stripped. *)
Lemma strip_space_is_absorbed (l : list ascii) :
  strip is_underscore (re_sub_nonword (map py_lower (strip py_isspace l))) =
  strip is_underscore (re_sub_nonword (map py_lower l)).
Proof.
  change (strip py_isspace l) with (rstrip py_isspace (lstrip py_isspace l)).
  destruct (lstrip_split py_isspace l) as (a & El & Ha).
  destruct (rstrip_split py_isspace (lstrip py_isspace l)) as (b & Em & Hb).
  set (m := rstrip py_isspace (lstrip py_isspace l)) in *.
  rewrite El at 1. rewrite Em. rewrite !map_app.
  pose proof (map_lower_nonword a Ha) as Ha'.
  pose proof (map_lower_nonword b Hb) as Hb'.
  unfold re_sub_nonword.
  assert (Left : strip is_underscore
                   (sub_runs false (map py_lower a ++ map py_lower m ++ map py_lower b)) =
                 strip is_underscore
                   (sub_runs false (map py_lower m ++ map py_lower b))).
  { unfold strip. f_equal.
    rewrite (lstrip_sub_runs_skip (map py_lower a) _ false Ha').
    symmetry. apply lstrip_sub_runs_state. }
  rewrite Left, sub_runs_app.
  destruct (sub_runs_nonword (map py_lower b)
                             (run_state false (map py_lower m)) Hb') as [-> | ->].
  - rewrite app_nil_r. reflexivity.
  - symmetry. apply strip_snoc. reflexivity.
Qed.

(** C2.  For every input (a string, or any value that [str] turns into
    one), [sanitize_name] returns a text that is not empty and that matches
    [^[a-z_][a-z0-9_]*$]; it is the text obtained by the steps named:
    lowercase, collapse the runs outside [[a-z0-9_]], strip the underscores,
    [r] for nothing left and [r_] before a digit. *)
Theorem sanitize_name_is_identifier (s : pyval) :
  sanitize_name s <> "" /\
  is_identifier (sanitize_name s) = true /\
  sanitize_name s = spec_sanitize (py_str s).
Proof.
  split; [|split].
  - unfold sanitize_name.
    destruct (sanitize_chars_shape (chars (py_str s))) as (c & t & E & _).
    rewrite E. discriminate.
  - unfold sanitize_name, is_identifier.
    destruct (sanitize_chars_shape (chars (py_str s))) as (c & t & E & Hc & Ht).
    rewrite E, chars_text, Hc. cbn [orb andb]. apply forallb_forall. intros x Hx.
    unfold all_word in Ht. rewrite Forall_forall in Ht. apply Ht, Hx.
  - unfold sanitize_name, spec_sanitize, sanitize_chars. cbv zeta.
    rewrite strip_space_is_absorbed. reflexivity.
Qed.

Example spec_sanitize_ex : spec_sanitize "  My Script! " = "my_script".
Proof. reflexivity. Qed.

(** ** Attribute reads that cannot raise *)

Lemma forallb_map {A B : Type} (f : B -> bool) (g : A -> B) (l : list A) :
  forallb f (map g l) = forallb (fun x => f (g x)) l.
Proof. induction l as [|x t IH]; simpl; [reflexivity | rewrite IH; reflexivity]. Qed.

Lemma raise_free_lookup (name : string) (attrs : list (string * attr)) :
  forallb (fun e => match snd e with
                    | Stored x | Shared x => raise_free x
                    | Raising => false
                    end) attrs = true ->
  match lookup name attrs with
  | Some (Stored v) | Some (Shared v) => raise_free v = true
  | Some Raising => False
  | None => True
  end.
Proof.
  induction attrs as [|[k a] t IH]; simpl; intro H; [exact I|].
  apply andb_true_iff in H. destruct H as [Ha Ht].
  destruct (String.eqb name k); [|apply IH, Ht].
  destruct a; [exact Ha | exact Ha | discriminate].
Qed.

Lemma raise_free_getattr (o : pyval) (name : string) :
  raise_free o = true ->
  exists v, py_getattr o name = Ok v /\ raise_free v = true.
Proof.
  intro H. destruct o; simpl; try (exists VNone; split; reflexivity).
  - unfold dict_attr.
    destruct (String.eqb name "get"); [eexists; split; reflexivity|].
    destruct (String.eqb name "keys").
    + eexists; split; [reflexivity|]. simpl.
      rewrite forallb_map. apply forallb_forall. reflexivity.
    + destruct (String.eqb name "items"); [|exists VNone; split; reflexivity].
      eexists; split; [reflexivity|]. simpl in *.
      rewrite forallb_map. rewrite forallb_forall in *.
      intros e He. simpl. rewrite (H e He). reflexivity.
  - simpl in H. pose proof (raise_free_lookup name attrs H) as L.
    destruct (lookup name attrs) as [[v|v|]|].
    + exists v; split; [reflexivity | exact L].
    + exists v; split; [reflexivity | exact L].
    + contradiction.
    + exists VNone; split; reflexivity.
Qed.

Lemma raise_free_hasattr (o : pyval) (name : string) :
  raise_free o = true -> exists b, py_hasattr o name = Ok b.
Proof.
  intro H. destruct o; simpl; try (eexists; reflexivity).
  simpl in H. pose proof (raise_free_lookup name attrs H) as L.
  destruct (lookup name attrs) as [[v|v|]|];
    [eexists; reflexivity | eexists; reflexivity | contradiction | eexists; reflexivity].
Qed.

Lemma raise_free_call0 (fn r : pyval) :
  raise_free fn = true -> py_call0 fn = Ok r -> raise_free r = true.
Proof.
  destruct fn; simpl; try discriminate.
  intros H E. subst. exact H.
Qed.

Lemma raise_free_list (v : pyval) (l : list pyval) :
  raise_free v = true -> py_list v = Ok l -> forallb raise_free l = true.
Proof.
  intros H E. destruct v; simpl in E; try discriminate.
  - inversion E; subst. rewrite forallb_map. apply forallb_forall. reflexivity.
  - inversion E; subst. rewrite forallb_map. apply forallb_forall. reflexivity.
  - inversion E; subst. exact H.
  - inversion E; subst. exact H.
  - inversion E; subst. rewrite forallb_map. apply forallb_forall. reflexivity.
  - pose proof (raise_free_lookup "__iter__" attrs H) as L.
    destruct (lookup "__iter__" attrs) as [[it|it|]|]; simpl in E; try discriminate;
      try contradiction.
    + destruct (py_call0 it) as [r|] eqn:C; simpl in E; [|discriminate].
      pose proof (raise_free_call0 it r L C) as Hr.
      destruct r; try discriminate. inversion E; subst. exact Hr.
    + destruct (py_call0 it) as [r|] eqn:C; simpl in E; [|discriminate].
      pose proof (raise_free_call0 it r L C) as Hr.
      destruct r; try discriminate. inversion E; subst. exact Hr.
Qed.

Section RunnerFacts.

Variable json_loads : pyval -> res pyval.
Variable can_open : string -> bool.

Lemma try_mapping_safe (o : pyval) (seen : seen_set) :
  raise_free o = true -> exists d, try_mapping o seen = (Ok d, seen).
Proof.
  intro H. unfold try_mapping.
  destruct (raise_free_hasattr o "keys" H) as [b1 ->].
  destruct b1; [|eexists; reflexivity].
  destruct (raise_free_hasattr o "get" H) as [b2 ->].
  destruct b2; [|eexists; reflexivity].
  destruct (materialize o); simpl; eexists; reflexivity.
Qed.

Lemma probe_attrs_safe (rec : walker) (o : pyval) :
  safe_walker rec -> raise_free o = true ->
  forall names seen, exists d seen', probe_attrs rec o names seen = (Ok d, seen').
Proof.
  intros Hrec H names. induction names as [|a rest IH]; intro seen; simpl.
  - eexists; eexists; reflexivity.
  - destruct (raise_free_getattr o a H) as (v & -> & Hv).
    destruct (Hrec v seen Hv) as (d & s' & E).
    destruct v; try (rewrite E; destruct d; [eexists; eexists; reflexivity | apply IH]).
    + apply IH.
    + eexists; eexists; reflexivity.
Qed.

Lemma probe_methods_safe (rec : walker) (o : pyval) :
  raise_free o = true ->
  forall names seen, exists d seen', probe_methods rec o names seen = (Ok d, seen').
Proof.
  intros H names. induction names as [|m rest IH]; intro seen; simpl.
  - eexists; eexists; reflexivity.
  - destruct (raise_free_getattr o m H) as (fn & -> & _).
    destruct (callable fn); [|apply IH].
    destruct (py_call0 fn) as [v|]; [|apply IH].
    destruct (rec v seen) as [[[d|]|] s'] eqn:E;
      destruct v; try rewrite E; try apply IH; eexists; eexists; reflexivity.
Qed.

Lemma probe_json_safe (o : pyval) (seen : seen_set) :
  raise_free o = true -> exists d, probe_json json_loads o seen = (Ok d, seen).
Proof.
  intro H. unfold probe_json.
  destruct (raise_free_getattr o "json" H) as (fn & -> & _).
  destruct (callable fn); [|eexists; reflexivity].
  destruct (py_call0 fn) as [s|]; [|eexists; reflexivity].
  destruct (_json_try_parse json_loads s); eexists; reflexivity.
Qed.

Lemma probe_vars_safe (rec : walker) (attrs : list (string * attr)) (seen : seen_set) :
  exists d seen', probe_vars rec attrs seen = (Ok d, seen').
Proof.
  unfold probe_vars.
  destruct (instance_dict attrs) as [|[k x] [|e t]];
    try (eexists; eexists; reflexivity).
  destruct (rec x seen) as [[[d|]|] s']; eexists; eexists; reflexivity.
Qed.

Lemma or_else_found (d : fieldmap) (seen : seen_set) (next : seen_set -> walk_result) :
  or_else (Ok (Some d), seen) next = (Ok (Some d), seen).
Proof. reflexivity. Qed.

Lemma or_else_next (seen : seen_set) (next : seen_set -> walk_result) :
  or_else (Ok None, seen) next = next seen.
Proof. reflexivity. Qed.

Lemma walk_object_safe (rec : walker) (o : pyval) (attrs : list (string * attr))
      (seen : seen_set) :
  safe_walker rec -> raise_free o = true ->
  exists d seen',
    or_else (try_mapping o seen) (fun seen =>
    or_else (probe_attrs rec o container_attrs seen) (fun seen =>
    or_else (probe_methods rec o conversion_methods seen) (fun seen =>
    or_else (probe_json json_loads o seen) (fun seen =>
    probe_vars rec attrs seen)))) = (Ok d, seen').
Proof.
  intros Hrec H.
  destruct (try_mapping_safe o seen H) as [d1 E1]. rewrite E1.
  destruct d1 as [d1|]; [rewrite or_else_found; eexists; eexists; reflexivity|].
  rewrite or_else_next.
  destruct (probe_attrs_safe rec o Hrec H container_attrs seen) as (d2 & s2 & E2).
  rewrite E2.
  destruct d2 as [d2|]; [rewrite or_else_found; eexists; eexists; reflexivity|].
  rewrite or_else_next.
  destruct (probe_methods_safe rec o H conversion_methods s2) as (d3 & s3 & E3).
  rewrite E3.
  destruct d3 as [d3|]; [rewrite or_else_found; eexists; eexists; reflexivity|].
  rewrite or_else_next.
  destruct (probe_json_safe o s3 H) as [d4 E4]. rewrite E4.
  destruct d4 as [d4|]; [rewrite or_else_found; eexists; eexists; reflexivity|].
  rewrite or_else_next.
  apply probe_vars_safe.
Qed.

Lemma walk_body_safe (rec : walker) :
  safe_walker rec -> safe_walker (walk_body json_loads rec).
Proof.
  intros Hrec v seen H.
  destruct v; try (unfold walk_body; eexists; eexists; reflexivity).
  unfold walk_body.
  destruct (seen_mem oid seen); [eexists; eexists; reflexivity|].
  cbv zeta. apply walk_object_safe; assumption.
Qed.

Lemma walk_safe (levels : nat) : safe_walker (_walk json_loads levels).
Proof.
  induction levels as [|n IH]; simpl.
  - intros v seen _. eexists; eexists; reflexivity.
  - apply walk_body_safe, IH.
Qed.

Lemma obj_to_dict_deep_safe (o : pyval) (max_depth : Z) :
  raise_free o = true -> exists d, obj_to_dict_deep json_loads o max_depth = Ok d.
Proof.
  intro H. unfold obj_to_dict_deep.
  destruct (walk_safe (Z.to_nat (max_depth + 1)) o [] H) as (d & s & ->).
  exists d; reflexivity.
Qed.

End RunnerFacts.

(** ** The extractors and the accessor on values free of raising reads *)

Section ExtractorFacts.

Variable json_loads : pyval -> res pyval.

Lemma scan_attrs_safe (item : pyval) (keys : list string) :
  raise_free item = true -> exists a, scan_attrs item keys = Ok a.
Proof.
  intro H. induction keys as [|k rest IH]; cbn [scan_attrs]; [eexists; reflexivity|].
  destruct (raise_free_getattr item k H) as (v & -> & _). cbn [bind].
  destruct (truthy v); [eexists; reflexivity | exact IH].
Qed.

Lemma id_fallbacks_safe (item : pyval) :
  raise_free item = true -> exists r, id_fallbacks item = Ok r.
Proof.
  intro H. unfold id_fallbacks.
  destruct (scan_attrs_safe item id_keys H) as [a ->]. cbn [bind].
  destruct a; [eexists; reflexivity|].
  destruct (raise_free_getattr item "get" H) as (g & -> & _). cbn [bind].
  destruct (if callable g then scan_get g nested_id_keys else None);
    [eexists; reflexivity|].
  destruct (index_truthy item "jpro_id"); [eexists; reflexivity|].
  destruct (index_truthy item "id"); eexists; reflexivity.
Qed.

Lemma extract_id_any_safe (item : pyval) :
  raise_free item = true -> exists r, extract_id_any json_loads item = Ok r.
Proof.
  intro H. unfold extract_id_any.
  destruct (obj_to_dict_deep_safe json_loads item 3 H) as [d ->]. cbn [bind].
  destruct (match d with Some kv => id_from_fieldmap kv | None => None end);
    [eexists; reflexivity | apply id_fallbacks_safe, H].
Qed.

Lemma extract_name_any_safe (item : pyval) (fallback_id : string) :
  raise_free item = true ->
  exists n, extract_name_any json_loads item fallback_id = Ok n.
Proof.
  intro H. unfold extract_name_any.
  destruct (obj_to_dict_deep_safe json_loads item 3 H) as [d ->]. cbn [bind].
  destruct (match d with Some kv => name_from_fieldmap kv | None => None end);
    [eexists; reflexivity|].
  destruct (scan_attrs_safe item name_attrs H) as [a ->]. cbn [bind].
  destruct a; eexists; reflexivity.
Qed.

Lemma item_entry_safe (tag tf_type : string) (item : pyval) :
  raise_free item = true -> exists e, item_entry json_loads tag tf_type item = Ok e.
Proof.
  intro H. unfold item_entry.
  destruct (extract_id_any_safe item H) as [rid ->]. cbn [bind].
  destruct rid as [r|]; [|eexists; reflexivity].
  destruct (String.eqb r ""); [eexists; reflexivity|].
  destruct (extract_name_any_safe item r H) as [n ->]. cbn [bind].
  eexists; reflexivity.
Qed.

Lemma map_res_safe {A B : Type} (f : A -> res B) (ok : A -> bool) (l : list A) :
  (forall x, ok x = true -> exists y, f x = Ok y) ->
  forallb ok l = true -> exists ys, map_res f l = Ok ys.
Proof.
  intros Hf. induction l as [|x t IH]; cbn [map_res forallb]; intro H;
    [eexists; reflexivity|].
  apply andb_true_iff in H. destruct H as [Hx Ht].
  destruct (Hf x Hx) as [y ->]. destruct (IH Ht) as [ys ->]. cbn [bind].
  eexists; reflexivity.
Qed.

Lemma detect_tag_safe (r : pyval) :
  raise_free r = true -> exists tag, detect_tag r = Ok tag.
Proof.
  intro H. unfold detect_tag.
  destruct (raise_free_getattr r "resource_type" H) as (t & -> & _). cbn [bind].
  destruct (is_none t).
  - destruct (raise_free_getattr r "provider_tag" H) as (t' & -> & _). cbn [bind].
    destruct (search_first tag_alternatives (py_str t')); eexists; reflexivity.
  - cbn [bind]. destruct (search_first tag_alternatives (py_str t)); eexists; reflexivity.
Qed.

Lemma call_for_items_safe (fn : pyval) (l : list pyval) :
  raise_free fn = true -> call_for_items fn = Some l -> forallb raise_free l = true.
Proof.
  intros H. unfold call_for_items.
  destruct (py_call0 fn) as [val|] eqn:C; [|discriminate].
  pose proof (raise_free_call0 fn val H C) as Hv.
  destruct (is_iterable val); [|discriminate].
  destruct (py_list val) as [l'|] eqn:E; [|discriminate].
  intro S; inversion S; subst. exact (raise_free_list val l Hv E).
Qed.

Lemma direct_items_safe (obj : pyval) :
  raise_free obj = true ->
  exists d, direct_items obj = Ok d /\
            forall l, d = Some l -> forallb raise_free l = true.
Proof.
  intro H. unfold direct_items.
  assert (K : exists d,
             (it <- (if is_none obj then Ok false else py_hasattr obj "__iter__") ;;
              if it && negb (is_str_bytes_dict obj) then
                match py_list obj with
                | Ok l => Ok (Some l)
                | Raise => Ok None
                end
              else Ok None) = Ok d /\
             forall l, d = Some l -> forallb raise_free l = true).
  { destruct (raise_free_hasattr obj "__iter__" H) as [b E].
    assert (E' : exists b', (if is_none obj then Ok false
                             else py_hasattr obj "__iter__") = Ok b')
      by (destruct (is_none obj); eexists; [reflexivity | exact E]).
    destruct E' as [b' ->]. cbn [bind].
    destruct (b' && negb (is_str_bytes_dict obj));
      [|exists None; split; [reflexivity | discriminate]].
    destruct (py_list obj) as [l|] eqn:L;
      [|exists None; split; [reflexivity | discriminate]].
    exists (Some l); split; [reflexivity|].
    intros l' S; inversion S; subst. exact (raise_free_list obj l' H L). }
  destruct obj; exact K.
Qed.

Lemma items_from_attrs_safe (r : pyval) (names : list string) :
  raise_free r = true ->
  exists a, items_from_attrs r names = Ok a /\
            forall l, a = Some l -> forallb raise_free l = true.
Proof.
  intro H. induction names as [|n rest IH]; cbn [items_from_attrs].
  - exists None; split; [reflexivity | discriminate].
  - destruct (raise_free_getattr r n H) as (obj & -> & Hobj). cbn [bind].
    destruct (if callable obj then call_for_items obj else None) as [l|] eqn:C.
    + exists (Some l); split; [reflexivity|].
      intros l' E; inversion E; subst.
      destruct (callable obj); [|discriminate].
      exact (call_for_items_safe obj l' Hobj C).
    + destruct (direct_items_safe obj Hobj) as (d & -> & Hd). cbn [bind].
      destruct d as [l|]; [|exact IH].
      exists (Some l); split; [reflexivity|].
      intros l' E; inversion E; subst. apply Hd; reflexivity.
Qed.

Lemma items_from_getters_safe (r : pyval) (names : list string) :
  raise_free r = true ->
  exists a, items_from_getters r names = Ok a /\
            forall l, a = Some l -> forallb raise_free l = true.
Proof.
  intro H. induction names as [|n rest IH]; cbn [items_from_getters].
  - exists None; split; [reflexivity | discriminate].
  - destruct (raise_free_getattr r n H) as (fn & -> & Hfn). cbn [bind].
    destruct (if callable fn then call_for_items fn else None) as [l|] eqn:C; [|exact IH].
    exists (Some l); split; [reflexivity|].
    intros l' E; inversion E; subst.
    destruct (callable fn); [|discriminate].
    exact (call_for_items_safe fn l' Hfn C).
Qed.

Lemma iter_items_safe (r : pyval) :
  raise_free r = true ->
  exists l, iter_items_from_resource r = Ok l /\ forallb raise_free l = true.
Proof.
  intro H. unfold iter_items_from_resource.
  destruct (items_from_attrs_safe r cand_attrs H) as (a & -> & Ha). cbn [bind].
  destruct a as [l|]; [exists l; split; [reflexivity | apply Ha; reflexivity]|].
  destruct (items_from_getters_safe r getter_methods H) as (g & -> & Hg). cbn [bind].
  destruct g as [l|]; [exists l; split; [reflexivity | apply Hg; reflexivity]|].
  exists []; split; reflexivity.
Qed.

Lemma group_entries_safe (r : pyval) :
  raise_free r = true -> exists es, group_entries json_loads r = Ok es.
Proof.
  intro H. unfold group_entries.
  destruct (detect_tag_safe r H) as [tag ->]. cbn [bind].
  destruct (classify tag) as [tf|]; [|eexists; reflexivity].
  destruct (iter_items_safe r H) as (l & -> & Hl). cbn [bind].
  destruct l as [|i t]; [eexists; reflexivity|].
  apply (map_res_safe _ raise_free); [|exact Hl].
  intros x Hx. apply item_entry_safe, Hx.
Qed.

Lemma run_entries_safe (resources : list pyval) :
  forallb raise_free resources = true ->
  exists es, run_entries json_loads resources = Ok es.
Proof.
  induction resources as [|r t IH]; simpl; intro H; [eexists; reflexivity|].
  apply andb_true_iff in H. destruct H as [Hr Ht].
  destruct (group_entries_safe r Hr) as [es ->]. destruct (IH Ht) as [more ->].
  simpl. eexists; reflexivity.
Qed.

End ExtractorFacts.

(** ** The loops of compose_import_hcl against the reference definitions *)

Section CompileFacts.

Variable json_loads : pyval -> res pyval.
Variable can_open : string -> bool.

Lemma firstn_app_cap {A : Type} (n : nat) (a b : list A) :
  firstn n (a ++ b) = firstn n a ++ firstn (n - List.length (firstn n a)) b.
Proof.
  rewrite firstn_app. f_equal.
  rewrite length_firstn.
  destruct (Nat.le_gt_cases n (List.length a)) as [Hle | Hgt].
  - rewrite Nat.min_l by exact Hle.
    replace (n - List.length a) with 0 by lia.
    replace (n - n) with 0 by lia. reflexivity.
  - rewrite Nat.min_r by lia. reflexivity.
Qed.

Lemma samples_app (a b : list pyval) :
  samples json_loads (a ++ b) = samples json_loads a ++ samples json_loads b.
Proof. unfold samples. apply flat_map_app. Qed.

Lemma new_lines_app (dumper : bool) (d : nat) (a b : list pyval) :
  new_lines json_loads dumper d (a ++ b) =
  new_lines json_loads dumper d a ++
  new_lines json_loads dumper
    (d + List.length (new_lines json_loads dumper d a)) b.
Proof.
  unfold new_lines. destruct dumper; [|reflexivity].
  rewrite samples_app, firstn_app_cap. f_equal. f_equal. lia.
Qed.

Lemma new_lines_nil (dumper : bool) (d : nat) :
  new_lines json_loads dumper d [] = [].
Proof. unfold new_lines. destruct dumper; [apply firstn_nil | reflexivity]. Qed.

(** What [dump_item] does to the counter and to the file. *)
Lemma dump_item_spec (dumper : bool) (st : state) (item : pyval) :
  dump_item json_loads dumper st item =
  mk_state (blocks st)
           (dumped st + List.length (new_lines json_loads dumper (dumped st) [item]))
           (written st ++ new_lines json_loads dumper (dumped st) [item]).
Proof.
  destruct st as [bl d w].
  unfold dump_item, new_lines, samples. cbn [flat_map blocks dumped written].
  rewrite app_nil_r.
  destruct dumper; cbn [andb].
  - destruct (Nat.ltb_spec d dump_cap) as [Hd | Hd].
    + destruct (dump_cap - d) as [|k] eqn:Hk; [lia|].
      destruct (sample_line json_loads item) as [line|];
        cbn [firstn List.length]; rewrite ?firstn_nil; cbn [List.length].
      * f_equal. lia.
      * rewrite app_nil_r. f_equal. lia.
    + replace (dump_cap - d) with 0 by lia. cbn [firstn List.length].
      rewrite app_nil_r. f_equal. lia.
  - cbn [List.length]. rewrite app_nil_r. f_equal. lia.
Qed.

Lemma compile_items_spec (dumper : bool) (tag tf_type : string) (items : list pyval) :
  forall st,
    compile_items json_loads dumper tag tf_type items st =
    (es <- map_res (item_entry json_loads tag tf_type) items ;;
     Ok (mk_state (blocks st ++ es)
                  (dumped st + List.length (new_lines json_loads dumper (dumped st) items))
                  (written st ++ new_lines json_loads dumper (dumped st) items))).
Proof.
  induction items as [|item rest IH]; intro st; simpl.
  - rewrite new_lines_nil. simpl. rewrite !app_nil_r, Nat.add_0_r.
    destruct st; reflexivity.
  - unfold compile_item.
    destruct (item_entry json_loads tag tf_type item) as [e|]; simpl; [|reflexivity].
    rewrite IH. rewrite dump_item_spec. unfold push_block. simpl.
    destruct (map_res (item_entry json_loads tag tf_type) rest) as [es|]; simpl;
      [|reflexivity].
    change (item :: rest) with ([item] ++ rest).
    rewrite (new_lines_app dumper (dumped st) [item] rest).
    rewrite length_app, <- !app_assoc, Nat.add_assoc. reflexivity.
Qed.

Lemma compile_group_spec (dumper : bool) (st : state) (r : pyval) :
  compile_group json_loads dumper st r =
  (es <- group_entries json_loads r ;;
   items <- group_items r ;;
   Ok (mk_state (blocks st ++ es)
                (dumped st + List.length (new_lines json_loads dumper (dumped st) items))
                (written st ++ new_lines json_loads dumper (dumped st) items))).
Proof.
  unfold compile_group, group_entries, group_items.
  destruct (detect_tag r) as [tag|]; simpl; [|reflexivity].
  destruct (classify tag) as [tf|]; simpl.
  - destruct (iter_items_from_resource r) as [items|]; simpl; [|reflexivity].
    destruct items as [|i t].
    + simpl. rewrite new_lines_nil. simpl. rewrite app_nil_r, Nat.add_0_r. reflexivity.
    + rewrite compile_items_spec.
      destruct (map_res (item_entry json_loads tag tf) (i :: t)); reflexivity.
  - rewrite new_lines_nil. simpl. rewrite app_nil_r, Nat.add_0_r. reflexivity.
Qed.

Lemma compile_groups_spec (dumper : bool) (resources : list pyval) :
  forall st,
    compile_groups json_loads dumper resources st =
    (es <- run_entries json_loads resources ;;
     items <- run_items resources ;;
     Ok (mk_state (blocks st ++ es)
                  (dumped st + List.length (new_lines json_loads dumper (dumped st) items))
                  (written st ++ new_lines json_loads dumper (dumped st) items))).
Proof.
  induction resources as [|r rest IH]; intro st; simpl.
  - rewrite new_lines_nil. simpl. rewrite !app_nil_r, Nat.add_0_r.
    destruct st; reflexivity.
  - rewrite compile_group_spec.
    destruct (group_entries json_loads r) as [es|]; simpl; [|reflexivity].
    destruct (group_items r) as [items|] eqn:GI; simpl.
    + rewrite IH. simpl.
      destruct (run_entries json_loads rest) as [more|]; simpl; [|reflexivity].
      destruct (run_items rest) as [its|]; simpl; [|reflexivity].
      rewrite (new_lines_app dumper (dumped st) items its).
      rewrite length_app, <- !app_assoc, Nat.add_assoc. reflexivity.
    + destruct (run_entries json_loads rest); reflexivity.
Qed.

(** Where the entries of a group are defined, so are its items. *)
Lemma group_items_defined (r : pyval) (es : list string) :
  group_entries json_loads r = Ok es -> exists items, group_items r = Ok items.
Proof.
  unfold group_entries, group_items.
  destruct (detect_tag r) as [tag|]; simpl; [|discriminate].
  destruct (classify tag); [|eexists; reflexivity].
  destruct (iter_items_from_resource r); simpl; [eexists; reflexivity | discriminate].
Qed.

Lemma run_items_defined (resources : list pyval) :
  forall es, run_entries json_loads resources = Ok es ->
             exists items, run_items resources = Ok items.
Proof.
  induction resources as [|r rest IH]; simpl; intros es H; [eexists; reflexivity|].
  destruct (group_entries json_loads r) as [e1|] eqn:G; simpl in H; [|discriminate].
  destruct (run_entries json_loads rest) as [e2|]; simpl in H; [|discriminate].
  destruct (group_items_defined r e1 G) as [i1 ->].
  destruct (IH e2 eq_refl) as [i2 ->]. simpl. eexists; reflexivity.
Qed.

Lemma compile_groups_app (dumper : bool) (a b : list pyval) :
  forall st,
    compile_groups json_loads dumper (a ++ b) st =
    (st1 <- compile_groups json_loads dumper a st ;;
     compile_groups json_loads dumper b st1).
Proof.
  induction a as [|r t IH]; intro st; simpl; [reflexivity|].
  destruct (compile_group json_loads dumper st r); simpl; [apply IH | reflexivity].
Qed.

(** The entries emitted before do not matter to the groups that follow. *)
Lemma compile_groups_frame (dumper : bool) (resources : list pyval) (st : state) :
  compile_groups json_loads dumper resources st =
  (st2 <- compile_groups json_loads dumper resources (drop_blocks st) ;;
   Ok (mk_state (blocks st ++ blocks st2) (dumped st2) (written st2))).
Proof.
  rewrite !compile_groups_spec. unfold drop_blocks. simpl.
  destruct (run_entries json_loads resources); simpl; [|reflexivity].
  destruct (run_items resources); reflexivity.
Qed.

End CompileFacts.

(** ** The prober on plain mappings, and what escapes it *)

(** C9.  For every plain mapping [m] and every [max_depth] that is not
    negative, the prober returns [m] itself: the entries given, with no
    further strategy applied. *)
Theorem probe_returns_plain_mapping
        (json_loads : pyval -> res pyval) (m : fieldmap) (max_depth : Z) :
  (0 <= max_depth)%Z ->
  obj_to_dict_deep json_loads (VDict m) max_depth = Ok (Some m).
Proof.
  intro H. unfold obj_to_dict_deep.
  destruct (Z.to_nat (max_depth + 1)) as [|n] eqn:E; [lia | reflexivity].
Qed.

Lemma probe_returns_plain_mapping_witness :
  (0 <= 3)%Z /\
  obj_to_dict_deep no_json script_item 3 =
  Ok (Some [("id", VStr "1"); ("name", VStr "My Script!")]).
Proof.
  split; [lia|].
  apply (probe_returns_plain_mapping no_json
           [("id", VStr "1"); ("name", VStr "My Script!")] 3).
  lia.
Defined.

Example probe_negative_depth (m : fieldmap) :
  obj_to_dict_deep no_json (VDict m) (-1) = Ok None.
Proof. reflexivity. Qed.

Example probe_swallows_method_failure :
  obj_to_dict_deep no_json flaky_record 3 =
  Ok (Some [("id", VInt 5); ("name", VStr "Five")]).
Proof. reflexivity. Qed.



Lemma compose_import_hcl_spec
      (json_loads : pyval -> res pyval) (can_open : string -> bool)
      (resources : list pyval) (dump_path : option string) :
  compose_import_hcl json_loads can_open resources dump_path =
  (dumper <- open_dumper can_open dump_path ;;
   es <- run_entries json_loads resources ;;
   items <- run_items resources ;;
   Ok (assemble es, new_lines json_loads dumper 0 items)).
Proof.
  unfold compose_import_hcl.
  destruct (open_dumper can_open dump_path) as [dumper|]; cbn [bind]; [|reflexivity].
  rewrite compile_groups_spec.
  destruct (run_entries json_loads resources) as [es|]; cbn [bind]; [|reflexivity].
  destruct (run_items resources) as [items|]; cbn [bind]; reflexivity.
Qed.

(** ** Conversions that can raise *)

(** Induction on values, through the elements of lists, tuples and dicts. *)
Lemma pyval_nested_ind (P : pyval -> Prop) :
  (forall v, match v with VList _ | VTuple _ | VDict _ => True | _ => P v end) ->
  (forall l, Forall P l -> P (VList l)) ->
  (forall l, Forall P l -> P (VTuple l)) ->
  (forall kv : fieldmap, Forall (fun e => P (snd e)) kv -> P (VDict kv)) ->
  forall v, P v.
Proof.
  intros HA HL HT HD. fix IH 1. intro v.
  destruct v as [| b | z | s | s | l | l | kv | rep r | rep f | oid s r attrs].
  - exact (HA VNone).
  - exact (HA (VBool b)).
  - exact (HA (VInt z)).
  - exact (HA (VStr s)).
  - exact (HA (VBytes s)).
  - apply HL. induction l as [|x t IHt]; constructor; [apply IH | exact IHt].
  - apply HT. induction l as [|x t IHt]; constructor; [apply IH | exact IHt].
  - apply HD. induction kv as [|[k x] t IHt]; constructor; [apply IH | exact IHt].
  - exact (HA (VFun0 rep r)).
  - exact (HA (VFun1 rep f)).
  - exact (HA (VObj oid s r attrs)).
Qed.


Lemma all_ok_map {A B : Type} (g : A -> res B) (f : A -> B) (l : list A) :
  Forall (fun x => g x = Ok (f x)) l -> all_ok (map g l) = Ok (map f l).
Proof.
  induction 1 as [|x t E _ IH]; cbn [all_ok fold_right map]; [reflexivity|].
  fold (all_ok (map g t)). rewrite E, IH. reflexivity.
Qed.

Section ConversionFacts.

Variable json_loads : pyval -> res pyval.
Variable can_open : string -> bool.
Variable obj_bool : pyval -> res bool.
Variable obj_differs : pyval -> res bool.
Variable obj_str : pyval -> res string.
Variable obj_repr : pyval -> res string.

Hypothesis bool_total : total obj_bool.
Hypothesis differs_total : total obj_differs.
Hypothesis str_total : total obj_str.
Hypothesis repr_total : total obj_repr.
























End ConversionFacts.

(** With the conversions every object inherits, the definitions with
    conversions are the ones without: those describe the runs in which no
    class overrides a conversion. *)

Lemma bool_of_default (v : pyval) : Conv.bool_of default_bool v = Ok (truthy v).
Proof. destruct v; reflexivity. Qed.

Lemma differs_from_empty_default (v : pyval) :
  Conv.differs_from_empty default_differs v = Ok (ne_empty_str v).
Proof. destruct v; reflexivity. Qed.

Lemma repr_of_default : forall v, Conv.repr_of default_repr v = Ok (py_repr v).
Proof.
  apply pyval_nested_ind.
  - intro v. destruct v; try exact I; reflexivity.
  - intros l H.
    change (Conv.repr_of default_repr (VList l))
      with (fmap (repr_seq "[" "]") (all_ok (map (Conv.repr_of default_repr) l))).
    rewrite (all_ok_map _ py_repr l H). reflexivity.
  - intros l H. destruct l as [|x [|y u]].
    + reflexivity.
    + apply Forall_inv in H.
      change (Conv.repr_of default_repr (VTuple [x]))
        with (fmap (fun t => "(" +++ t +++ ",)") (Conv.repr_of default_repr x)).
      rewrite H. reflexivity.
    + change (Conv.repr_of default_repr (VTuple (x :: y :: u)))
        with (fmap (repr_seq "(" ")")
                   (all_ok (map (Conv.repr_of default_repr) (x :: y :: u)))).
      rewrite (all_ok_map _ py_repr (x :: y :: u) H). reflexivity.
  - intros kv H.
    change (Conv.repr_of default_repr (VDict kv))
      with (fmap (repr_seq "{" "}")
              (all_ok
                 (map (fun e =>
                         fmap (fun t => repr_text false (fst e) +++ ": " +++ t)
                              (Conv.repr_of default_repr (snd e)))
                      kv))).
    rewrite (all_ok_map _
               (fun e => repr_text false (fst e) +++ ": " +++ py_repr (snd e)) kv).
    + reflexivity.
    + apply (Forall_impl _ (P := fun e => Conv.repr_of default_repr (snd e)
                                         = Ok (py_repr (snd e)))); [|exact H].
      intros e ->. reflexivity.
Qed.

Lemma str_of_default (v : pyval) :
  Conv.str_of default_str default_repr v = Ok (py_str v).
Proof. destruct v; try reflexivity; exact (repr_of_default _). Qed.

Lemma sanitize_name_default (v : pyval) :
  Conv.sanitize_name default_str default_repr v = Ok (sanitize_name v).
Proof. unfold Conv.sanitize_name. rewrite str_of_default. reflexivity. Qed.

Lemma scan_top_id_default (d : fieldmap) (keys : list string) :
  Conv.scan_top_id default_differs default_str default_repr d keys =
  Ok (scan_top_id d keys).
Proof.
  induction keys as [|k rest IH]; cbn [Conv.scan_top_id scan_top_id]; [reflexivity|].
  destruct (lookup k d) as [v|]; [|exact IH].
  destruct (is_none v); cbn [negb andb]; [exact IH|].
  rewrite differs_from_empty_default. cbn [bind].
  destruct (ne_empty_str v); [|exact IH].
  rewrite str_of_default. reflexivity.
Qed.

Lemma scan_truthy_id_default (sub : fieldmap) (keys : list string) :
  Conv.scan_truthy_id default_bool default_str default_repr sub keys =
  Ok (option_map py_str (scan_truthy sub keys)).
Proof.
  induction keys as [|k rest IH]; cbn [Conv.scan_truthy_id scan_truthy]; [reflexivity|].
  rewrite bool_of_default. cbn [bind].
  destruct (truthy (dict_get sub k)); [|exact IH].
  rewrite str_of_default. reflexivity.
Qed.

Lemma scan_nested_id_default (d : fieldmap) (sections : list string) :
  Conv.scan_nested_id default_bool default_str default_repr d sections =
  Ok (scan_nested_id d sections).
Proof.
  induction sections as [|k rest IH]; cbn [Conv.scan_nested_id scan_nested_id];
    [reflexivity|].
  destruct (dict_get d k); try exact IH.
  rewrite scan_truthy_id_default. cbn [bind].
  destruct (scan_truthy kv nested_id_keys); [reflexivity | exact IH].
Qed.

Lemma id_from_fieldmap_default (d : fieldmap) :
  Conv.id_from_fieldmap default_bool default_differs default_str default_repr d =
  Ok (id_from_fieldmap d).
Proof.
  unfold Conv.id_from_fieldmap, id_from_fieldmap.
  rewrite scan_top_id_default. cbn [bind].
  destruct (scan_top_id d id_keys); [reflexivity | apply scan_nested_id_default].
Qed.

Lemma scan_attrs_id_default (item : pyval) (keys : list string) :
  Conv.scan_attrs_id default_bool default_str default_repr item keys =
  fmap (option_map py_str) (scan_attrs item keys).
Proof.
  induction keys as [|k rest IH]; cbn [Conv.scan_attrs_id scan_attrs]; [reflexivity|].
  destruct (py_getattr item k) as [v|]; cbn [bind]; [|reflexivity].
  rewrite bool_of_default. cbn [bind].
  destruct (truthy v); [|exact IH].
  rewrite str_of_default. reflexivity.
Qed.

Lemma truthy_str_default (r : res pyval) :
  Conv.truthy_str default_bool default_str default_repr r =
  match r with
  | Ok v => if truthy v then Some (py_str v) else None
  | Raise => None
  end.
Proof.
  unfold Conv.truthy_str. destruct r as [v|]; [|reflexivity].
  rewrite bool_of_default. destruct (truthy v); [|reflexivity].
  rewrite str_of_default. reflexivity.
Qed.

Lemma scan_get_default (get : pyval) (keys : list string) :
  Conv.scan_get default_bool default_str default_repr get keys =
  option_map py_str (scan_get get keys).
Proof.
  induction keys as [|k rest IH]; cbn [Conv.scan_get scan_get]; [reflexivity|].
  rewrite truthy_str_default.
  destruct (py_call1 get k) as [v|]; [|exact IH].
  destruct (truthy v); [reflexivity | exact IH].
Qed.

Lemma id_fallbacks_default (item : pyval) :
  Conv.id_fallbacks default_bool default_str default_repr item = id_fallbacks item.
Proof.
  unfold Conv.id_fallbacks, id_fallbacks.
  rewrite scan_attrs_id_default.
  destruct (scan_attrs item id_keys) as [[v|]|]; cbn [bind fmap option_map];
    try reflexivity.
  destruct (py_getattr item "get") as [g|]; cbn [bind]; [|reflexivity].
  rewrite !truthy_str_default. unfold index_truthy.
  assert (K : (if callable g
               then Conv.scan_get default_bool default_str default_repr g nested_id_keys
               else None) =
              option_map py_str (if callable g then scan_get g nested_id_keys else None))
    by (destruct (callable g); [apply scan_get_default | reflexivity]).
  rewrite K.
  destruct (if callable g then scan_get g nested_id_keys else None);
    cbn [option_map]; [reflexivity|].
  destruct (py_getitem item "jpro_id") as [v|].
  - destruct (truthy v); [reflexivity|].
    destruct (py_getitem item "id") as [w|]; [destruct (truthy w)|]; reflexivity.
  - destruct (py_getitem item "id") as [w|]; [destruct (truthy w)|]; reflexivity.
Qed.

Lemma extract_id_any_default (json_loads : pyval -> res pyval) (item : pyval) :
  Conv.extract_id_any json_loads default_bool default_differs default_str default_repr
    item = extract_id_any json_loads item.
Proof.
  unfold Conv.extract_id_any, extract_id_any.
  destruct (obj_to_dict_deep json_loads item 3) as [d|]; cbn [bind]; [|reflexivity].
  destruct d as [kv|]; cbn [bind].
  - rewrite id_from_fieldmap_default. cbn [bind].
    destruct (id_from_fieldmap kv); [reflexivity | apply id_fallbacks_default].
  - apply id_fallbacks_default.
Qed.

Lemma scan_truthy_name_default (d : fieldmap) (keys : list string) :
  Conv.scan_truthy_name default_bool default_str default_repr d keys =
  Ok (option_map sanitize_name (scan_truthy d keys)).
Proof.
  induction keys as [|k rest IH]; cbn [Conv.scan_truthy_name scan_truthy];
    [reflexivity|].
  rewrite bool_of_default. cbn [bind].
  destruct (truthy (dict_get d k)); [|exact IH].
  rewrite sanitize_name_default. reflexivity.
Qed.

Lemma scan_nested_name_default (d : fieldmap) (sections : list string) :
  Conv.scan_nested_name default_bool default_str default_repr d sections =
  Ok (option_map sanitize_name (scan_nested_name d sections)).
Proof.
  induction sections as [|k rest IH]; cbn [Conv.scan_nested_name scan_nested_name];
    [reflexivity|].
  destruct (dict_get d k); try exact IH.
  rewrite bool_of_default. cbn [bind].
  destruct (truthy (dict_get kv "name")); [|exact IH].
  rewrite sanitize_name_default. reflexivity.
Qed.

Lemma name_from_fieldmap_default (d : fieldmap) :
  Conv.name_from_fieldmap default_bool default_str default_repr d =
  Ok (option_map sanitize_name (name_from_fieldmap d)).
Proof.
  unfold Conv.name_from_fieldmap, name_from_fieldmap.
  rewrite scan_truthy_name_default. cbn [bind].
  destruct (scan_truthy d name_keys); [reflexivity | apply scan_nested_name_default].
Qed.

Lemma scan_attrs_name_default (item : pyval) (keys : list string) :
  Conv.scan_attrs_name default_bool default_str default_repr item keys =
  fmap (option_map sanitize_name) (scan_attrs item keys).
Proof.
  induction keys as [|k rest IH]; cbn [Conv.scan_attrs_name scan_attrs]; [reflexivity|].
  destruct (py_getattr item k) as [v|]; cbn [bind]; [|reflexivity].
  rewrite bool_of_default. cbn [bind].
  destruct (truthy v); [|exact IH].
  rewrite sanitize_name_default. reflexivity.
Qed.

Lemma extract_name_any_default
      (json_loads : pyval -> res pyval) (item : pyval) (fallback_id : string) :
  Conv.extract_name_any json_loads default_bool default_str default_repr
    item fallback_id = extract_name_any json_loads item fallback_id.
Proof.
  unfold Conv.extract_name_any, extract_name_any.
  destruct (obj_to_dict_deep json_loads item 3) as [d|]; cbn [bind]; [|reflexivity].
  assert (K : Conv.scan_attrs_name default_bool default_str default_repr item name_attrs
              = fmap (option_map sanitize_name) (scan_attrs item name_attrs))
    by apply scan_attrs_name_default.
  destruct d as [kv|]; cbn [bind].
  - rewrite name_from_fieldmap_default. cbn [bind].
    destruct (name_from_fieldmap kv); cbn [option_map]; [reflexivity|].
    rewrite K. destruct (scan_attrs item name_attrs) as [[v|]|]; reflexivity.
  - rewrite K. destruct (scan_attrs item name_attrs) as [[v|]|]; reflexivity.
Qed.

Lemma detect_tag_default (r : pyval) :
  Conv.detect_tag default_str default_repr r = detect_tag r.
Proof.
  unfold Conv.detect_tag, detect_tag.
  destruct (py_getattr r "resource_type") as [t|]; cbn [bind]; [|reflexivity].
  destruct (if is_none t then py_getattr r "provider_tag" else Ok t) as [t'|];
    cbn [bind]; [|reflexivity].
  rewrite str_of_default. reflexivity.
Qed.

Lemma sample_line_default (json_loads : pyval -> res pyval) (item : pyval) :
  Conv.sample_line json_loads default_repr item = sample_line json_loads item.
Proof.
  unfold Conv.sample_line, sample_line.
  destruct (obj_to_dict_deep json_loads item 3) as [[kv|]|]; try reflexivity.
  rewrite repr_of_default. reflexivity.
Qed.

Lemma item_entry_default
      (json_loads : pyval -> res pyval) (tag tf_type : string) (item : pyval) :
  Conv.item_entry json_loads default_bool default_differs default_str default_repr
    tag tf_type item = item_entry json_loads tag tf_type item.
Proof.
  unfold Conv.item_entry, item_entry.
  rewrite extract_id_any_default.
  destruct (extract_id_any json_loads item) as [[r|]|]; cbn [bind]; try reflexivity.
  - destruct (String.eqb r "").
    + rewrite repr_of_default. reflexivity.
    + rewrite extract_name_any_default. reflexivity.
  - rewrite repr_of_default. reflexivity.
Qed.

Lemma compile_items_default
      (json_loads : pyval -> res pyval) (dumper : bool) (tag tf_type : string)
      (items : list pyval) :
  forall st,
    Conv.compile_items json_loads default_bool default_differs default_str default_repr
      dumper tag tf_type items st =
    compile_items json_loads dumper tag tf_type items st.
Proof.
  induction items as [|item rest IH]; intro st;
    cbn [Conv.compile_items compile_items]; [reflexivity|].
  unfold Conv.compile_item, compile_item, Conv.dump_item, dump_item.
  rewrite item_entry_default, sample_line_default.
  destruct (item_entry json_loads tag tf_type item); cbn [bind];
    [apply IH | reflexivity].
Qed.

Lemma compile_group_default
      (json_loads : pyval -> res pyval) (dumper : bool) (st : state) (r : pyval) :
  Conv.compile_group json_loads default_bool default_differs default_str default_repr
    dumper st r = compile_group json_loads dumper st r.
Proof.
  unfold Conv.compile_group, compile_group.
  rewrite detect_tag_default.
  destruct (detect_tag r) as [tag|]; cbn [bind]; [|reflexivity].
  destruct (classify tag); [|reflexivity].
  destruct (iter_items_from_resource r) as [[|i t]|]; cbn [bind];
    [reflexivity | apply compile_items_default | reflexivity].
Qed.

Lemma compile_groups_default
      (json_loads : pyval -> res pyval) (dumper : bool) (resources : list pyval) :
  forall st,
    Conv.compile_groups json_loads default_bool default_differs default_str default_repr
      dumper resources st = compile_groups json_loads dumper resources st.
Proof.
  induction resources as [|r rest IH]; intro st;
    cbn [Conv.compile_groups compile_groups]; [reflexivity|].
  rewrite compile_group_default.
  destruct (compile_group json_loads dumper st r); cbn [bind];
    [apply IH | reflexivity].
Qed.

(** The compile pass of the sections before is the compile pass with the
    conversions every object inherits. *)
Lemma compose_import_hcl_default
      (json_loads : pyval -> res pyval) (can_open : string -> bool)
      (resources : list pyval) (dump_path : option string) :
  Conv.compose_import_hcl json_loads can_open
    default_bool default_differs default_str default_repr resources dump_path =
  compose_import_hcl json_loads can_open resources dump_path.
Proof.
  unfold Conv.compose_import_hcl, compose_import_hcl.
  destruct (open_dumper can_open dump_path) as [dumper|]; cbn [bind]; [|reflexivity].
  rewrite compile_groups_default. reflexivity.
Qed.

Lemma default_conversions_total :
  total default_bool /\ total default_differs /\ total default_str /\
  total default_repr.
Proof. repeat split; intro v; eexists; reflexivity. Qed.

(** ** A method that raises when it is called

    Adding to the class of an object a method of one of the strategies that
    raises when it is called changes nothing in what the prober returns. *)







Section MethodFacts.

Variable json_loads : pyval -> res pyval.
Variable rec : walker.






End MethodFacts.




(** What the prober finds for the record whose first conversion method
    raises: the fields its second one returns. *)
Example steady_record_fields :
  obj_to_dict_deep no_json steady_record 3 =
  Ok (Some [("id", VInt 5); ("name", VStr "Five")]).
Proof. reflexivity. Qed.

(** A truth test that raises, outside every [try]: no attribute read of the
    item raises, and the extractor and the compile pass raise. *)
Example raising_truth_test_escapes :
  raise_free ambiguous_item = true /\
  Conv.extract_id_any no_json ambiguous_bool default_differs default_str default_repr
    ambiguous_item = Raise /\
  Conv.compose_import_hcl no_json always_open
    ambiguous_bool default_differs default_str default_repr
    [resource_group 1 "SCRIPT" [ambiguous_item]] None = Raise.
Proof. repeat split; reflexivity. Qed.

(** A [repr] that raises: under the [try] of the sample it costs the line,
    in the diagnostic it raises past the compile pass. *)
Example raising_repr_escapes :
  raise_free unprintable_item = true /\
  Conv.sample_line no_json unprintable_repr unprintable_item = None /\
  Conv.compose_import_hcl no_json always_open
    default_bool default_differs default_str unprintable_repr
    [resource_group 1 "SCRIPT" [unprintable_item]] (Some "samples.jsonl") = Raise.
Proof. repeat split; reflexivity. Qed.

(** A truth test that raises under the [try] of the [get] loop is caught:
    the next key is tried, and in the end there is no identifier. *)
Example raising_truth_test_is_swallowed_under_try :
  Conv.extract_id_any no_json ambiguous_bool default_differs default_str default_repr
    getter_item = Ok None /\
  Conv.compose_import_hcl no_json always_open
    ambiguous_bool default_differs default_str default_repr
    [resource_group 1 "SCRIPT" [getter_item]] None =
  Ok ("# Could not extract id for item in SCRIPT: <Item>" +++ nl, []).
Proof. split; reflexivity. Qed.

(** ** The identifier extractor *)

Lemma present_value_accepted (v : pyval) :
  v <> VNone -> v <> VStr "" -> negb (is_none v) && ne_empty_str v = true.
Proof.
  intros Hn He. destruct v; try reflexivity.
  - contradiction.
  - simpl. destruct s; [contradiction | reflexivity].
Qed.

(** C5.  When the FieldMap found for a record holds both [jpro_id] and [id]
    with values that are neither [None] nor the empty string, the extractor
    returns the value of [jpro_id], stringified. *)
Theorem jpro_id_takes_precedence
        (json_loads : pyval -> res pyval) (item : pyval) (d : fieldmap) (v w : pyval) :
  obj_to_dict_deep json_loads item 3 = Ok (Some d) ->
  lookup "jpro_id" d = Some v -> v <> VNone -> v <> VStr "" ->
  lookup "id" d = Some w -> w <> VNone -> w <> VStr "" ->
  extract_id_any json_loads item = Ok (Some (py_str v)).
Proof.
  intros Hd Hv Hn He _ _ _. unfold extract_id_any. rewrite Hd. cbn [bind].
  unfold id_from_fieldmap, id_keys. cbn [scan_top_id]. rewrite Hv.
  rewrite (present_value_accepted v Hn He). reflexivity.
Qed.

Lemma jpro_id_takes_precedence_witness :
  extract_id_any no_json (VDict [("id", VInt 12); ("jpro_id", VStr "J-7")])
  = Ok (Some "J-7").
Proof.
  apply (jpro_id_takes_precedence no_json
           (VDict [("id", VInt 12); ("jpro_id", VStr "J-7")])
           [("id", VInt 12); ("jpro_id", VStr "J-7")] (VStr "J-7") (VInt 12));
    try reflexivity; discriminate.
Defined.

(** C4, as the code has it.  In the scan of the FieldMap itself only [None]
    and the empty string count as absent: the falsy values [0] and [False]
    are stringified and returned. *)
Lemma falsy_top_level_id_is_returned :
  truthy (VInt 0) = false /\
  extract_id_any no_json (VDict [("id", VInt 0)]) = Ok (Some "0") /\
  truthy (VBool false) = false /\
  extract_id_any no_json (VDict [("uuid", VBool false)]) = Ok (Some "False").
Proof. repeat split; reflexivity. Qed.

Lemma scan_top_id_absent (d : fieldmap) (keys : list string) :
  (forall k v, In k keys -> lookup k d = Some v -> v = VNone \/ v = VStr "") ->
  scan_top_id d keys = None.
Proof.
  induction keys as [|k rest IH]; intro H; cbn [scan_top_id]; [reflexivity|].
  assert (Hrest : scan_top_id d rest = None)
    by (apply IH; intros k' v Hk; apply H; right; exact Hk).
  destruct (lookup k d) as [v|] eqn:L; [|exact Hrest].
  destruct (H k v (or_introl eq_refl) L) as [-> | ->]; exact Hrest.
Qed.

Lemma scan_truthy_absent (sub : fieldmap) (keys : list string) :
  (forall k, In k keys -> truthy (dict_get sub k) = false) ->
  scan_truthy sub keys = None.
Proof.
  induction keys as [|k rest IH]; intro H; cbn [scan_truthy]; [reflexivity|].
  rewrite (H k (or_introl eq_refl)). apply IH. intros k' Hk. apply H. right; exact Hk.
Qed.

Lemma scan_nested_id_absent (d : fieldmap) (sections : list string) :
  (forall s sub, In s sections -> dict_get d s = VDict sub ->
                 forall k, In k nested_id_keys -> truthy (dict_get sub k) = false) ->
  scan_nested_id d sections = None.
Proof.
  induction sections as [|s rest IH]; intro H; cbn [scan_nested_id]; [reflexivity|].
  assert (Hrest : scan_nested_id d rest = None)
    by (apply IH; intros s' sub Hs; apply H; right; exact Hs).
  destruct (dict_get d s) eqn:E; try exact Hrest.
  rewrite (scan_truthy_absent kv nested_id_keys (H s kv (or_introl eq_refl) E)).
  exact Hrest.
Qed.

Lemma scan_attrs_absent (item : pyval) (keys : list string) :
  (forall k, In k keys -> exists v, py_getattr item k = Ok v /\ truthy v = false) ->
  scan_attrs item keys = Ok None.
Proof.
  induction keys as [|k rest IH]; intro H; cbn [scan_attrs]; [reflexivity|].
  destruct (H k (or_introl eq_refl)) as (v & -> & Hv). cbn [bind]. rewrite Hv.
  apply IH. intros k' Hk. apply H. right; exact Hk.
Qed.

Lemma scan_get_absent (get : pyval) (keys : list string) :
  (forall k v, In k keys -> py_call1 get k = Ok v -> truthy v = false) ->
  scan_get get keys = None.
Proof.
  induction keys as [|k rest IH]; intro H; cbn [scan_get]; [reflexivity|].
  assert (Hrest : scan_get get rest = None)
    by (apply IH; intros k' v Hk; apply H; right; exact Hk).
  destruct (py_call1 get k) as [v|] eqn:C; [|exact Hrest].
  rewrite (H k v (or_introl eq_refl) C). exact Hrest.
Qed.

Lemma index_truthy_absent (item : pyval) (k : string) :
  (forall v, py_getitem item k = Ok v -> truthy v = false) ->
  index_truthy item k = None.
Proof.
  intro H. unfold index_truthy.
  destruct (py_getitem item k) as [v|]; [|reflexivity].
  rewrite (H v eq_refl). reflexivity.
Qed.

(** C4 (amended).  The extractor returns none for every record in which
    each candidate is absent in the sense of its step: in the FieldMap found
    by the prober, a key of the precedence list is missing or bound to
    [None] or to the empty string; in a nested section, in the attributes of
    the record, in what its [get] returns and in what indexing it returns,
    the value is falsy (or the lookup fails). *)
Theorem no_identifier_when_all_candidates_absent
        (json_loads : pyval -> res pyval) (item : pyval) (d : option fieldmap) :
  obj_to_dict_deep json_loads item 3 = Ok d ->
  (forall kv k v, d = Some kv -> In k id_keys -> lookup k kv = Some v ->
                  v = VNone \/ v = VStr "") ->
  (forall kv s sub, d = Some kv -> In s nested_sections -> dict_get kv s = VDict sub ->
                    forall k, In k nested_id_keys -> truthy (dict_get sub k) = false) ->
  (forall k, In k id_keys ->
             exists v, py_getattr item k = Ok v /\ truthy v = false) ->
  (exists get, py_getattr item "get" = Ok get /\
               forall k v, In k nested_id_keys -> py_call1 get k = Ok v ->
                           truthy v = false) ->
  (forall k v, In k ["jpro_id"; "id"] -> py_getitem item k = Ok v ->
               truthy v = false) ->
  extract_id_any json_loads item = Ok None.
Proof.
  intros Hd Htop Hnested Hattr (get & Hget & Hcall) Hindex.
  unfold extract_id_any. rewrite Hd. cbn [bind].
  assert (Hmap : match d with
                 | Some kv => id_from_fieldmap kv
                 | None => None
                 end = None).
  { destruct d as [kv|]; [|reflexivity]. unfold id_from_fieldmap.
    rewrite (scan_top_id_absent kv id_keys)
      by (intros k v; apply Htop; reflexivity).
    apply scan_nested_id_absent. intros s sub. apply Hnested. reflexivity. }
  rewrite Hmap. unfold id_fallbacks.
  rewrite (scan_attrs_absent item id_keys Hattr). cbn [bind].
  rewrite Hget. cbn [bind].
  rewrite (scan_get_absent get nested_id_keys Hcall).
  assert (Hg : (if callable get then @None pyval else None) = None)
    by (destruct (callable get); reflexivity).
  rewrite Hg.
  rewrite (index_truthy_absent item "jpro_id")
    by (intro v; apply Hindex; left; reflexivity).
  rewrite (index_truthy_absent item "id")
    by (intro v; apply Hindex; right; left; reflexivity).
  reflexivity.
Qed.

Lemma no_identifier_when_all_candidates_absent_witness :
  extract_id_any no_json
    (VDict [("id", VStr ""); ("uuid", VNone); ("general", VDict [("id", VInt 0)])])
  = Ok None.
Proof.
  apply (no_identifier_when_all_candidates_absent no_json
           (VDict [("id", VStr ""); ("uuid", VNone); ("general", VDict [("id", VInt 0)])])
           (Some [("id", VStr ""); ("uuid", VNone); ("general", VDict [("id", VInt 0)])])).
  - reflexivity.
  - intros kv k v E Hk L. inversion E; subst kv. unfold id_keys in Hk.
    split_in; simpl in L; inversion L; auto.
  - intros kv s sub E Hs L k Hk. inversion E; subst kv.
    unfold nested_sections in Hs. unfold nested_id_keys in Hk.
    split_in; simpl in L; inversion L; subst; split_in; reflexivity.
  - intros k Hk. unfold id_keys in Hk. exists VNone. split_in; split; reflexivity.
  - eexists. split; [reflexivity|].
    intros k v Hk C. unfold nested_id_keys in Hk.
    split_in; simpl in C; inversion C; reflexivity.
  - intros k v Hk C. split_in; simpl in C; inversion C; reflexivity.
Defined.

(** ** The item accessor *)

Lemma call_nothing (v : pyval) (A : Type) (x : option A) :
  callable v = false -> (if callable v then x else None) = None.
Proof. intros ->. reflexivity. Qed.

Lemma direct_items_text (v : pyval) :
  v = VNone \/ is_str_bytes_dict v = true -> direct_items v = Ok None.
Proof.
  intros [-> | H]; [reflexivity|].
  destruct v; try discriminate; reflexivity.
Qed.

Lemma text_not_callable (v : pyval) :
  v = VNone \/ is_str_bytes_dict v = true -> callable v = false.
Proof.
  intros [-> | H]; [reflexivity|].
  destruct v; try discriminate; reflexivity.
Qed.

Lemma items_from_attrs_text (r : pyval) (names : list string) :
  (forall a, In a names ->
             exists v, py_getattr r a = Ok v /\
                       (v = VNone \/ is_str_bytes_dict v = true)) ->
  items_from_attrs r names = Ok None.
Proof.
  induction names as [|a rest IH]; intro H; cbn [items_from_attrs]; [reflexivity|].
  destruct (H a (or_introl eq_refl)) as (v & -> & Hv). cbn [bind].
  rewrite (call_nothing v _ (call_for_items v) (text_not_callable v Hv)).
  rewrite (direct_items_text v Hv). cbn [bind].
  apply IH. intros a' Ha. apply H. right; exact Ha.
Qed.

Lemma items_from_getters_none (r : pyval) (names : list string) :
  (forall m, In m names -> exists v, py_getattr r m = Ok v /\ callable v = false) ->
  items_from_getters r names = Ok None.
Proof.
  induction names as [|m rest IH]; intro H; cbn [items_from_getters]; [reflexivity|].
  destruct (H m (or_introl eq_refl)) as (v & -> & Hv). cbn [bind].
  rewrite (call_nothing v _ (call_for_items v) Hv).
  apply IH. intros m' Hm. apply H. right; exact Hm.
Qed.

(** C10.  When each of the fields [data], [_data], [dataset], [items],
    [all] of a resource is unset or holds a string, a bytes value or a dict,
    and none of [get_all], [to_list], [list], [all] is callable, the accessor
    returns the empty list: the characters of the string or the keys of the
    dict are not taken for items. *)
Theorem text_or_dict_field_gives_no_items (r : pyval) :
  (forall a, In a cand_attrs ->
             exists v, py_getattr r a = Ok v /\
                       (v = VNone \/ is_str_bytes_dict v = true)) ->
  (forall m, In m getter_methods ->
             exists v, py_getattr r m = Ok v /\ callable v = false) ->
  iter_items_from_resource r = Ok [].
Proof.
  intros Hattrs Hgetters. unfold iter_items_from_resource.
  rewrite (items_from_attrs_text r cand_attrs Hattrs). cbn [bind].
  rewrite (items_from_getters_none r getter_methods Hgetters). reflexivity.
Qed.

Lemma text_or_dict_field_gives_no_items_witness :
  iter_items_from_resource
    (VObj 1 "<Resource>" "<Resource>"
          [("resource_type", Stored (VStr "SCRIPT")); ("data", Stored (VStr "abc"))])
  = Ok [].
Proof.
  apply text_or_dict_field_gives_no_items.
  - intros a Ha. unfold cand_attrs in Ha.
    split_in; eexists; (split; [reflexivity|]); auto.
  - intros m Hm. unfold getter_methods in Hm.
    split_in; eexists; split; reflexivity.
Defined.

Example callable_field_returning_text_is_iterated :
  iter_items_from_resource
    (VObj 1 "<Resource>" "<Resource>"
          [("data", Shared (VFun0 "<bound method data>" (Ok (VStr "ab"))))])
  = Ok [VStr "a"; VStr "b"].
Proof. reflexivity. Qed.

(** ** The compile pass *)

Lemma classify_unknown (tag : string) :
  (forall key, In key (map fst TERRAFORM_TYPE_MAP) -> contains key tag = false) ->
  classify tag = None.
Proof.
  intro H. unfold classify.
  destruct (find (fun e => contains (fst e) tag) TERRAFORM_TYPE_MAP) as [e|] eqn:F;
    [|reflexivity].
  apply find_some in F. destruct F as [Hin Hc].
  rewrite (H (fst e) (in_map fst _ e Hin)) in Hc. discriminate.
Qed.

(** C6.  A group whose tag contains no key of the table appends exactly one
    entry, the diagnostic naming the tag, and leaves the sample counter and
    the sample file as they were; the run with the group is the run without
    it with that one entry put between the entries of the groups before and
    those of the groups after, which are processed from the same state. *)
Theorem unsupported_group_is_skipped
        (json_loads : pyval -> res pyval) (dumper : bool)
        (pre post : list pyval) (g : pyval) (tag : string) (st : state) :
  detect_tag g = Ok tag ->
  (forall key, In key (map fst TERRAFORM_TYPE_MAP) -> contains key tag = false) ->
  compile_group json_loads dumper st g =
    Ok (mk_state (blocks st ++ ["# Skipping unsupported resource tag: " +++ tag])
                 (dumped st) (written st)) /\
  compile_groups json_loads dumper (pre ++ g :: post) st =
    (st1 <- compile_groups json_loads dumper pre st ;;
     st2 <- compile_groups json_loads dumper post (drop_blocks st1) ;;
     Ok (mk_state
           (blocks st1 ++ ("# Skipping unsupported resource tag: " +++ tag) :: blocks st2)
           (dumped st2) (written st2))) /\
  compile_groups json_loads dumper (pre ++ post) st =
    (st1 <- compile_groups json_loads dumper pre st ;;
     st2 <- compile_groups json_loads dumper post (drop_blocks st1) ;;
     Ok (mk_state (blocks st1 ++ blocks st2) (dumped st2) (written st2))).
Proof.
  intros Htag Hkeys. pose proof (classify_unknown tag Hkeys) as Hc.
  assert (Hg : forall s, compile_group json_loads dumper s g =
                         Ok (push_block s ("# Skipping unsupported resource tag: " +++ tag))).
  { intro s. unfold compile_group. rewrite Htag. cbn [bind]. rewrite Hc. reflexivity. }
  split; [apply Hg|]. split.
  - rewrite compile_groups_app.
    destruct (compile_groups json_loads dumper pre st) as [st1|]; cbn [bind];
      [|reflexivity].
    cbn [compile_groups]. rewrite Hg. cbn [bind].
    rewrite compile_groups_frame.
    change (drop_blocks (push_block st1 ("# Skipping unsupported resource tag: " +++ tag)))
      with (drop_blocks st1).
    destruct (compile_groups json_loads dumper post (drop_blocks st1)) as [st2|];
      cbn [bind]; [|reflexivity].
    unfold push_block. cbn [blocks]. rewrite <- app_assoc. reflexivity.
  - rewrite compile_groups_app.
    destruct (compile_groups json_loads dumper pre st) as [st1|]; cbn [bind];
      [|reflexivity].
    apply compile_groups_frame.
Qed.

Lemma unsupported_group_is_skipped_witness :
  compile_group no_json true (mk_state [] 0 [])
                (resource_group 2 "UNKNOWN_TYPE" [plain_item 2]) =
    Ok (mk_state ["# Skipping unsupported resource tag: UNKNOWN_TYPE"] 0 []) /\
  fmap blocks
       (compile_groups no_json true
          ([resource_group 1 "SCRIPT" [plain_item 1]] ++
           resource_group 2 "UNKNOWN_TYPE" [plain_item 2] ::
           [resource_group 3 "POLICY" [plain_item 3]])
          (mk_state [] 0 [])) =
    Ok [import_block "1" "jamfpro_script" "item";
        "# Skipping unsupported resource tag: UNKNOWN_TYPE";
        import_block "3" "jamfpro_policy" "item"].
Proof.
  destruct (unsupported_group_is_skipped no_json true
              [resource_group 1 "SCRIPT" [plain_item 1]]
              [resource_group 3 "POLICY" [plain_item 3]]
              (resource_group 2 "UNKNOWN_TYPE" [plain_item 2])
              "UNKNOWN_TYPE" (mk_state [] 0 []))
    as (H1 & H2 & _).
  - reflexivity.
  - intros key Hk. cbn [map fst TERRAFORM_TYPE_MAP] in Hk. split_in; reflexivity.
  - split; [exact H1|]. rewrite H2. reflexivity.
Defined.

Lemma Ok_inj {A : Type} (a b : A) : Ok a = Ok b -> a = b.
Proof. intro H. injection H as H. exact H. Qed.

Lemma append_newline_not_empty (s : string) : s +++ nl <> "".
Proof. destruct s; discriminate. Qed.

(** C8.  The text returned is made of the entries of the groups, group
    after group in the order given and item after item within a group, two
    newline characters between consecutive entries, and one newline character
    at the end when there is an entry; it is empty exactly when there is
    none.  The sample file plays no part in it. *)
Theorem output_is_the_ordered_entries
        (json_loads : pyval -> res pyval) (can_open : string -> bool)
        (resources : list pyval) (dump_path : option string) :
  fmap fst (compose_import_hcl json_loads can_open resources dump_path) =
    (_ <- open_dumper can_open dump_path ;;
     es <- run_entries json_loads resources ;;
     Ok (join (nl +++ nl) es +++ match es with [] => "" | _ => nl end)) /\
  (forall es : list string, assemble es = "" <-> es = []).
Proof.
  split.
  - rewrite compose_import_hcl_spec. unfold fmap.
    destruct (open_dumper can_open dump_path) as [dumper|]; cbn [bind]; [|reflexivity].
    destruct (run_entries json_loads resources) as [es|] eqn:E; cbn [bind];
      [|reflexivity].
    destruct (run_items_defined json_loads resources es E) as [items ->].
    reflexivity.
  - intro es. split.
    + destruct es as [|e t]; [reflexivity|].
      unfold assemble. intro H. apply append_newline_not_empty in H. destruct H.
    + intros ->. reflexivity.
Qed.

(** C7, as the code has it.  A sample that cannot be serialized is neither
    written nor counted: fifty items in two classified groups, a sample file
    named, and no line is written. *)
Lemma unserializable_samples_are_not_written :
  List.length (repeat dated_item 25 ++ repeat dated_item 25) = 50 /\
  fmap snd
       (compose_import_hcl no_json always_open
          [resource_group 1 "SCRIPT" (repeat dated_item 25);
           resource_group 2 "POLICY" (repeat dated_item 25)]
          (Some "samples.jsonl")) = Ok [].
Proof. split; vm_compute; reflexivity. Qed.

(** C7 (amended).  The lines of the sample file are the first twenty of the
    samples that can be serialized, taken over the items of all classified
    groups in the order of the run: never more than twenty, and exactly
    twenty as soon as twenty items or more have a sample that serializes. *)
Theorem sample_lines_are_capped
        (json_loads : pyval -> res pyval) (can_open : string -> bool)
        (resources : list pyval) (dump_path : option string) :
  fmap snd (compose_import_hcl json_loads can_open resources dump_path) =
    (dumper <- open_dumper can_open dump_path ;;
     _ <- run_entries json_loads resources ;;
     items <- run_items resources ;;
     Ok (if dumper then firstn 20 (samples json_loads items) else [])) /\
  (forall text lines,
      compose_import_hcl json_loads can_open resources dump_path = Ok (text, lines) ->
      List.length lines <= 20) /\
  (forall text lines items,
      compose_import_hcl json_loads can_open resources dump_path = Ok (text, lines) ->
      open_dumper can_open dump_path = Ok true ->
      run_items resources = Ok items ->
      20 <= List.length (samples json_loads items) ->
      List.length lines = 20).
Proof.
  assert (Heq : fmap snd (compose_import_hcl json_loads can_open resources dump_path) =
                (dumper <- open_dumper can_open dump_path ;;
                 _ <- run_entries json_loads resources ;;
                 items <- run_items resources ;;
                 Ok (if dumper then firstn 20 (samples json_loads items) else []))).
  { rewrite compose_import_hcl_spec. unfold fmap.
    destruct (open_dumper can_open dump_path) as [dumper|]; cbn [bind]; [|reflexivity].
    destruct (run_entries json_loads resources) as [es|]; cbn [bind]; [|reflexivity].
    destruct (run_items resources) as [items|]; cbn [bind]; reflexivity. }
  split; [exact Heq|]. split.
  - intros text lines H. rewrite H in Heq. unfold fmap in Heq. cbn [bind snd] in Heq.
    destruct (open_dumper can_open dump_path) as [dumper|]; cbn [bind] in Heq;
      [|discriminate].
    destruct (run_entries json_loads resources); cbn [bind] in Heq; [|discriminate].
    destruct (run_items resources) as [items|]; cbn [bind] in Heq; [|discriminate].
    apply Ok_inj in Heq. subst lines.
    destruct dumper; [apply firstn_le_length | cbn [List.length]; lia].
  - intros text lines items H Hopen Hitems Hlen.
    rewrite H, Hopen, Hitems in Heq. unfold fmap in Heq. cbn [bind snd] in Heq.
    destruct (run_entries json_loads resources); cbn [bind] in Heq; [|discriminate].
    apply Ok_inj in Heq. subst lines. apply firstn_length_le, Hlen.
Qed.

Lemma sample_lines_are_capped_witness :
  exists lines,
    fmap snd (compose_import_hcl no_json always_open fifty_items (Some "samples.jsonl"))
    = Ok lines /\
    List.length lines = 20.
Proof.
  rewrite (proj1 (sample_lines_are_capped no_json always_open fifty_items
                                          (Some "samples.jsonl"))).
  eexists. split; [vm_compute; reflexivity | reflexivity].
Defined.

(** ** The end-to-end example *)

(** C1, as the code has it.  The text returned for the example differs from
    the text claimed: the underscore that replaces the trailing exclamation
    mark is stripped, so the local name is [my_script]. *)
Lemma example_output_has_no_trailing_underscore :
  fmap fst (compose_import_hcl no_json always_open example_groups None)
  = Ok example_output /\
  example_output <> example_output_claimed /\
  sanitize_name (VStr "My Script!") = "my_script".
Proof.
  split; [reflexivity|]. split; [|reflexivity].
  apply String.eqb_neq. vm_compute. reflexivity.
Qed.

(** C1 (amended).  For the groups of the example the compiler returns one
    block [import { id = "1"  to = jamfpro_script.my_script }], one blank line,
    the line [# No items found for CATEGORY] and a newline at the end; it
    writes nothing else. *)
Theorem end_to_end_example
        (json_loads : pyval -> res pyval) (can_open : string -> bool) :
  compose_import_hcl json_loads can_open example_groups None
  = Ok (example_output, []).
Proof. reflexivity. Qed.

(** ** The name extractor *)

(** The fallback name: for a record without a name in its FieldMap and
    without a truthy name attribute, and the identifier [42], the name
    extractor returns [id_42]. *)
Theorem fallback_name_from_identifier
        (json_loads : pyval -> res pyval) (item : pyval) (d : option fieldmap) :
  obj_to_dict_deep json_loads item 3 = Ok d ->
  (forall kv, d = Some kv -> name_from_fieldmap kv = None) ->
  scan_attrs item name_attrs = Ok None ->
  extract_name_any json_loads item "42" = Ok "id_42".
Proof.
  intros Hd Hmap Hattrs. unfold extract_name_any. rewrite Hd. cbn [bind].
  assert (E : match d with
              | Some kv => name_from_fieldmap kv
              | None => None
              end = None)
    by (destruct d as [kv|]; [apply Hmap; reflexivity | reflexivity]).
  rewrite E, Hattrs. reflexivity.
Qed.

Lemma fallback_name_from_identifier_witness :
  extract_name_any no_json (VDict [("id", VInt 42); ("name", VStr "")]) "42"
  = Ok "id_42".
Proof.
  apply (fallback_name_from_identifier no_json
           (VDict [("id", VInt 42); ("name", VStr "")])
           (Some [("id", VInt 42); ("name", VStr "")])).
  - reflexivity.
  - intros kv E. inversion E; subst kv. reflexivity.
  - reflexivity.
Defined.

(** The local name of every import block is an identifier: whenever the
    name extractor returns, what it returns is not empty and matches
    [^[a-z_][a-z0-9_]*$]. *)
Theorem extracted_name_is_identifier
        (json_loads : pyval -> res pyval) (item : pyval) (fallback_id name : string) :
  extract_name_any json_loads item fallback_id = Ok name ->
  name <> "" /\ is_identifier name = true.
Proof.
  unfold extract_name_any. intro H.
  assert (S : exists v, name = sanitize_name v).
  { destruct (obj_to_dict_deep json_loads item 3) as [d|]; cbn [bind] in H;
      [|discriminate].
    destruct (match d with Some kv => name_from_fieldmap kv | None => None end) as [v|].
    - exists v. apply Ok_inj in H. symmetry; exact H.
    - destruct (scan_attrs item name_attrs) as [[v|]|]; cbn [bind] in H;
        [| |discriminate]; apply Ok_inj in H; eexists; symmetry; exact H. }
  destruct S as [v ->].
  destruct (sanitize_chars_shape (chars (py_str v))) as (c & t & E & Hc & Ht).
  unfold sanitize_name, is_identifier. rewrite E, chars_text. split.
  - discriminate.
  - rewrite Hc. cbn [orb andb]. apply forallb_forall. intros x Hx.
    unfold all_word in Ht. rewrite Forall_forall in Ht. apply Ht, Hx.
Qed.

Lemma extracted_name_is_identifier_witness :
  extract_name_any no_json script_item "1" = Ok "my_script" /\
  "my_script" <> "" /\ is_identifier "my_script" = true.
Proof.
  split; [reflexivity|].
  apply (extracted_name_is_identifier no_json script_item "1" "my_script").
  reflexivity.
Defined.

(** * Further properties of the code *)

(** ** sanitize_name applied to its own results *)

Lemma word_is_not_space (c : ascii) : word c = true -> py_isspace c = false.
Proof.
  destruct c as [[] [] [] [] [] [] [] []]; intro H;
    solve [reflexivity | discriminate H].
Qed.

Lemma word_is_lowered (c : ascii) : word c = true -> py_lower c = c.
Proof.
  destruct c as [[] [] [] [] [] [] [] []]; intro H;
    solve [reflexivity | discriminate H].
Qed.

Lemma lower_is_plain (c : ascii) :
  is_lower c = true ->
  word c = true /\ is_underscore c = false /\ py_isdigit c = false.
Proof.
  destruct c as [[] [] [] [] [] [] [] []]; intro H;
    solve [repeat split; reflexivity | discriminate H].
Qed.

Lemma sub_runs_word_fixed (l : list ascii) (b : bool) :
  all_word l -> sub_runs b l = l.
Proof.
  intro H. revert b. induction H as [|c t Hc Ht IH]; intro b; cbn [sub_runs].
  - reflexivity.
  - rewrite Hc, IH. reflexivity.
Qed.

Lemma map_lower_word_fixed (l : list ascii) : all_word l -> map py_lower l = l.
Proof.
  intro H. induction H as [|c t Hc Ht IH]; cbn [map]; [reflexivity|].
  rewrite (word_is_lowered c Hc), IH. reflexivity.
Qed.

Lemma strip_last (p : ascii -> bool) (l t : list ascii) (c : ascii) :
  strip p l = t ++ [c] -> p c = false.
Proof.
  unfold strip, rstrip. intro H.
  apply (f_equal (@rev ascii)) in H.
  rewrite rev_involutive, rev_app_distr in H. cbn [rev app] in H.
  exact (lstrip_head p _ c (rev t) H).
Qed.

Lemma strip_fixed (p : ascii -> bool) (c : ascii) (t : list ascii) :
  p c = false ->
  (forall u z, c :: t = u ++ [z] -> p z = false) ->
  strip p (c :: t) = c :: t.
Proof.
  intros Hc Hlast. unfold strip. cbn [lstrip]. rewrite Hc. unfold rstrip.
  destruct (rev (c :: t)) as [|z u] eqn:E.
  - apply (f_equal (@rev ascii)) in E. rewrite rev_involutive in E. discriminate E.
  - assert (L : c :: t = rev u ++ [z]).
    { apply (f_equal (@rev ascii)) in E. rewrite rev_involutive in E. exact E. }
    cbn [lstrip]. rewrite (Hlast (rev u) z L). rewrite <- E. apply rev_involutive.
Qed.

Lemma last_of_cons {A : Type} (a : A) (l u : list A) (z : A) :
  l <> [] -> a :: l = u ++ [z] -> exists u', l = u' ++ [z].
Proof.
  intros Hl E. destruct u as [|b u']; cbn [app] in E.
  - inversion E; subst. contradiction Hl. reflexivity.
  - inversion E; subst. exists u'. reflexivity.
Qed.

(** The result of the sanitizer: a lower-case letter, then characters of the
    class, the last of which is no underscore. *)
Lemma sanitize_chars_ends (l : list ascii) :
  exists c t, sanitize_chars l = c :: t /\
              is_lower c = true /\ all_word t /\
              (forall u z, c :: t = u ++ [z] -> is_underscore z = false).
Proof.
  unfold sanitize_chars.
  set (s2 := re_sub_nonword (map py_lower (strip py_isspace l))).
  assert (Hw : all_word (strip is_underscore s2))
    by (apply strip_word, sub_runs_word).
  destruct (strip is_underscore s2) as [|c t] eqn:E.
  - exists "r"%char, []. repeat split; [constructor|].
    intros u z H. destruct u as [|a [|b u]]; inversion H; reflexivity.
  - pose proof (strip_head is_underscore s2 c t E) as Hu.
    assert (Hlast : forall u z, c :: t = u ++ [z] -> is_underscore z = false)
      by (intros u z H; rewrite H in E; exact (strip_last is_underscore s2 u z E)).
    inversion Hw as [|? ? Hc Ht]; subst.
    destruct (py_isdigit c) eqn:Hd.
    + exists "r"%char, ("_"%char :: c :: t). repeat split.
      * constructor; [reflexivity | constructor; assumption].
      * intros u z H. cbn [chars list_ascii_of_string app] in H.
        destruct (last_of_cons "r"%char ("_"%char :: c :: t) u z) as [u1 H1];
          [discriminate | exact H |].
        destruct (last_of_cons "_"%char (c :: t) u1 z) as [u2 H2];
          [discriminate | exact H1 |].
        exact (Hlast u2 z H2).
    + exists c, t. repeat split; [|assumption|exact Hlast].
      apply word_not_underscore_not_digit; assumption.
Qed.

Lemma sanitize_chars_fixed (c : ascii) (t : list ascii) :
  is_lower c = true -> all_word t ->
  (forall u z, c :: t = u ++ [z] -> is_underscore z = false) ->
  sanitize_chars (c :: t) = c :: t.
Proof.
  intros Hc Ht Hlast.
  destruct (lower_is_plain c Hc) as (Hw & Hu & Hd).
  assert (Hall : all_word (c :: t)) by (constructor; assumption).
  assert (Hspace : strip py_isspace (c :: t) = c :: t).
  { apply strip_fixed; [apply word_is_not_space, Hw|].
    intros u z E. apply word_is_not_space.
    unfold all_word in Hall. rewrite Forall_forall in Hall. apply Hall.
    rewrite E. apply in_or_app. right. left. reflexivity. }
  unfold sanitize_chars. rewrite Hspace.
  rewrite (map_lower_word_fixed (c :: t) Hall).
  unfold re_sub_nonword. rewrite (sub_runs_word_fixed (c :: t) false Hall).
  rewrite (strip_fixed is_underscore c t Hu Hlast). rewrite Hd. reflexivity.
Qed.

(** The sanitizer is idempotent, and what it returns does not end with an
    underscore (nor start with one: it starts with a lower-case letter). *)
Theorem sanitize_name_idempotent (s : pyval) :
  sanitize_name (VStr (sanitize_name s)) = sanitize_name s /\
  (forall c t, chars (sanitize_name s) = c :: t -> is_lower c = true) /\
  (forall u z, chars (sanitize_name s) = u ++ [z] -> is_underscore z = false).
Proof.
  unfold sanitize_name. cbn [py_str].
  destruct (sanitize_chars_ends (chars (py_str s))) as (c & t & E & Hc & Ht & Hlast).
  rewrite E, chars_text. repeat split.
  - rewrite (sanitize_chars_fixed c t Hc Ht Hlast). reflexivity.
  - intros c' t' H. inversion H; subst. exact Hc.
  - exact Hlast.
Qed.

(** ** extract_id_any: precedence, and plain mappings *)

Lemma probe_dict (json_loads : pyval -> res pyval) (kv : fieldmap) :
  obj_to_dict_deep json_loads (VDict kv) 3 = Ok (Some kv).
Proof. reflexivity. Qed.

Lemma blank_rejected (v : pyval) :
  blank v -> negb (is_none v) && ne_empty_str v = false.
Proof. intros [-> | ->]; reflexivity. Qed.

Lemma blank_falsy (v : pyval) : blank v -> truthy v = false.
Proof. intros [-> | ->]; reflexivity. Qed.

Lemma rejected_blank (v : pyval) :
  negb (is_none v) && ne_empty_str v = false -> blank v.
Proof.
  unfold blank. destruct v; cbn; try discriminate; intro H.
  - left; reflexivity.
  - right. destruct s; [reflexivity | discriminate H].
Qed.

Lemma scan_top_id_skip (d : fieldmap) (pre rest : list string) :
  (forall k w, In k pre -> lookup k d = Some w -> blank w) ->
  scan_top_id d (pre ++ rest) = scan_top_id d rest.
Proof.
  induction pre as [|k pre IH]; intro H; cbn [app scan_top_id]; [reflexivity|].
  assert (Hrest : scan_top_id d (pre ++ rest) = scan_top_id d rest)
    by (apply IH; intros k' w Hk; apply H; right; exact Hk).
  destruct (lookup k d) as [w|] eqn:L; [|exact Hrest].
  rewrite (blank_rejected w (H k w (or_introl eq_refl) L)). exact Hrest.
Qed.

(** The first key of the precedence list that the FieldMap binds to a value
    other than [None] and the empty string decides the identifier: it is that
    value, stringified, whatever the later keys, the nested sections and the
    attributes of the record hold. *)
Theorem first_present_key_decides
        (json_loads : pyval -> res pyval) (item : pyval) (d : fieldmap)
        (pre post : list string) (k : string) (v : pyval) :
  obj_to_dict_deep json_loads item 3 = Ok (Some d) ->
  id_keys = pre ++ k :: post ->
  (forall k' w, In k' pre -> lookup k' d = Some w -> blank w) ->
  lookup k d = Some v -> v <> VNone -> v <> VStr "" ->
  extract_id_any json_loads item = Ok (Some (py_str v)).
Proof.
  intros Hd Hkeys Hpre Hv Hn He. unfold extract_id_any. rewrite Hd. cbn [bind].
  unfold id_from_fieldmap. rewrite Hkeys, (scan_top_id_skip d pre (k :: post) Hpre).
  cbn [scan_top_id]. rewrite Hv, (present_value_accepted v Hn He). reflexivity.
Qed.

Lemma first_present_key_decides_witness :
  extract_id_any no_json
    (VDict [("uid", VStr "late"); ("id", VStr ""); ("profileId", VInt 9);
            ("general", VDict [("id", VInt 1)])])
  = Ok (Some "9").
Proof.
  apply (first_present_key_decides no_json
           (VDict [("uid", VStr "late"); ("id", VStr ""); ("profileId", VInt 9);
                   ("general", VDict [("id", VInt 1)])])
           [("uid", VStr "late"); ("id", VStr ""); ("profileId", VInt 9);
            ("general", VDict [("id", VInt 1)])]
           ["jpro_id"; "id"; "Id"; "ID"] ["profileID"; "uuid"; "uid"]
           "profileId" (VInt 9)).
  - reflexivity.
  - reflexivity.
  - intros k' w Hk L. unfold blank. split_in; cbn in L; inversion L; auto.
  - reflexivity.
  - discriminate.
  - discriminate.
Defined.

Lemma scan_top_id_none (d : fieldmap) (keys : list string) :
  scan_top_id d keys = None ->
  forall k, In k keys -> truthy (dict_get d k) = false.
Proof.
  induction keys as [|k0 rest IH]; cbn [scan_top_id]; intros H k Hk; [destruct Hk|].
  unfold dict_get in *.
  destruct (lookup k0 d) as [w|] eqn:L.
  - destruct (negb (is_none w) && ne_empty_str w) eqn:A; [discriminate H|].
    destruct Hk as [<- | Hk]; [|exact (IH H k Hk)].
    rewrite L. apply blank_falsy, rejected_blank, A.
  - destruct Hk as [<- | Hk]; [|exact (IH H k Hk)].
    rewrite L. reflexivity.
Qed.

Lemma dict_has_no_id_attribute (kv : fieldmap) (k : string) :
  In k id_keys -> py_getattr (VDict kv) k = Ok VNone.
Proof. intro H. unfold id_keys in H. split_in; reflexivity. Qed.

(** For a record that is a plain mapping the identifier is decided by the
    mapping alone, by the scan of its own keys and then of its nested
    sections: the attribute, [get] and index fallbacks never find an
    identifier that these scans did not find. *)
Theorem plain_mapping_needs_no_fallback
        (json_loads : pyval -> res pyval) (kv : fieldmap) :
  extract_id_any json_loads (VDict kv) =
  Ok (match scan_top_id kv id_keys with
      | Some s => Some s
      | None => scan_nested_id kv nested_sections
      end).
Proof.
  unfold extract_id_any.
  rewrite (probe_dict json_loads kv). cbn [bind]. unfold id_from_fieldmap.
  destruct (scan_top_id kv id_keys) as [s|] eqn:T; [reflexivity|].
  destruct (scan_nested_id kv nested_sections) as [s|]; [reflexivity|].
  pose proof (scan_top_id_none kv id_keys T) as Hfalsy.
  unfold id_fallbacks.
  rewrite (scan_attrs_absent (VDict kv) id_keys)
    by (intros k Hk; exists VNone; split;
        [apply dict_has_no_id_attribute, Hk | reflexivity]).
  cbn [bind py_getattr dict_attr String.eqb Ascii.eqb Bool.eqb callable].
  rewrite (scan_get_absent _ nested_id_keys).
  - assert (I : forall k, In k id_keys -> index_truthy (VDict kv) k = None).
    { intros k Hk. apply index_truthy_absent. intros v E. cbn [py_getitem] in E.
      specialize (Hfalsy k Hk). unfold dict_get in Hfalsy.
      destruct (lookup k kv) as [x|]; [|discriminate E].
      apply Ok_inj in E. subst x. exact Hfalsy. }
    rewrite (I "jpro_id"), (I "id"); [reflexivity | | ];
      unfold id_keys; cbn [In]; auto.
  - intros k v Hk C. cbn [py_call1] in C. apply Ok_inj in C. subst v.
    apply Hfalsy. unfold nested_id_keys in Hk. unfold id_keys.
    split_in; cbn [In]; auto 10.
Qed.

(** ** compose_import_hcl: what an entry is, and how many there are *)

Lemma extract_name_any_shape
      (json_loads : pyval -> res pyval) (item : pyval) (fallback_id name : string) :
  extract_name_any json_loads item fallback_id = Ok name ->
  is_identifier name = true.
Proof.
  unfold extract_name_any. intro H.
  assert (S : exists v, name = sanitize_name v).
  { destruct (obj_to_dict_deep json_loads item 3) as [d|]; cbn [bind] in H;
      [|discriminate].
    destruct (match d with Some kv => name_from_fieldmap kv | None => None end) as [v|].
    - exists v. apply Ok_inj in H. symmetry; exact H.
    - destruct (scan_attrs item name_attrs) as [[v|]|]; cbn [bind] in H;
        [| |discriminate]; apply Ok_inj in H; eexists; symmetry; exact H. }
  destruct S as [v ->].
  destruct (sanitize_chars_shape (chars (py_str v))) as (c & t & E & Hc & Ht).
  unfold sanitize_name, is_identifier. rewrite E, chars_text, Hc. cbn [orb andb].
  apply forallb_forall. intros x Hx.
  unfold all_word in Ht. rewrite Forall_forall in Ht. apply Ht, Hx.
Qed.

(** Every entry made for an item is either an import block, whose identifier
    is the one extracted and is not empty and whose local name is the one
    extracted and is an identifier, or the diagnostic for an identifier that
    is none or empty, which names the tag and shows [repr(item)]. *)
Theorem entry_is_block_or_diagnostic
        (json_loads : pyval -> res pyval) (tag tf_type : string) (item : pyval)
        (e : string) :
  item_entry json_loads tag tf_type item = Ok e ->
  (exists rid local,
      extract_id_any json_loads item = Ok (Some rid) /\ rid <> "" /\
      extract_name_any json_loads item rid = Ok local /\
      is_identifier local = true /\
      e = import_block rid tf_type local) \/
  ((extract_id_any json_loads item = Ok None \/
    extract_id_any json_loads item = Ok (Some "")) /\
   e = "# Could not extract id for item in " +++ tag +++ ": " +++ py_repr item).
Proof.
  unfold item_entry. intro H.
  destruct (extract_id_any json_loads item) as [[r|]|]; cbn [bind] in H;
    [| |discriminate].
  - destruct (String.eqb r "") eqn:E.
    + apply String.eqb_eq in E. subst r. apply Ok_inj in H. subst e.
      right. split; [right|]; reflexivity.
    + apply String.eqb_neq in E.
      destruct (extract_name_any json_loads item r) as [local|] eqn:N;
        cbn [bind] in H; [|discriminate].
      apply Ok_inj in H. subst e. left. exists r, local.
      repeat split; try assumption; try reflexivity.
      exact (extract_name_any_shape json_loads item r local N).
  - apply Ok_inj in H. subst e. right. split; [left|]; reflexivity.
Qed.

Lemma entry_is_block_or_diagnostic_witness :
  (exists rid local,
      extract_id_any no_json script_item = Ok (Some rid) /\ rid <> "" /\
      extract_name_any no_json script_item rid = Ok local /\
      is_identifier local = true /\
      import_block "1" "jamfpro_script" "my_script"
      = import_block rid "jamfpro_script" local) \/
  ((extract_id_any no_json script_item = Ok None \/
    extract_id_any no_json script_item = Ok (Some "")) /\
   import_block "1" "jamfpro_script" "my_script"
   = "# Could not extract id for item in " +++ "SCRIPT" +++ ": " +++ py_repr script_item).
Proof.
  apply (entry_is_block_or_diagnostic no_json "SCRIPT" "jamfpro_script" script_item
           (import_block "1" "jamfpro_script" "my_script")).
  reflexivity.
Defined.

Lemma map_res_length {A B : Type} (f : A -> res B) (l : list A) :
  forall ys, map_res f l = Ok ys -> List.length ys = List.length l.
Proof.
  induction l as [|x t IH]; cbn [map_res]; intros ys H.
  - apply Ok_inj in H. subst ys. reflexivity.
  - destruct (f x) as [y|]; cbn [bind] in H; [|discriminate].
    destruct (map_res f t) as [ys'|]; cbn [bind] in H; [|discriminate].
    apply Ok_inj in H. subst ys. cbn [List.length]. f_equal. apply IH. reflexivity.
Qed.

(** A classified group with items appends one entry per item, in the order of
    the items: nothing is merged or dropped, also when two items are given
    the same address. *)
Theorem one_entry_per_item
        (json_loads : pyval -> res pyval) (dumper : bool) (st st' : state)
        (r : pyval) (tag tf_type : string) (items : list pyval) :
  detect_tag r = Ok tag ->
  classify tag = Some tf_type ->
  iter_items_from_resource r = Ok items ->
  items <> [] ->
  compile_group json_loads dumper st r = Ok st' ->
  exists es,
    map_res (item_entry json_loads tag tf_type) items = Ok es /\
    blocks st' = blocks st ++ es /\
    List.length es = List.length items.
Proof.
  intros Htag Hc Hitems Hne H. rewrite compile_group_spec in H.
  unfold group_entries, group_items in H.
  rewrite Htag in H. cbn [bind] in H. rewrite Hc, Hitems in H. cbn [bind] in H.
  destruct items as [|i t]; [contradiction Hne; reflexivity|].
  destruct (map_res (item_entry json_loads tag tf_type) (i :: t)) as [es|] eqn:M;
    cbn [bind] in H; [|discriminate].
  apply Ok_inj in H. subst st'. exists es. repeat split.
  exact (map_res_length _ (i :: t) es M).
Qed.

Lemma one_entry_per_item_witness :
  exists es,
    map_res (item_entry no_json "SCRIPT" "jamfpro_script")
            [script_item; VDict [("id", VInt 2); ("name", VStr "my script")]] = Ok es /\
    es = [] ++ es /\
    List.length es = 2.
Proof.
  destruct (one_entry_per_item no_json false (mk_state [] 0 [])
              (mk_state [import_block "1" "jamfpro_script" "my_script";
                         import_block "2" "jamfpro_script" "my_script"] 0 [])
              (resource_group 1 "SCRIPT"
                 [script_item; VDict [("id", VInt 2); ("name", VStr "my script")]])
              "SCRIPT" "jamfpro_script"
              [script_item; VDict [("id", VInt 2); ("name", VStr "my script")]])
    as (es & M & B & L); try reflexivity; [discriminate|].
  exists es. repeat split; [exact M | exact L].
Defined.

Lemma group_entries_not_empty (json_loads : pyval -> res pyval) (r : pyval)
      (es : list string) :
  group_entries json_loads r = Ok es -> es <> [].
Proof.
  unfold group_entries. intro H.
  destruct (detect_tag r) as [tag|]; cbn [bind] in H; [|discriminate].
  destruct (classify tag) as [tf|]; [|apply Ok_inj in H; subst es; discriminate].
  destruct (iter_items_from_resource r) as [items|]; cbn [bind] in H; [|discriminate].
  destruct items as [|i t]; [apply Ok_inj in H; subst es; discriminate|].
  pose proof (map_res_length _ (i :: t) es H) as L.
  intros ->. discriminate L.
Qed.

Lemma run_entries_empty (json_loads : pyval -> res pyval) (resources : list pyval)
      (es : list string) :
  run_entries json_loads resources = Ok es -> (es = [] <-> resources = []).
Proof.
  destruct resources as [|r rest]; cbn [run_entries]; intro H.
  - apply Ok_inj in H. subst es. split; reflexivity.
  - destruct (group_entries json_loads r) as [e1|] eqn:G; cbn [bind] in H;
      [|discriminate].
    destruct (run_entries json_loads rest) as [e2|]; cbn [bind] in H; [|discriminate].
    apply Ok_inj in H. subst es. split; [|discriminate].
    intro E. apply app_eq_nil in E. destruct E as [E _].
    contradiction (group_entries_not_empty json_loads r e1 G E).
Qed.

(** Every group leaves at least one entry, so the text returned is empty for
    the empty run and for no other; a text that is not empty ends with a
    newline. *)
Theorem output_empty_only_for_empty_run
        (json_loads : pyval -> res pyval) (can_open : string -> bool)
        (resources : list pyval) (dump_path : option string)
        (out : string) (lines : list string) :
  compose_import_hcl json_loads can_open resources dump_path = Ok (out, lines) ->
  (out = "" <-> resources = []) /\
  (resources <> [] -> exists body, out = body +++ nl).
Proof.
  rewrite compose_import_hcl_spec. intro H.
  destruct (open_dumper can_open dump_path) as [dumper|]; cbn [bind] in H;
    [|discriminate].
  destruct (run_entries json_loads resources) as [es|] eqn:E; cbn [bind] in H;
    [|discriminate].
  destruct (run_items resources) as [items|]; cbn [bind] in H; [|discriminate].
  apply Ok_inj in H. injection H as Hout _. subst out.
  pose proof (run_entries_empty json_loads resources es E) as Hes.
  split; [split|].
  - intro A. apply Hes. destruct es as [|e t]; [reflexivity|].
    unfold assemble in A. apply append_newline_not_empty in A. destruct A.
  - intro R. apply Hes in R. subst es. reflexivity.
  - intro R. destruct es as [|e t]; [contradiction R; apply Hes; reflexivity|].
    exists (join (nl +++ nl) (e :: t)). reflexivity.
Qed.

Lemma output_empty_only_for_empty_run_witness :
  (example_output = "" <-> example_groups = []) /\
  (example_groups <> [] -> exists body, example_output = body +++ nl).
Proof.
  apply (output_empty_only_for_empty_run no_json always_open example_groups None
           example_output []).
  reflexivity.
Defined.

(** ** detect_tag and the table *)

Lemma search_first_in (alts : list string) (s : string) (m : string) :
  search_first alts s = Some m -> In m alts.
Proof.
  induction s as [|c t IH]; cbn [search_first];
    destruct (find (fun a => is_prefix a _) alts) as [a|] eqn:F; intro H;
    try discriminate.
  - inversion H; subst. apply find_some in F. exact (proj1 F).
  - inversion H; subst. apply find_some in F. exact (proj1 F).
  - exact (IH H).
Qed.

Lemma search_first_none (alts : list string) (s : string) :
  search_first alts s = None ->
  forall a, In a alts -> contains a s = false.
Proof.
  induction s as [|c t IH]; cbn [search_first contains];
    destruct (find (fun a => is_prefix a _) alts) as [x|] eqn:F; intro H;
    try discriminate; intros a Ha.
  - rewrite (find_none _ _ F a Ha). reflexivity.
  - rewrite (find_none _ _ F a Ha). exact (IH H a Ha).
Qed.

Lemma key_classifies_as_itself (m : string) :
  In m tag_alternatives ->
  exists ty, lookup m TERRAFORM_TYPE_MAP = Some ty /\ classify m = Some ty.
Proof.
  intro H. unfold tag_alternatives in H.
  split_in; eexists; split; vm_compute; reflexivity.
Qed.

(** What [detect_tag] returns is either a key of the table, classified as
    the entry of that very key, or a text that contains no key and is not
    classified: the tag named in the entries of a classified group is always
    the bare key, whatever surrounds it in the tag of the resource. *)
Theorem detected_tag_is_key_or_unclassified (r : pyval) (tag : string) :
  detect_tag r = Ok tag ->
  match classify tag with
  | Some ty => lookup tag TERRAFORM_TYPE_MAP = Some ty
  | None => forall key, In key (map fst TERRAFORM_TYPE_MAP) -> contains key tag = false
  end.
Proof.
  unfold detect_tag. intro H.
  destruct (py_getattr r "resource_type") as [t|]; cbn [bind] in H; [|discriminate].
  destruct (if is_none t then py_getattr r "provider_tag" else Ok t) as [t'|];
    cbn [bind] in H; [|discriminate].
  destruct (search_first tag_alternatives (py_str t')) as [m|] eqn:S.
  - apply Ok_inj in H. subst tag.
    destruct (key_classifies_as_itself m (search_first_in _ _ m S)) as (ty & L & C).
    rewrite C. exact L.
  - apply Ok_inj in H. subst tag.
    pose proof (search_first_none _ _ S) as N.
    rewrite (classify_unknown (py_str t') N). exact N.
Qed.

Lemma detected_tag_is_key_or_unclassified_witness :
  detect_tag (VObj 1 "<Resource>" "<Resource>"
                [("resource_type",
                  Stored (VObj 2 "ProviderResourceTag.POLICY_SCRIPT" "<tag>" []))])
  = Ok "POLICY" /\
  match classify "POLICY" with
  | Some ty => lookup "POLICY" TERRAFORM_TYPE_MAP = Some ty
  | None => forall key, In key (map fst TERRAFORM_TYPE_MAP) ->
                        contains key "POLICY" = false
  end.
Proof.
  split; [reflexivity|].
  apply (detected_tag_is_key_or_unclassified
           (VObj 1 "<Resource>" "<Resource>"
                 [("resource_type",
                   Stored (VObj 2 "ProviderResourceTag.POLICY_SCRIPT" "<tag>" []))])
           "POLICY").
  reflexivity.
Defined.

(** ** iter_items_from_resource: which field decides *)

Lemma items_from_attrs_skip (r : pyval) (pre rest : list string) :
  (forall a, In a pre ->
             exists v, py_getattr r a = Ok v /\
                       (v = VNone \/ is_str_bytes_dict v = true)) ->
  items_from_attrs r (pre ++ rest) = items_from_attrs r rest.
Proof.
  induction pre as [|a pre IH]; intro H; cbn [app items_from_attrs]; [reflexivity|].
  destruct (H a (or_introl eq_refl)) as (v & -> & Hv). cbn [bind].
  rewrite (call_nothing v _ (call_for_items v) (text_not_callable v Hv)).
  rewrite (direct_items_text v Hv). cbn [bind].
  apply IH. intros a' Ha. apply H. right; exact Ha.
Qed.

(** The first candidate field that holds a list gives the items, also when
    that list is empty: the candidates after it and the getter methods are
    not asked. *)
Theorem first_list_field_decides
        (r : pyval) (pre post : list string) (a : string) (l : list pyval) :
  cand_attrs = pre ++ a :: post ->
  (forall a', In a' pre ->
              exists v, py_getattr r a' = Ok v /\
                        (v = VNone \/ is_str_bytes_dict v = true)) ->
  py_getattr r a = Ok (VList l) ->
  iter_items_from_resource r = Ok l.
Proof.
  intros Hc Hpre Ha. unfold iter_items_from_resource.
  rewrite Hc, (items_from_attrs_skip r pre (a :: post) Hpre).
  cbn [items_from_attrs]. rewrite Ha. reflexivity.
Qed.

Lemma first_list_field_decides_witness :
  iter_items_from_resource
    (VObj 1 "<Resource>" "<Resource>"
          [("data", Stored (VStr "pending")); ("_data", Stored (VList []));
           ("items", Stored (VList [script_item]));
           ("get_all", Shared (VFun0 "<bound method get_all>"
                                 (Ok (VList [script_item]))))])
  = Ok [].
Proof.
  apply (first_list_field_decides _ ["data"] ["dataset"; "items"; "all"] "_data" []).
  - reflexivity.
  - intros a' Ha. split_in. eexists. split; [reflexivity|]. right. reflexivity.
  - reflexivity.
Defined.

(** The guard against text applies to the value of a field, not to what a
    callable field returns: when [data] is a callable that returns a string,
    the items are its characters. *)
Theorem callable_field_text_is_iterated (r fn : pyval) (s : string) :
  py_getattr r "data" = Ok fn ->
  py_call0 fn = Ok (VStr s) ->
  iter_items_from_resource r = Ok (map (fun c => VStr (String c "")) (chars s)).
Proof.
  intros Hr Hc. unfold iter_items_from_resource, cand_attrs.
  cbn [items_from_attrs]. rewrite Hr. cbn [bind].
  assert (C : callable fn = true) by (destruct fn; try discriminate Hc; reflexivity).
  rewrite C. unfold call_for_items. rewrite Hc. reflexivity.
Qed.

Lemma callable_field_text_is_iterated_witness :
  iter_items_from_resource
    (VObj 1 "<Resource>" "<Resource>"
          [("data", Shared (VFun0 "<bound method data>" (Ok (VStr "ab"))))])
  = Ok [VStr "a"; VStr "b"].
Proof.
  apply (callable_field_text_is_iterated
           (VObj 1 "<Resource>" "<Resource>"
                 [("data", Shared (VFun0 "<bound method data>" (Ok (VStr "ab"))))])
           (VFun0 "<bound method data>" (Ok (VStr "ab"))) "ab");
    reflexivity.
Defined.

(** ** obj_to_dict_deep: wrappers, depth, and mapping-like objects *)

Section ProberFacts.

Variable json_loads : pyval -> res pyval.

Lemma try_mapping_none (o : pyval) (seen : seen_set) :
  py_hasattr o "keys" = Ok false -> try_mapping o seen = (Ok None, seen).
Proof. unfold try_mapping. intros ->. reflexivity. Qed.

Lemma probe_attrs_none (rec : walker) (o : pyval) (names : list string) :
  (forall a, In a names -> py_getattr o a = Ok VNone) ->
  forall seen, probe_attrs rec o names seen = (Ok None, seen).
Proof.
  induction names as [|a rest IH]; intros H seen; cbn [probe_attrs]; [reflexivity|].
  rewrite (H a (or_introl eq_refl)). apply IH. intros a' Ha. apply H. right; exact Ha.
Qed.

Lemma probe_methods_none (rec : walker) (o : pyval) (names : list string) :
  (forall a, In a names -> py_getattr o a = Ok VNone) ->
  forall seen, probe_methods rec o names seen = (Ok None, seen).
Proof.
  induction names as [|a rest IH]; intros H seen; cbn [probe_methods]; [reflexivity|].
  rewrite (H a (or_introl eq_refl)). cbn [callable].
  apply IH. intros a' Ha. apply H. right; exact Ha.
Qed.

Lemma probe_json_none (o : pyval) (seen : seen_set) :
  py_getattr o "json" = Ok VNone -> probe_json json_loads o seen = (Ok None, seen).
Proof. unfold probe_json. intros ->. reflexivity. Qed.

Lemma lookup_other {A : Type} (a k : string) (v : A) :
  a <> k -> lookup a [(k, v)] = None.
Proof.
  intro H. cbn [lookup]. destruct (String.eqb a k) eqn:E; [|reflexivity].
  apply String.eqb_eq in E. contradiction.
Qed.

Lemma levels_of_depth (n : nat) : Z.to_nat (Z.of_nat n + 1) = S n.
Proof. lia. Qed.

Lemma walk_body_object (rec : walker) (oid : nat) (o_str o_repr : string)
      (attrs : list (string * attr)) (seen : seen_set) :
  seen_mem oid seen = false ->
  walk_body json_loads rec (VObj oid o_str o_repr attrs) seen =
  or_else (try_mapping (VObj oid o_str o_repr attrs) (oid :: seen)) (fun seen =>
  or_else (probe_attrs rec (VObj oid o_str o_repr attrs) container_attrs seen)
          (fun seen =>
  or_else (probe_methods rec (VObj oid o_str o_repr attrs) conversion_methods seen)
          (fun seen =>
  or_else (probe_json json_loads (VObj oid o_str o_repr attrs) seen) (fun seen =>
  probe_vars rec attrs seen)))).
Proof. unfold walk_body. intros ->. reflexivity. Qed.

(** An object whose only attribute is one instance field, under a name the
    prober does not ask for, is unwrapped: the dict found in the field one
    level deeper, or else the one-field instance dictionary itself; when the
    walk of the field raises, the exception is swallowed and nothing is
    returned, not even the instance dictionary. *)
Theorem single_field_object_is_unwrapped
        (oid : nat) (o_str o_repr : string) (k : string) (x : pyval) (n : nat) :
  ~ In k probed_names ->
  obj_to_dict_deep json_loads (VObj oid o_str o_repr [(k, Stored x)]) (Z.of_nat n) =
  match fst (_walk json_loads n x [oid]) with
  | Ok (Some d) => Ok (Some d)
  | Ok None => Ok (Some [(k, x)])
  | Raise => Ok None
  end.
Proof.
  intro Hk. unfold obj_to_dict_deep. rewrite levels_of_depth.
  cbn [_walk]. rewrite walk_body_object by reflexivity.
  set (o := VObj oid o_str o_repr [(k, Stored x)]).
  assert (Hget : forall a, In a probed_names -> py_getattr o a = Ok VNone).
  { intros a Ha. unfold o. cbn [py_getattr].
    rewrite lookup_other; [reflexivity|]. intros ->. contradiction. }
  assert (Hkeys : py_hasattr o "keys" = Ok false).
  { unfold o. cbn [py_hasattr]. rewrite lookup_other; [reflexivity|].
    intros <-. apply Hk. left. reflexivity. }
  rewrite (try_mapping_none o [oid] Hkeys), or_else_next.
  rewrite (probe_attrs_none (_walk json_loads n) o container_attrs), or_else_next
    by (intros a Ha; apply Hget; right; apply in_or_app; left; exact Ha).
  rewrite (probe_methods_none (_walk json_loads n) o conversion_methods), or_else_next
    by (intros a Ha; apply Hget; right; apply in_or_app; right;
        apply in_or_app; left; exact Ha).
  rewrite (probe_json_none o [oid]), or_else_next
    by (apply Hget; right; apply in_or_app; right; apply in_or_app; right;
        left; reflexivity).
  unfold probe_vars. cbn [instance_dict].
  destruct (_walk json_loads n x [oid]) as [[[d|]|] s']; reflexivity.
Qed.

End ProberFacts.

Lemma single_field_object_is_unwrapped_witness :
  obj_to_dict_deep no_json
    (VObj 5 "<Item>" "<Item>" [("_wrapped", Stored broken_record)]) (Z.of_nat 3)
  = Ok None.
Proof.
  rewrite (single_field_object_is_unwrapped no_json 5 "<Item>" "<Item>"
             "_wrapped" broken_record 3).
  - reflexivity.
  - unfold probed_names, container_attrs, conversion_methods. cbn [app In].
    intro H. repeat (destruct H as [H | H]; [discriminate H|]). exact H.
Defined.

Lemma wrapper_has_only_data (j : nat) (x : pyval) (a : string) :
  In a later_container_attrs \/ In a conversion_methods \/ a = "json" ->
  py_getattr (VObj j "<Wrapper>" "<Wrapper>" [("data", Stored x)]) a = Ok VNone.
Proof.
  unfold later_container_attrs, container_attrs, conversion_methods. cbn [tl].
  intros [H | [H | ->]]; split_in; reflexivity.
Qed.

Lemma seen_mem_cons (j oid : nat) (seen : seen_set) :
  seen_mem j (oid :: seen) = (j =? oid) || seen_mem j seen.
Proof. reflexivity. Qed.

Lemma walk_data_wrappers (json_loads : pyval -> res pyval) (d : fieldmap) :
  forall n k seen,
    (forall j, j <= S k -> seen_mem j seen = false) ->
    fst (_walk json_loads (S n) (data_wrappers (S k) d) seen) =
    Ok (Some (if k <=? n then d else [("data", data_wrappers (k - n) d)])).
Proof.
  induction n as [|n IH]; intros k seen Hseen.
  - cbn [_walk data_wrappers]. rewrite walk_body_object by (apply Hseen; lia).
    rewrite try_mapping_none, or_else_next by reflexivity.
    change container_attrs with ("data" :: later_container_attrs).
    cbn [probe_attrs py_getattr lookup String.eqb Ascii.eqb Bool.eqb].
    destruct k as [|k]; [reflexivity|].
    cbn [data_wrappers].
    rewrite probe_attrs_none, or_else_next
      by (intros a Ha; apply wrapper_has_only_data; left; exact Ha).
    rewrite probe_methods_none, or_else_next
      by (intros a Ha; apply wrapper_has_only_data; right; left; exact Ha).
    rewrite probe_json_none, or_else_next
      by (apply wrapper_has_only_data; right; right; reflexivity).
    reflexivity.
  - change (_walk json_loads (S (S n)))
      with (walk_body json_loads (_walk json_loads (S n))).
    cbn [data_wrappers]. rewrite walk_body_object by (apply Hseen; lia).
    rewrite try_mapping_none, or_else_next by reflexivity.
    change container_attrs with ("data" :: later_container_attrs).
    cbn [probe_attrs py_getattr lookup String.eqb Ascii.eqb Bool.eqb].
    destruct k as [|k]; [reflexivity|].
    assert (Hin : forall j, j <= S k -> seen_mem j (S (S k) :: seen) = false).
    { intros j Hj. rewrite seen_mem_cons.
      rewrite (Hseen j) by lia.
      destruct (Nat.eqb_spec j (S (S k))); [lia | reflexivity]. }
    pose proof (IH k (S (S k) :: seen) Hin) as W.
    destruct (_walk json_loads (S n) (data_wrappers (S k) d) (S (S k) :: seen))
      as [r0 s0] eqn:E.
    cbn [fst] in W. subst r0.
    cbn [data_wrappers]. rewrite or_else_found. reflexivity.
Qed.

(** The depth bound, on a dict held under [w] objects that each keep the
    next in their field [data]: the prober returns the dict when
    [w <= max_depth + 1]; with less depth it does not return none, it returns
    the instance dictionary of the wrapper it stopped at, whose only key is
    [data]. *)
Theorem depth_bounds_the_unwrapping
        (json_loads : pyval -> res pyval) (d : fieldmap) (k : nat) (max_depth : Z) :
  (0 <= max_depth)%Z ->
  obj_to_dict_deep json_loads (data_wrappers (S k) d) max_depth =
  Ok (Some (if k <=? Z.to_nat max_depth then d
            else [("data", data_wrappers (k - Z.to_nat max_depth) d)])).
Proof.
  intro H. unfold obj_to_dict_deep.
  replace (Z.to_nat (max_depth + 1)) with (S (Z.to_nat max_depth)) by lia.
  apply walk_data_wrappers. reflexivity.
Qed.

Lemma depth_bounds_the_unwrapping_witness :
  obj_to_dict_deep no_json (data_wrappers 4 [("id", VInt 1)]) 3
  = Ok (Some [("id", VInt 1)]) /\
  obj_to_dict_deep no_json (data_wrappers 5 [("id", VInt 1)]) 3
  = Ok (Some [("data", data_wrappers 1 [("id", VInt 1)])]).
Proof.
  split.
  - apply (depth_bounds_the_unwrapping no_json [("id", VInt 1)] 3 3). lia.
  - apply (depth_bounds_the_unwrapping no_json [("id", VInt 1)] 4 3). lia.
Defined.

Lemma field_names_strs (ks : list string) : field_names (map VStr ks) = Ok ks.
Proof.
  induction ks as [|k t IH]; cbn [map field_names]; [reflexivity|].
  rewrite IH. reflexivity.
Qed.

Lemma dict_set_new (acc : fieldmap) (k : string) (v : pyval) :
  ~ In k (map fst acc) -> dict_set acc k v = acc ++ [(k, v)].
Proof.
  induction acc as [|[k' v'] t IH]; cbn [dict_set map fst In app]; intro H;
    [reflexivity|].
  destruct (String.eqb k k') eqn:E.
  - apply String.eqb_eq in E. subst k'. contradiction H. left; reflexivity.
  - rewrite IH; [reflexivity|]. intro Hin. apply H. right; exact Hin.
Qed.

Lemma comprehend_fresh (rep : string) (f : string -> res pyval) (g : string -> pyval)
      (ks : list string) :
  (forall k, In k ks -> f k = Ok (g k)) ->
  NoDup ks ->
  forall acc, (forall k, In k ks -> ~ In k (map fst acc)) ->
              comprehend (VFun1 rep f) ks acc =
              Ok (acc ++ map (fun k => (k, g k)) ks).
Proof.
  intros Hf Hnd. induction Hnd as [|k t Hk Hnd IH]; intros acc Hacc;
    cbn [comprehend map py_call1].
  - rewrite app_nil_r. reflexivity.
  - rewrite (Hf k (or_introl eq_refl)). cbn [bind].
    rewrite (dict_set_new acc k (g k) (Hacc k (or_introl eq_refl))).
    rewrite IH.
    + rewrite <- app_assoc. reflexivity.
    + intros k' Hk'. apply Hf. right; exact Hk'.
    + intros k' Hk' Hin. rewrite map_app in Hin. apply in_app_or in Hin.
      destruct Hin as [Hin | Hin].
      * exact (Hacc k' (or_intror Hk') Hin).
      * cbn [map fst In] in Hin. destruct Hin as [<- | []]. exact (Hk Hk').
Qed.

Lemma getattr_gives_hasattr (oid : nat) (o_str o_repr : string)
      (attrs : list (string * attr)) (name : string) (v : pyval) :
  py_getattr (VObj oid o_str o_repr attrs) name = Ok v -> v <> VNone ->
  py_hasattr (VObj oid o_str o_repr attrs) name = Ok true.
Proof.
  cbn [py_getattr py_hasattr].
  destruct (lookup name attrs) as [[x|x|]|]; intros H Hv; try reflexivity.
  - discriminate H.
  - apply Ok_inj in H. subst v. contradiction Hv. reflexivity.
Qed.

(** An object that has [keys] and [get] is materialized before any other
    strategy is tried: when [keys()] lists distinct names and [get] returns
    for each of them, the FieldMap binds each name to what [get] returns for
    it, in the order of [keys()], whatever the object holds besides. *)
Theorem mapping_like_object_is_materialized
        (json_loads : pyval -> res pyval)
        (oid : nat) (o_str o_repr : string) (attrs : list (string * attr))
        (rk rg : string) (ks : list string)
        (f : string -> res pyval) (g : string -> pyval) (max_depth : Z) :
  (0 <= max_depth)%Z ->
  py_getattr (VObj oid o_str o_repr attrs) "keys" =
    Ok (VFun0 rk (Ok (VList (map VStr ks)))) ->
  py_getattr (VObj oid o_str o_repr attrs) "get" = Ok (VFun1 rg f) ->
  (forall k, In k ks -> f k = Ok (g k)) ->
  NoDup ks ->
  obj_to_dict_deep json_loads (VObj oid o_str o_repr attrs) max_depth =
  Ok (Some (map (fun k => (k, g k)) ks)).
Proof.
  intros Hd Hkeys Hget Hf Hnd. unfold obj_to_dict_deep.
  replace (Z.to_nat (max_depth + 1)) with (S (Z.to_nat max_depth)) by lia.
  cbn [_walk]. rewrite walk_body_object by reflexivity.
  assert (M : try_mapping (VObj oid o_str o_repr attrs) [oid] =
              (Ok (Some (map (fun k => (k, g k)) ks)), [oid])).
  { unfold try_mapping.
    rewrite (getattr_gives_hasattr oid o_str o_repr attrs "keys" _ Hkeys)
      by discriminate.
    rewrite (getattr_gives_hasattr oid o_str o_repr attrs "get" _ Hget)
      by discriminate.
    unfold materialize. rewrite Hkeys. cbn [bind py_call0 py_list].
    rewrite field_names_strs. cbn [bind]. rewrite Hget. cbn [bind].
    rewrite (comprehend_fresh rg f g ks Hf Hnd [])
      by (intros k _ H; exact H).
    reflexivity. }
  rewrite M, or_else_found. reflexivity.
Qed.

Lemma mapping_like_object_is_materialized_witness :
  obj_to_dict_deep no_json
    (VObj 3 "<Row>" "<Row>"
          [("keys", Shared (VFun0 "<bound method keys>"
                              (Ok (VList (map VStr ["id"; "name"])))));
           ("get", Shared (VFun1 "<bound method get>"
                             (fun k => Ok (VStr ("value of " +++ k)))));
           ("data", Stored (VDict [("id", VInt 0)]))])
    3
  = Ok (Some [("id", VStr "value of id"); ("name", VStr "value of name")]).
Proof.
  apply (mapping_like_object_is_materialized no_json 3 "<Row>" "<Row>" _
           "<bound method keys>" "<bound method get>" ["id"; "name"]
           (fun k => Ok (VStr ("value of " +++ k)))
           (fun k => VStr ("value of " +++ k)) 3).
  - lia.
  - reflexivity.
  - reflexivity.
  - intros k _. reflexivity.
  - repeat constructor; cbn [In]; intuition discriminate.
Defined.

(** ** The process boundary *)

Example remove_scheme :
  remove_all "http://" (remove_all "https://" "https://tenant.example/") = "tenant.example/".
Proof. reflexivity. Qed.

Example env_values_example :
  env_values example_env example_netloc
  = Return (("tenant.jamfcloud.com", "https://tenant.jamfcloud.com"), "client", "secret").
Proof. reflexivity. Qed.

Example env_values_without_netloc :
  env_values example_env (fun _ => Ok "")
  = Return (("tenant.jamfcloud.com", "https://tenant.jamfcloud.com"), "client", "secret").
Proof. reflexivity. Qed.

Lemma nonempty_true (s : string) : nonempty s = true <-> s <> "".
Proof.
  unfold nonempty. rewrite negb_true_iff. split.
  - intros H E. subst s. discriminate H.
  - intro H. apply String.eqb_neq. exact H.
Qed.

(** A variable that is not set, or set to the empty string. *)
Lemma env_values_exit_iff (getenv : string -> option string) (netloc : string -> res string) :
  env_values getenv netloc = Exit env_exit_message <->
  (getenv "JAMF_URL" = None \/ getenv "JAMF_URL" = Some "") \/
  (getenv "JAMF_CLIENT_ID" = None \/ getenv "JAMF_CLIENT_ID" = Some "") \/
  (getenv "JAMF_CLIENT_SECRET" = None \/ getenv "JAMF_CLIENT_SECRET" = Some "").
Proof.
  unfold env_values.
  destruct (getenv "JAMF_URL") as [url|]; [|split; [auto | reflexivity]].
  destruct (getenv "JAMF_CLIENT_ID") as [cid|];
    [|split; [auto | destruct url; reflexivity]].
  destruct (getenv "JAMF_CLIENT_SECRET") as [csec|];
    [|split; [auto 6 | reflexivity]].
  destruct url as [|a url]; [split; [auto | reflexivity]|].
  destruct cid as [|b cid]; [split; [auto 6 | reflexivity]|].
  destruct csec as [|c csec]; [split; [auto 6 | reflexivity]|].
  cbn [nonempty String.eqb negb andb].
  split.
  - destruct (netloc (String a url)); discriminate.
  - intros [[H | H] | [[H | H] | [H | H]]]; discriminate H.
Qed.

(** [env_values] ends the process exactly when one of the three variables is
    not set or is empty.  What it returns otherwise is the client id and the
    secret of the environment, neither of them empty, a host without a slash
    at either end, and the same host behind [https://]. *)
Theorem env_values_contract
        (getenv : string -> option string) (netloc : string -> res string) :
  (env_values getenv netloc = Exit env_exit_message <->
   (getenv "JAMF_URL" = None \/ getenv "JAMF_URL" = Some "") \/
   (getenv "JAMF_CLIENT_ID" = None \/ getenv "JAMF_CLIENT_ID" = Some "") \/
   (getenv "JAMF_CLIENT_SECRET" = None \/ getenv "JAMF_CLIENT_SECRET" = Some "")) /\
  (forall host url cid csec,
      env_values getenv netloc = Return ((host, url), cid, csec) ->
      getenv "JAMF_CLIENT_ID" = Some cid /\ cid <> "" /\
      getenv "JAMF_CLIENT_SECRET" = Some csec /\ csec <> "" /\
      url = "https://" +++ host /\
      (forall c t, chars host = c :: t -> is_slash c = false) /\
      (forall u z, chars host = u ++ [z] -> is_slash z = false)).
Proof.
  split; [apply env_values_exit_iff|].
  unfold env_values. intros host url cid csec H.
  destruct (getenv "JAMF_URL") as [u0|]; [|discriminate H].
  destruct (getenv "JAMF_CLIENT_ID") as [cid0|]; [|discriminate H].
  destruct (getenv "JAMF_CLIENT_SECRET") as [csec0|]; [|discriminate H].
  destruct (nonempty u0) eqn:Nu; cbn [andb] in H; [|discriminate H].
  destruct (nonempty cid0) eqn:Nc; cbn [andb] in H; [|discriminate H].
  destruct (nonempty csec0) eqn:Ns; [|discriminate H].
  destruct (netloc u0) as [n|]; [|discriminate H].
  cbv zeta in H. injection H as Hhost Hurl Hcid Hcsec. subst cid0 csec0.
  apply nonempty_true in Nc. apply nonempty_true in Ns.
  repeat split; try assumption; try reflexivity.
  - rewrite <- Hurl, <- Hhost. reflexivity.
  - intros c t E. rewrite <- Hhost, chars_text in E.
    exact (strip_head is_slash _ c t E).
  - intros u z E. rewrite <- Hhost, chars_text in E.
    exact (strip_last is_slash _ u z E).
Qed.

Lemma str_append_assoc (a b c : string) : (a +++ b) +++ c = a +++ (b +++ c).
Proof.
  induction a as [|x a IH]; cbn [String.append]; [reflexivity|].
  rewrite IH. reflexivity.
Qed.

Lemma try_auth_returns (t : pyval) (names : list string) :
  (forall m, In m names -> exists v, py_getattr t m = Ok v) ->
  try_auth t names = Ok tt.
Proof.
  induction names as [|m rest IH]; intro H; cbn [try_auth]; [reflexivity|].
  destruct (H m (or_introl eq_refl)) as [v ->]. cbn [bind].
  assert (R : try_auth t rest = Ok tt)
    by (apply IH; intros m' Hm; apply H; right; exact Hm).
  destruct (callable v); [|exact R].
  destruct (py_call0 v); [reflexivity | exact R].
Qed.

(** A tenant that can be built for the bare host is returned whatever its
    authentication methods do: each of them may be missing, or raise when
    called, and the tenant is returned all the same, without any sign that no
    authentication took place.  Only reading one of the methods must not
    raise. *)
Theorem client_returned_without_authentication
        (getenv : string -> option string) (netloc : string -> res string)
        (new_http_config : res unit)
        (new_tenant : string -> string -> string -> res pyval)
        (error_text : string -> string) (valid_auth_methods : pyval)
        (host url cid csec : string) (t : pyval) :
  env_values getenv netloc = Return ((host, url), cid, csec) ->
  new_http_config = Ok tt ->
  new_tenant host cid csec = Ok t ->
  (forall m, In m auth_methods -> exists v, py_getattr t m = Ok v) ->
  build_client getenv netloc new_http_config new_tenant error_text valid_auth_methods
  = Return t.
Proof.
  intros He Hc Ht Hm. unfold build_client. rewrite He, Hc.
  cbn [try_candidates]. rewrite Ht. cbn [bind].
  rewrite (try_auth_returns t auth_methods Hm). reflexivity.
Qed.

Lemma client_returned_without_authentication_witness :
  build_client example_env example_netloc (Ok tt)
               (fun _ _ _ => Ok unauthenticated_tenant)
               (fun _ => "refused") VNone
  = Return unauthenticated_tenant.
Proof.
  apply (client_returned_without_authentication example_env example_netloc (Ok tt)
           (fun _ _ _ => Ok unauthenticated_tenant) (fun _ => "refused") VNone
           "tenant.jamfcloud.com" "https://tenant.jamfcloud.com" "client" "secret").
  - reflexivity.
  - reflexivity.
  - reflexivity.
  - intros m Hm. unfold auth_methods in Hm. split_in; eexists; reflexivity.
Defined.

(** The candidates are tried in the order bare host, then the host behind
    [https://]: when no tenant can be built for the first (the constructor
    raises) and one can for the second, that one is returned; when the
    constructor raises for both, the process ends with the message that lists
    the two candidates in that order, each with the text of its error. *)
Theorem client_candidates_in_order
        (getenv : string -> option string) (netloc : string -> res string)
        (new_http_config : res unit)
        (new_tenant : string -> string -> string -> res pyval)
        (error_text : string -> string) (valid_auth_methods : pyval)
        (host url cid csec : string) :
  env_values getenv netloc = Return ((host, url), cid, csec) ->
  new_http_config = Ok tt ->
  new_tenant host cid csec = Raise ->
  (forall t, new_tenant url cid csec = Ok t ->
             (forall m, In m auth_methods -> exists v, py_getattr t m = Ok v) ->
             build_client getenv netloc new_http_config new_tenant error_text
                          valid_auth_methods = Return t) /\
  (new_tenant url cid csec = Raise ->
   build_client getenv netloc new_http_config new_tenant error_text valid_auth_methods
   = Exit ("Could not instantiate Tenant with any fqdn form. Tried:" +++ nl +++
           "  - fqdn='" +++ host +++ "': " +++ error_text host +++ nl +++
           "  - fqdn='" +++ url +++ "': " +++ error_text url +++ nl +++
           "VALID_AUTH_METHODS: " +++ py_str valid_auth_methods +++ nl)).
Proof.
  intros He Hc H1. unfold build_client. rewrite He, Hc.
  cbn [try_candidates]. rewrite H1. cbn [bind app]. split.
  - intros t H2 Hm. rewrite H2. cbn [bind].
    rewrite (try_auth_returns t auth_methods Hm). reflexivity.
  - intros H2. rewrite H2. cbn [bind app].
    unfold client_exit_message, tried_line. cbn [map fst snd String.concat].
    rewrite !str_append_assoc. reflexivity.
Qed.

Lemma client_candidates_in_order_witness :
  build_client example_env example_netloc (Ok tt)
               (fun fq _ _ => if String.eqb fq "tenant.jamfcloud.com" then Raise
                              else Ok unauthenticated_tenant)
               (fun _ => "refused") VNone
  = Return unauthenticated_tenant.
Proof.
  apply (proj1 (client_candidates_in_order example_env example_netloc (Ok tt)
                  (fun fq _ _ => if String.eqb fq "tenant.jamfcloud.com" then Raise
                                 else Ok unauthenticated_tenant)
                  (fun _ => "refused") VNone
                  "tenant.jamfcloud.com" "https://tenant.jamfcloud.com"
                  "client" "secret" eq_refl eq_refl eq_refl)
               unauthenticated_tenant).
  - reflexivity.
  - intros m Hm. unfold auth_methods in Hm. split_in; eexists; reflexivity.
Defined.

(** ** The getter methods and the JSON strategy *)

Lemma items_from_getters_skip (r : pyval) (pre rest : list string) :
  (forall m, In m pre -> exists v, py_getattr r m = Ok v /\ callable v = false) ->
  items_from_getters r (pre ++ rest) = items_from_getters r rest.
Proof.
  induction pre as [|m pre IH]; intro H; cbn [app items_from_getters]; [reflexivity|].
  destruct (H m (or_introl eq_refl)) as (v & -> & Hv). cbn [bind].
  rewrite (call_nothing v _ (call_for_items v) Hv).
  apply IH. intros m' Hm. apply H. right; exact Hm.
Qed.

(** The getter methods are asked only when no candidate field gives items:
    then the first of [get_all], [to_list], [list], [all] that is callable and
    returns a list gives the items. *)
Theorem getter_method_is_the_fallback
        (r fn : pyval) (pre post : list string) (m : string) (l : list pyval) :
  (forall a, In a cand_attrs ->
             exists v, py_getattr r a = Ok v /\
                       (v = VNone \/ is_str_bytes_dict v = true)) ->
  getter_methods = pre ++ m :: post ->
  (forall m', In m' pre -> exists v, py_getattr r m' = Ok v /\ callable v = false) ->
  py_getattr r m = Ok fn ->
  py_call0 fn = Ok (VList l) ->
  iter_items_from_resource r = Ok l.
Proof.
  intros Hattrs Hg Hpre Hm Hc. unfold iter_items_from_resource.
  rewrite (items_from_attrs_text r cand_attrs Hattrs). cbn [bind].
  rewrite Hg, (items_from_getters_skip r pre (m :: post) Hpre).
  cbn [items_from_getters]. rewrite Hm. cbn [bind].
  assert (C : callable fn = true) by (destruct fn; try discriminate Hc; reflexivity).
  rewrite C. unfold call_for_items. rewrite Hc. reflexivity.
Qed.

Lemma getter_method_is_the_fallback_witness :
  iter_items_from_resource
    (VObj 1 "<Resource>" "<Resource>"
          [("to_list", Shared (VFun0 "<bound method to_list>"
                                 (Ok (VList [script_item]))))])
  = Ok [script_item].
Proof.
  apply (getter_method_is_the_fallback _
           (VFun0 "<bound method to_list>" (Ok (VList [script_item])))
           ["get_all"] ["list"; "all"] "to_list").
  - intros a Ha. unfold cand_attrs in Ha.
    split_in; eexists; (split; [reflexivity|]); auto.
  - reflexivity.
  - intros m' Hm. split_in. eexists. split; reflexivity.
  - reflexivity.
  - reflexivity.
Defined.

(** An object that is not mapping-like, has none of the container
    attributes and none of the conversion methods, and whose [json()] returns
    a text that decodes to a dict, is probed to that dict; the instance
    dictionary is not consulted. *)
Theorem json_method_gives_the_fieldmap
        (json_loads : pyval -> res pyval)
        (oid : nat) (o_str o_repr : string) (attrs : list (string * attr))
        (rep s : string) (d : fieldmap) (max_depth : Z) :
  (0 <= max_depth)%Z ->
  py_hasattr (VObj oid o_str o_repr attrs) "keys" = Ok false ->
  (forall a, In a (container_attrs ++ conversion_methods) ->
             py_getattr (VObj oid o_str o_repr attrs) a = Ok VNone) ->
  py_getattr (VObj oid o_str o_repr attrs) "json" = Ok (VFun0 rep (Ok (VStr s))) ->
  json_loads (VStr s) = Ok (VDict d) ->
  obj_to_dict_deep json_loads (VObj oid o_str o_repr attrs) max_depth = Ok (Some d).
Proof.
  intros Hd Hkeys Hnone Hjson Hloads. unfold obj_to_dict_deep.
  replace (Z.to_nat (max_depth + 1)) with (S (Z.to_nat max_depth)) by lia.
  cbn [_walk]. rewrite walk_body_object by reflexivity.
  rewrite (try_mapping_none _ [oid] Hkeys), or_else_next.
  rewrite probe_attrs_none, or_else_next
    by (intros a Ha; apply Hnone, in_or_app; left; exact Ha).
  rewrite probe_methods_none, or_else_next
    by (intros a Ha; apply Hnone, in_or_app; right; exact Ha).
  unfold probe_json. rewrite Hjson. cbn [callable py_call0 _json_try_parse].
  rewrite Hloads. rewrite or_else_found. reflexivity.
Qed.

Lemma json_method_gives_the_fieldmap_witness :
  obj_to_dict_deep example_json_loads
    (VObj 6 "<Response>" "<Response>"
          [("status", Stored (VInt 200));
           ("json", Shared (VFun0 "<bound method json>"
                              (Ok (VStr example_json_text))))])
    3
  = Ok (Some [("id", VInt 4)]).
Proof.
  apply (json_method_gives_the_fieldmap example_json_loads
           6 "<Response>" "<Response>" _ "<bound method json>" example_json_text).
  - lia.
  - reflexivity.
  - intros a Ha. unfold container_attrs, conversion_methods in Ha. cbn [app] in Ha.
    split_in; reflexivity.
  - reflexivity.
  - reflexivity.
Defined.

Lemma sanitize_name_idempotent_witness :
  sanitize_name (VStr (sanitize_name (VStr "  42 Things!  ")))
  = sanitize_name (VStr "  42 Things!  ").
Proof. exact (proj1 (sanitize_name_idempotent (VStr "  42 Things!  "))). Defined.

Lemma env_values_contract_witness :
  example_env "JAMF_CLIENT_ID" = Some "client" /\
  "https://tenant.jamfcloud.com" = "https://" +++ "tenant.jamfcloud.com".
Proof.
  destruct (proj2 (env_values_contract example_env example_netloc)
              "tenant.jamfcloud.com" "https://tenant.jamfcloud.com"
              "client" "secret" eq_refl)
    as (Hcid & _ & _ & _ & Hurl & _).
  split; [exact Hcid | exact Hurl].
Defined.
